(** * Sathi Connect Care: storage policies, join window and chat merge

    A shallow embedding of

    - the SQL migration (tables [profiles], [chat_conversations],
      [chat_messages], [appointments], their CHECK constraints and their
      row-level-security policies), and
    - the two React components that talk to it, [AppointmentDashboard] and
      [ChatInterface].

    The sessions table, the signup trigger and the video page follow the
    chat and the appointment list, further down.

    Tables are lists of rows in heap order.  [auth.uid()] is an
    [option uuid]: [None] is the SQL NULL of an anonymous session, and a
    comparison with NULL is never true.  Instants are milliseconds since
    the epoch (the time value of a JavaScript [Date]).  Text typed by the
    user is a sequence of UTF-16 code units, and the content of a message
    is such a sequence that the server can read as text; identifiers and
    the values of enumerated text columns are plain strings.

    A handler is a function on the world it acts in.  The calls that the
    chat starts and does not wait for are kept in flight next to the
    component: they are answered, and their answers arrive, in any
    order. *)

From Stdlib Require Import ZArith Ascii.
From stdpp Require Import base decidable option list strings sorting pretty gmap.

(** ** Data model *)

Definition uuid := string.
Definition timestamptz := Z.
Definition jsstring := list N.

(** A value of a TEXT column is a sequence of characters of the server's
    encoding: U+0000 is none of them, and a surrogate stands for nothing
    unless a high one is followed by a low one. *)
Definition high_surrogate (c : N) : bool := (55296 <=? c)%N && (c <=? 56319)%N.

Definition low_surrogate (c : N) : bool := (56320 <=? c)%N && (c <=? 57343)%N.

Fixpoint well_formed (s : jsstring) : bool :=
  match s with
  | [] => true
  | c :: s' =>
      if (c =? 0)%N then false
      else if high_surrogate c then
        match s' with
        | c' :: s'' => low_surrogate c' && well_formed s''
        | [] => false
        end
      else if low_surrogate c then false
      else well_formed s'
  end.

Record text := Text {
  code_units : jsstring;
  text_ok : well_formed code_units = true
}.

(** [CREATE TYPE public.user_role AS ENUM ('student', 'counselor', 'admin')] *)
Inductive user_role := student | counselor | admin.

#[global] Instance user_role_eq_dec : EqDecision user_role.
Proof. solve_decision. Defined.

Module profiles.
Record Row := {
  id : uuid;
  email : string;
  first_name : string;
  last_name : string;
  phone : option string;
  profile_image_url : option string;
  role : option user_role;
  is_active : option bool;
  last_login_at : option timestamptz;
  created_at : option timestamptz;
  updated_at : option timestamptz
}.
End profiles.

Module chat_conversations.
Record Row := {
  id : uuid;
  student_id : uuid;
  counselor_id : uuid;
  conversation_type : option string;
  status : option string;
  started_at : option timestamptz;
  last_message_at : option timestamptz;
  created_at : option timestamptz;
  updated_at : option timestamptz
}.

(** The [Update] shape of the generated types: an absent key leaves the
    column alone. *)
Record Update := {
  set_id : option uuid;
  set_student_id : option uuid;
  set_counselor_id : option uuid;
  set_conversation_type : option (option string);
  set_status : option (option string);
  set_started_at : option (option timestamptz);
  set_last_message_at : option (option timestamptz);
  set_created_at : option (option timestamptz);
  set_updated_at : option (option timestamptz)
}.

Definition no_change : Update :=
  Build_Update None None None None None None None None None.

Definition apply (u : Update) (r : Row) : Row :=
  {| id := default (id r) (set_id u);
     student_id := default (student_id r) (set_student_id u);
     counselor_id := default (counselor_id r) (set_counselor_id u);
     conversation_type := default (conversation_type r) (set_conversation_type u);
     status := default (status r) (set_status u);
     started_at := default (started_at r) (set_started_at u);
     last_message_at := default (last_message_at r) (set_last_message_at u);
     created_at := default (created_at r) (set_created_at u);
     updated_at := default (updated_at r) (set_updated_at u) |}.

(** [update_updated_at_column()], run BEFORE UPDATE on each row. *)
Definition update_updated_at_column (now : timestamptz) (r : Row) : Row :=
  {| id := id r; student_id := student_id r; counselor_id := counselor_id r;
     conversation_type := conversation_type r; status := status r;
     started_at := started_at r; last_message_at := last_message_at r;
     created_at := created_at r; updated_at := Some now |}.
End chat_conversations.

Module chat_messages.
Record Row := {
  id : uuid;
  conversation_id : uuid;
  sender_id : uuid;
  message_type : option string;
  content : option text;
  file_url : option string;
  file_name : option string;
  status : option string;
  read_at : option timestamptz;
  created_at : option timestamptz
}.
End chat_messages.

Module appointments.
Record Row := {
  id : uuid;
  student_id : uuid;
  counselor_id : uuid;
  conversation_id : option uuid;
  appointment_type : option string;
  status : option string;
  scheduled_start : timestamptz;
  scheduled_end : timestamptz;
  meeting_url : option string;
  notes : option string;
  reason_for_visit : option jsstring;
  is_emergency : option bool;
  created_at : option timestamptz;
  updated_at : option timestamptz
}.

Record Update := {
  set_id : option uuid;
  set_student_id : option uuid;
  set_counselor_id : option uuid;
  set_conversation_id : option (option uuid);
  set_appointment_type : option (option string);
  set_status : option (option string);
  set_scheduled_start : option timestamptz;
  set_scheduled_end : option timestamptz;
  set_meeting_url : option (option string);
  set_notes : option (option string);
  set_reason_for_visit : option (option jsstring);
  set_is_emergency : option (option bool);
  set_created_at : option (option timestamptz);
  set_updated_at : option (option timestamptz)
}.

Definition no_change : Update :=
  Build_Update None None None None None None None None None None None None
               None None.

Definition apply (u : Update) (r : Row) : Row :=
  {| id := default (id r) (set_id u);
     student_id := default (student_id r) (set_student_id u);
     counselor_id := default (counselor_id r) (set_counselor_id u);
     conversation_id := default (conversation_id r) (set_conversation_id u);
     appointment_type := default (appointment_type r) (set_appointment_type u);
     status := default (status r) (set_status u);
     scheduled_start := default (scheduled_start r) (set_scheduled_start u);
     scheduled_end := default (scheduled_end r) (set_scheduled_end u);
     meeting_url := default (meeting_url r) (set_meeting_url u);
     notes := default (notes r) (set_notes u);
     reason_for_visit := default (reason_for_visit r) (set_reason_for_visit u);
     is_emergency := default (is_emergency r) (set_is_emergency u);
     created_at := default (created_at r) (set_created_at u);
     updated_at := default (updated_at r) (set_updated_at u) |}.

Definition update_updated_at_column (now : timestamptz) (r : Row) : Row :=
  {| id := id r; student_id := student_id r; counselor_id := counselor_id r;
     conversation_id := conversation_id r;
     appointment_type := appointment_type r; status := status r;
     scheduled_start := scheduled_start r; scheduled_end := scheduled_end r;
     meeting_url := meeting_url r; notes := notes r;
     reason_for_visit := reason_for_visit r; is_emergency := is_emergency r;
     created_at := created_at r; updated_at := Some now |}.
End appointments.

Record Database := {
  db_profiles : list profiles.Row;
  db_chat_conversations : list chat_conversations.Row;
  db_chat_messages : list chat_messages.Row;
  db_appointments : list appointments.Row
}.

Definition with_chat_conversations (l : list chat_conversations.Row)
    (db : Database) : Database :=
  {| db_profiles := db_profiles db; db_chat_conversations := l;
     db_chat_messages := db_chat_messages db;
     db_appointments := db_appointments db |}.

Definition with_chat_messages (l : list chat_messages.Row)
    (db : Database) : Database :=
  {| db_profiles := db_profiles db;
     db_chat_conversations := db_chat_conversations db;
     db_chat_messages := l; db_appointments := db_appointments db |}.

Definition with_appointments (l : list appointments.Row)
    (db : Database) : Database :=
  {| db_profiles := db_profiles db;
     db_chat_conversations := db_chat_conversations db;
     db_chat_messages := db_chat_messages db; db_appointments := l |}.

(** ** Constraints of the schema *)

(** [CHECK (col IN (...))]: a NULL column passes, as in SQL. *)
Definition check_in (v : option string) (allowed : list string) : bool :=
  match v with
  | None => true
  | Some s => bool_decide (s ∈ allowed)
  end.

Definition chat_conversations_checks (r : chat_conversations.Row) : bool :=
  check_in (chat_conversations.conversation_type r)
           ["support"; "consultation"; "emergency"]
  && check_in (chat_conversations.status r) ["active"; "ended"; "archived"].

Definition chat_messages_checks (r : chat_messages.Row) : bool :=
  check_in (chat_messages.message_type r) ["text"; "file"; "image"; "video"]
  && check_in (chat_messages.status r) ["sent"; "delivered"; "read"].

Definition appointments_checks (r : appointments.Row) : bool :=
  check_in (appointments.appointment_type r) ["chat"; "video"; "in_person"]
  && check_in (appointments.status r)
       ["scheduled"; "confirmed"; "in_progress"; "completed"; "cancelled"].

Definition profile_exists (db : Database) (k : uuid) : bool :=
  bool_decide (k ∈ profiles.id <$> db_profiles db).

Definition conversation_exists (db : Database) (k : uuid) : bool :=
  bool_decide (k ∈ chat_conversations.id <$> db_chat_conversations db).

(** [REFERENCES] clauses, one function per table. *)
Definition chat_conversations_fkeys (db : Database)
    (r : chat_conversations.Row) : bool :=
  profile_exists db (chat_conversations.student_id r)
  && profile_exists db (chat_conversations.counselor_id r).

Definition chat_messages_fkeys (db : Database) (r : chat_messages.Row) : bool :=
  conversation_exists db (chat_messages.conversation_id r)
  && profile_exists db (chat_messages.sender_id r).

Definition appointments_fkeys (db : Database) (r : appointments.Row) : bool :=
  profile_exists db (appointments.student_id r)
  && profile_exists db (appointments.counselor_id r)
  && match appointments.conversation_id r with
     | None => true
     | Some k => conversation_exists db k
     end.

(** ** Row-level-security policies *)

(** [auth.uid() = col] for a NOT NULL column. *)
Definition uid_is (uid : option uuid) (col : uuid) : bool :=
  bool_decide (uid = Some col).

(** "Users can view all profiles" *)
Definition profiles_select_using (uid : option uuid) (r : profiles.Row) : bool :=
  true.

(** "Users can view own conversations" *)
Definition chat_conversations_select_using (uid : option uuid)
    (r : chat_conversations.Row) : bool :=
  uid_is uid (chat_conversations.student_id r)
  || uid_is uid (chat_conversations.counselor_id r).

(** "Students can create conversations" *)
Definition chat_conversations_insert_check (uid : option uuid)
    (r : chat_conversations.Row) : bool :=
  uid_is uid (chat_conversations.student_id r).

(** "Participants can update conversations" *)
Definition chat_conversations_update_using (uid : option uuid)
    (r : chat_conversations.Row) : bool :=
  uid_is uid (chat_conversations.student_id r)
  || uid_is uid (chat_conversations.counselor_id r).

(** The sub-select shared by both message policies:
    [EXISTS (SELECT 1 FROM chat_conversations WHERE id = conversation_id
             AND (student_id = auth.uid() OR counselor_id = auth.uid()))]. *)
Definition exists_own_conversation (uid : option uuid) (db : Database)
    (conversation_id : uuid) : bool :=
  existsb
    (fun c =>
       bool_decide (chat_conversations.id c = conversation_id)
       && (uid_is uid (chat_conversations.student_id c)
           || uid_is uid (chat_conversations.counselor_id c)))
    (db_chat_conversations db).

(** "Users can view messages in their conversations" *)
Definition chat_messages_select_using (uid : option uuid) (db : Database)
    (m : chat_messages.Row) : bool :=
  exists_own_conversation uid db (chat_messages.conversation_id m).

(** "Users can insert messages in their conversations" *)
Definition chat_messages_insert_check (uid : option uuid) (db : Database)
    (m : chat_messages.Row) : bool :=
  uid_is uid (chat_messages.sender_id m)
  && exists_own_conversation uid db (chat_messages.conversation_id m).

(** "Users can view own appointments" *)
Definition appointments_select_using (uid : option uuid)
    (r : appointments.Row) : bool :=
  uid_is uid (appointments.student_id r)
  || uid_is uid (appointments.counselor_id r).

(** "Students can create appointments" *)
Definition appointments_insert_check (uid : option uuid)
    (r : appointments.Row) : bool :=
  uid_is uid (appointments.student_id r).

(** "Participants can update appointments" *)
Definition appointments_update_using (uid : option uuid)
    (r : appointments.Row) : bool :=
  uid_is uid (appointments.student_id r)
  || uid_is uid (appointments.counselor_id r).

(** ** The storage layer *)

Inductive PostgrestError :=
| PolicyDenied          (* new row violates a row-level-security policy *)
| CheckViolation
| UniqueViolation
| ForeignKeyViolation
| InvalidTextRepresentation  (* a filter value that is not a uuid *)
| NotText               (* a string of the body that is no text: U+0000, or
                           a surrogate without its pair *)
| NotSingleRow.         (* [.single()] on a result that is not one row *)

#[global] Instance PostgrestError_eq_dec : EqDecision PostgrestError.
Proof. solve_decision. Defined.

(** Reading a string of the request body as a value for a TEXT column: a
    string that is no text fails the statement, before any policy or
    constraint is looked at. *)
Definition read_text (s : jsstring) : PostgrestError + text :=
  match well_formed s as b return well_formed s = b -> PostgrestError + text with
  | true => fun H => inr (Text s H)
  | false => fun _ => inl NotText
  end eq_refl.

(** A statement that fails leaves the database as it was. *)
Definition commit (db : Database) (r : PostgrestError + Database) : Database :=
  match r with
  | inl _ => db
  | inr db' => db'
  end.

(** [SELECT]: a USING clause withholds the rows it does not accept. *)
Definition select_profiles (uid : option uuid) (db : Database)
    : list profiles.Row :=
  filter (fun r => profiles_select_using uid r) (db_profiles db).

Definition select_chat_conversations (uid : option uuid) (db : Database)
    : list chat_conversations.Row :=
  filter (fun r => chat_conversations_select_using uid r)
         (db_chat_conversations db).

Definition select_chat_messages (uid : option uuid) (db : Database)
    : list chat_messages.Row :=
  filter (fun m => chat_messages_select_using uid db m) (db_chat_messages db).

Definition select_appointments (uid : option uuid) (db : Database)
    : list appointments.Row :=
  filter (fun r => appointments_select_using uid r) (db_appointments db).

(** [.single()] *)
Definition single {A} (rows : list A) : PostgrestError + A :=
  match rows with
  | [r] => inr r
  | _ => inl NotSingleRow
  end.

(** [INSERT]: the WITH CHECK policy is evaluated on the new row before the
    table constraints. *)
Definition insert_chat_conversations (uid : option uuid)
    (new : chat_conversations.Row) (db : Database)
    : PostgrestError + Database :=
  if negb (chat_conversations_insert_check uid new) then inl PolicyDenied
  else if negb (chat_conversations_checks new) then inl CheckViolation
  else if conversation_exists db (chat_conversations.id new)
       then inl UniqueViolation
  else if negb (chat_conversations_fkeys db new) then inl ForeignKeyViolation
  else inr (with_chat_conversations (db_chat_conversations db ++ [new]) db).

Definition insert_chat_messages (uid : option uuid) (new : chat_messages.Row)
    (db : Database) : PostgrestError + Database :=
  if negb (chat_messages_insert_check uid db new) then inl PolicyDenied
  else if negb (chat_messages_checks new) then inl CheckViolation
  else if bool_decide
            (chat_messages.id new ∈ chat_messages.id <$> db_chat_messages db)
       then inl UniqueViolation
  else if negb (chat_messages_fkeys db new) then inl ForeignKeyViolation
  else inr (with_chat_messages (db_chat_messages db ++ [new]) db).

Definition insert_appointments (uid : option uuid) (new : appointments.Row)
    (db : Database) : PostgrestError + Database :=
  if negb (appointments_insert_check uid new) then inl PolicyDenied
  else if negb (appointments_checks new) then inl CheckViolation
  else if bool_decide
            (appointments.id new ∈ appointments.id <$> db_appointments db)
       then inl UniqueViolation
  else if negb (appointments_fkeys db new) then inl ForeignKeyViolation
  else inr (with_appointments (db_appointments db ++ [new]) db).

(** [UPDATE]: rows outside the WHERE clause or refused by USING are passed
    over; the first row that cannot be rewritten aborts the statement. *)
Fixpoint update_rows {R} (touch : R -> bool) (rewrite_row : R -> PostgrestError + R)
    (rows : list R) : PostgrestError + list R :=
  match rows with
  | [] => inr []
  | r :: rest =>
      match (if touch r then rewrite_row r else inr r) with
      | inl e => inl e
      | inr r' =>
          match update_rows touch rewrite_row rest with
          | inl e => inl e
          | inr rest' => inr (r' :: rest')
          end
      end
  end.

Definition foreign_keys (db : Database) : bool :=
  forallb (chat_conversations_fkeys db) (db_chat_conversations db)
  && forallb (chat_messages_fkeys db) (db_chat_messages db)
  && forallb (appointments_fkeys db) (db_appointments db).

(** The update policies give USING only, so the same expression is the
    check on the rewritten row; the BEFORE UPDATE trigger has run by then. *)
Definition rewrite_chat_conversation (uid : option uuid)
    (u : chat_conversations.Update) (now : timestamptz)
    (r : chat_conversations.Row) : PostgrestError + chat_conversations.Row :=
  let new :=
    chat_conversations.update_updated_at_column now
      (chat_conversations.apply u r) in
  if negb (chat_conversations_update_using uid new) then inl PolicyDenied
  else if negb (chat_conversations_checks new) then inl CheckViolation
  else inr new.

Definition update_chat_conversations (uid : option uuid)
    (where_ : chat_conversations.Row -> bool) (u : chat_conversations.Update)
    (now : timestamptz) (db : Database) : PostgrestError + Database :=
  match update_rows
          (fun r => where_ r && chat_conversations_update_using uid r)
          (rewrite_chat_conversation uid u now)
          (db_chat_conversations db) with
  | inl e => inl e
  | inr rows =>
      let db' := with_chat_conversations rows db in
      if negb (bool_decide (NoDup (chat_conversations.id <$> rows)))
      then inl UniqueViolation
      else if negb (foreign_keys db') then inl ForeignKeyViolation
      else inr db'
  end.

Definition rewrite_appointment (uid : option uuid) (u : appointments.Update)
    (now : timestamptz) (r : appointments.Row)
    : PostgrestError + appointments.Row :=
  let new :=
    appointments.update_updated_at_column now (appointments.apply u r) in
  if negb (appointments_update_using uid new) then inl PolicyDenied
  else if negb (appointments_checks new) then inl CheckViolation
  else inr new.

Definition update_appointments (uid : option uuid)
    (where_ : appointments.Row -> bool) (u : appointments.Update)
    (now : timestamptz) (db : Database) : PostgrestError + Database :=
  match update_rows
          (fun r => where_ r && appointments_update_using uid r)
          (rewrite_appointment uid u now)
          (db_appointments db) with
  | inl e => inl e
  | inr rows =>
      let db' := with_appointments rows db in
      if negb (bool_decide (NoDup (appointments.id <$> rows)))
      then inl UniqueViolation
      else if negb (foreign_keys db') then inl ForeignKeyViolation
      else inr db'
  end.

(** ** Query results: ordering and embedded profiles *)

(** [ORDER BY col ASC] on a nullable column puts NULL last. *)
Definition asc_nulls_last (a b : option timestamptz) : Prop :=
  match a, b with
  | Some x, Some y => (x <= y)%Z
  | _, None => True
  | None, Some _ => False
  end.

#[global] Instance asc_nulls_last_dec a b : Decision (asc_nulls_last a b).
Proof. destruct a, b; simpl; apply _. Defined.

Definition created_at_asc (m1 m2 : chat_messages.Row) : Prop :=
  asc_nulls_last (chat_messages.created_at m1) (chat_messages.created_at m2).

Definition last_message_at_desc (c1 c2 : chat_conversations.Row) : Prop :=
  asc_nulls_last (chat_conversations.last_message_at c2)
                 (chat_conversations.last_message_at c1).

Definition scheduled_start_asc (a1 a2 : appointments.Row) : Prop :=
  (appointments.scheduled_start a1 <= appointments.scheduled_start a2)%Z.

#[global] Instance created_at_asc_dec m1 m2 : Decision (created_at_asc m1 m2).
Proof. unfold created_at_asc; apply _. Defined.

#[global] Instance last_message_at_desc_dec c1 c2 :
  Decision (last_message_at_desc c1 c2).
Proof. unfold last_message_at_desc; apply _. Defined.

#[global] Instance scheduled_start_asc_dec a1 a2 :
  Decision (scheduled_start_asc a1 a2).
Proof. unfold scheduled_start_asc; apply _. Defined.

(** A to-one embed such as [sender:profiles], with every column. *)
Definition embed_profile (uid : option uuid) (db : Database) (k : uuid)
    : option profiles.Row :=
  head (filter (fun p => profiles.id p = k) (select_profiles uid db)).

(** [type Message = chat_messages Row & { sender }] *)
Record Message := {
  message : chat_messages.Row;
  sender : option profiles.Row
}.

(** [type Conversation] and [type Appointment] carry both parties. *)
Record Conversation := {
  conversation : chat_conversations.Row;
  conversation_student : option profiles.Row;
  conversation_counselor : option profiles.Row
}.

Record Appointment := {
  appointment : appointments.Row;
  appointment_student : option profiles.Row;
  appointment_counselor : option profiles.Row
}.

Definition with_sender (uid : option uuid) (db : Database)
    (m : chat_messages.Row) : Message :=
  {| message := m;
     sender := embed_profile uid db (chat_messages.sender_id m) |}.

Definition with_parties_c (uid : option uuid) (db : Database)
    (c : chat_conversations.Row) : Conversation :=
  {| conversation := c;
     conversation_student :=
       embed_profile uid db (chat_conversations.student_id c);
     conversation_counselor :=
       embed_profile uid db (chat_conversations.counselor_id c) |}.

Definition with_parties_a (uid : option uuid) (db : Database)
    (a : appointments.Row) : Appointment :=
  {| appointment := a;
     appointment_student := embed_profile uid db (appointments.student_id a);
     appointment_counselor :=
       embed_profile uid db (appointments.counselor_id a) |}.

(** ** The list queries and their role branch *)

Inductive Column := col_student_id | col_counselor_id.

#[global] Instance Column_eq_dec : EqDecision Column.
Proof. solve_decision. Defined.

(** What the query builder has accumulated: the table, the [.order] key and
    the [.eq] filters.  The value of a filter is [None] when the expression
    handed to [.eq] was [undefined]. *)
Record Query := {
  from : string;
  order : string * bool;
  eqs : list (Column * option uuid)
}.

Definition eq_ (c : Column) (v : option uuid) (q : Query) : Query :=
  {| from := from q; order := order q; eqs := eqs q ++ [(c, v)] |}.

(** [profile?.role === 'student'] *)
Definition role_is_student (profile : option profiles.Row) : bool :=
  match profile with
  | Some p => bool_decide (profiles.role p = Some student)
  | None => false
  end.

(** The query of [fetchAppointments]. *)
Definition fetchAppointments_query (profile : option profiles.Row) : Query :=
  let query :=
    {| from := "appointments"; order := ("scheduled_start", true);
       eqs := [] |} in
  if role_is_student profile
  then eq_ col_student_id (profiles.id <$> profile) query
  else eq_ col_counselor_id (profiles.id <$> profile) query.

(** The query of [fetchConversations]. *)
Definition fetchConversations_query (profile : option profiles.Row) : Query :=
  let query :=
    {| from := "chat_conversations"; order := ("last_message_at", false);
       eqs := [] |} in
  if role_is_student profile
  then eq_ col_student_id (profiles.id <$> profile) query
  else eq_ col_counselor_id (profiles.id <$> profile) query.

Definition appointments_column (c : Column) (r : appointments.Row) : uuid :=
  match c with
  | col_student_id => appointments.student_id r
  | col_counselor_id => appointments.counselor_id r
  end.

Definition chat_conversations_column (c : Column)
    (r : chat_conversations.Row) : uuid :=
  match c with
  | col_student_id => chat_conversations.student_id r
  | col_counselor_id => chat_conversations.counselor_id r
  end.

(** A row passes when every [.eq] filter holds. *)
Definition passes {R} (column : Column -> R -> uuid)
    (fs : list (Column * option uuid)) (r : R) : bool :=
  forallb (fun f => bool_decide (snd f = Some (column (fst f) r))) fs.

(** A filter on [undefined] reaches the server as the text "undefined",
    which is not a uuid: the statement fails. *)
Definition well_typed (fs : list (Column * option uuid)) : bool :=
  forallb (fun f => bool_decide (is_Some (snd f))) fs.

Definition run_appointments_query (uid : option uuid) (db : Database)
    (q : Query) : PostgrestError + list Appointment :=
  if negb (well_typed (eqs q)) then inl InvalidTextRepresentation
  else inr (with_parties_a uid db <$>
              merge_sort scheduled_start_asc
                (filter (fun r => passes appointments_column (eqs q) r)
                        (select_appointments uid db))).

Definition run_conversations_query (uid : option uuid) (db : Database)
    (q : Query) : PostgrestError + list Conversation :=
  if negb (well_typed (eqs q)) then inl InvalidTextRepresentation
  else inr (with_parties_c uid db <$>
              merge_sort last_message_at_desc
                (filter (fun r => passes chat_conversations_column (eqs q) r)
                        (select_chat_conversations uid db))).

(** ** The client: what a handler can see and do *)

Record Toast := {
  title : string;
  description : string;
  variant : option string
}.

(** The calls a handler sends to the backend, in the order it sends them. *)
Inductive Request :=
| SelectAppointments (q : Query)
| SelectConversations (q : Query)
| SelectMessages (conversation_id : uuid)
| SelectMessageById (id : uuid)
| InsertMessage (conversation_id sender_id : uuid) (content : jsstring)
                (message_type : string)
| UpdateConversation (id : uuid) (u : chat_conversations.Update)
| InsertAppointment (new : appointments.Row).

(** The database behind the client, the session ([auth.uid()] on the server,
    [profile] from [useAuth] in the browser), the component state [S], and
    what the handlers have emitted so far. *)
Record World (S : Type) := {
  db : Database;
  uid : option uuid;
  profile : option profiles.Row;
  ui : S;
  toasts : list Toast;
  console : list string;
  requests : list Request
}.

Arguments db {S} _.
Arguments uid {S} _.
Arguments profile {S} _.
Arguments ui {S} _.
Arguments toasts {S} _.
Arguments console {S} _.
Arguments requests {S} _.

Definition set_db {S} (d : Database) (w : World S) : World S :=
  {| db := d; uid := uid w; profile := profile w; ui := ui w;
     toasts := toasts w; console := console w; requests := requests w |}.

Definition set_ui {S} (s : S) (w : World S) : World S :=
  {| db := db w; uid := uid w; profile := profile w; ui := s;
     toasts := toasts w; console := console w; requests := requests w |}.

Definition toast {S} (t : Toast) (w : World S) : World S :=
  {| db := db w; uid := uid w; profile := profile w; ui := ui w;
     toasts := toasts w ++ [t]; console := console w;
     requests := requests w |}.

Definition console_error {S} (s : string) (w : World S) : World S :=
  {| db := db w; uid := uid w; profile := profile w; ui := ui w;
     toasts := toasts w; console := console w ++ [s];
     requests := requests w |}.

Definition send {S} (r : Request) (w : World S) : World S :=
  {| db := db w; uid := uid w; profile := profile w; ui := ui w;
     toasts := toasts w; console := console w;
     requests := requests w ++ [r] |}.

Definition destructive (d : string) : Toast :=
  {| title := "Error"; description := d; variant := Some "destructive" |}.

Definition success (d : string) : Toast :=
  {| title := "Success"; description := d; variant := None |}.

(** ** AppointmentDashboard *)

(** A [datetime-local] input holds either the empty string or an instant:
    [None] is the empty string. *)
Record AppointmentForm := {
  form_counselor_id : string;
  form_appointment_type : string;
  form_scheduled_start : option timestamptz;
  form_scheduled_end : option timestamptz;
  form_reason_for_visit : jsstring;
  form_is_emergency : bool
}.

Definition empty_form : AppointmentForm :=
  {| form_counselor_id := ""; form_appointment_type := "video";
     form_scheduled_start := None; form_scheduled_end := None;
     form_reason_for_visit := []; form_is_emergency := false |}.

Record AppointmentDashboard := {
  appointments_ : list Appointment;
  counselors_a : list profiles.Row;
  loading_a : bool;
  showCreateDialog : bool;
  createLoading : bool;
  appointmentForm : AppointmentForm
}.

Definition setAppointments (l : list Appointment) (s : AppointmentDashboard)
    : AppointmentDashboard :=
  {| appointments_ := l; counselors_a := counselors_a s;
     loading_a := loading_a s; showCreateDialog := showCreateDialog s;
     createLoading := createLoading s; appointmentForm := appointmentForm s |}.

Definition setLoading_a (b : bool) (s : AppointmentDashboard)
    : AppointmentDashboard :=
  {| appointments_ := appointments_ s; counselors_a := counselors_a s;
     loading_a := b; showCreateDialog := showCreateDialog s;
     createLoading := createLoading s; appointmentForm := appointmentForm s |}.

Definition setShowCreateDialog (b : bool) (s : AppointmentDashboard)
    : AppointmentDashboard :=
  {| appointments_ := appointments_ s; counselors_a := counselors_a s;
     loading_a := loading_a s; showCreateDialog := b;
     createLoading := createLoading s; appointmentForm := appointmentForm s |}.

Definition setCreateLoading (b : bool) (s : AppointmentDashboard)
    : AppointmentDashboard :=
  {| appointments_ := appointments_ s; counselors_a := counselors_a s;
     loading_a := loading_a s; showCreateDialog := showCreateDialog s;
     createLoading := b; appointmentForm := appointmentForm s |}.

Definition setAppointmentForm (f : AppointmentForm) (s : AppointmentDashboard)
    : AppointmentDashboard :=
  {| appointments_ := appointments_ s; counselors_a := counselors_a s;
     loading_a := loading_a s; showCreateDialog := showCreateDialog s;
     createLoading := createLoading s; appointmentForm := f |}.

Definition fetchAppointments (w : World AppointmentDashboard)
    : World AppointmentDashboard :=
  let query := fetchAppointments_query (profile w) in
  let w := send (SelectAppointments query) w in
  let w :=
    match run_appointments_query (uid w) (db w) query with
    | inr data => set_ui (setAppointments data (ui w)) w
    | inl _ =>
        toast (destructive "Failed to load appointments")
              (console_error "Error fetching appointments:" w)
    end in
  set_ui (setLoading_a false (ui w)) w.

(** The row [createAppointment] asks for, with the column defaults of the
    table filled in: [id] from [gen_random_uuid()], [status] 'scheduled',
    both timestamps from [NOW()]. *)
Definition new_appointment (fresh : uuid) (now : timestamptz)
    (date_now : Z) (p : profiles.Row) (f : AppointmentForm)
    (start_ end_ : timestamptz) : appointments.Row :=
  {| appointments.id := fresh;
     appointments.student_id := profiles.id p;
     appointments.counselor_id := form_counselor_id f;
     appointments.conversation_id := None;
     appointments.appointment_type := Some (form_appointment_type f);
     appointments.status := Some "scheduled";
     appointments.scheduled_start := start_;
     appointments.scheduled_end := end_;
     appointments.meeting_url :=
       if bool_decide (form_appointment_type f = "video")
       then Some ("https://meet.jit.si/sathi-appointment-" +:+ pretty date_now)
       else None;
     appointments.notes := None;
     appointments.reason_for_visit := Some (form_reason_for_visit f);
     appointments.is_emergency := Some (form_is_emergency f);
     appointments.created_at := Some now;
     appointments.updated_at := Some now |}.

Definition createAppointment (fresh : uuid) (now : timestamptz) (date_now : Z)
    (w : World AppointmentDashboard) : World AppointmentDashboard :=
  let f := appointmentForm (ui w) in
  match profile w, bool_decide (form_counselor_id f = ""),
        form_scheduled_start f, form_scheduled_end f with
  | Some p, false, Some start_, Some end_ =>
      let w := set_ui (setCreateLoading true (ui w)) w in
      let new := new_appointment fresh now date_now p f start_ end_ in
      let w := send (InsertAppointment new) w in
      let w :=
        match insert_appointments (uid w) new (db w) with
        | inr db' =>
            let w := set_db db' w in
            let w := toast (success "Appointment created successfully") w in
            let w := set_ui (setShowCreateDialog false (ui w)) w in
            let w := set_ui (setAppointmentForm empty_form (ui w)) w in
            fetchAppointments w
        | inl _ =>
            toast (destructive "Failed to create appointment")
                  (console_error "Error creating appointment:" w)
        end in
      set_ui (setCreateLoading false (ui w)) w
  | _, _, _, _ =>
      toast (destructive "Please fill in all required fields") w
  end.

(** [new Date(s)] for the text [s] in which the API hands out a stored
    instant.  The text has a four-digit year when the instant falls in the
    years 0001 to 9999, and [Date] reads it back; for any other instant
    (among them the two ends of the type, which stand for 'infinity' and
    '-infinity') the text is none that [Date] reads, and the result is an
    Invalid Date, whose time value is NaN: [None]. *)
Definition four_digit_year (t : timestamptz) : bool :=
  (-62135596800000 <=? t)%Z && (t <=? 253402300799999)%Z.

Definition new_Date (t : timestamptz) : option Z :=
  if four_digit_year t then Some t else None.

(** [a <= b] on time values: false when either is NaN. *)
Definition time_le (a b : option Z) : bool :=
  match a, b with
  | Some x, Some y => (x <=? y)%Z
  | _, _ => false
  end.

(** [canJoinCall], with the reading of the clock made explicit: [now] is
    the time value of [new Date()]. *)
Definition canJoinCall (now : Z) (a : Appointment) : bool :=
  let startTime := new_Date (appointments.scheduled_start (appointment a)) in
  let endTime := new_Date (appointments.scheduled_end (appointment a)) in
  let joinTime := (fun t => t - 15 * 60000)%Z <$> startTime in
  time_le joinTime (Some now) && time_le (Some now) endTime
  && negb (bool_decide (appointments.status (appointment a) = Some "cancelled"))
  && bool_decide (appointments.appointment_type (appointment a) = Some "video").

(** ** ChatInterface *)

(** The code units [String.prototype.trim] strips: WhiteSpace and
    LineTerminator. *)
Definition is_white_space (c : N) : bool :=
  bool_decide (c ∈ [9; 10; 11; 12; 13; 32; 160; 5760; 8232; 8233; 8239; 8287;
                    12288; 65279]%N)
  || ((8192 <=? c)%N && (c <=? 8202)%N).

Fixpoint trimStart (s : jsstring) : jsstring :=
  match s with
  | c :: s' => if is_white_space c then trimStart s' else s
  | [] => []
  end.

Definition trimEnd (s : jsstring) : jsstring := reverse (trimStart (reverse s)).

Definition trim (s : jsstring) : jsstring := trimEnd (trimStart s).

(** A [string | null] that passes a truthiness test: neither [null] nor
    the empty string. *)
Definition truthy (s : option string) : option string :=
  match s with
  | Some c => if bool_decide (c = "") then None else Some c
  | None => None
  end.

Record ChatInterface := {
  conversations : list Conversation;
  selectedConversation : option string;
  messages : list Message;
  newMessage : jsstring;
  counselors : list profiles.Row;
  loading : bool;
  channel : option uuid   (* the conversation the realtime channel filters on *)
}.

Definition setConversations (l : list Conversation) (s : ChatInterface)
    : ChatInterface :=
  {| conversations := l; selectedConversation := selectedConversation s;
     messages := messages s; newMessage := newMessage s;
     counselors := counselors s; loading := loading s; channel := channel s |}.

Definition setMessages (f : list Message -> list Message) (s : ChatInterface)
    : ChatInterface :=
  {| conversations := conversations s;
     selectedConversation := selectedConversation s;
     messages := f (messages s); newMessage := newMessage s;
     counselors := counselors s; loading := loading s; channel := channel s |}.

Definition setNewMessage (t : jsstring) (s : ChatInterface) : ChatInterface :=
  {| conversations := conversations s;
     selectedConversation := selectedConversation s;
     messages := messages s; newMessage := t;
     counselors := counselors s; loading := loading s; channel := channel s |}.

Definition setLoading (b : bool) (s : ChatInterface) : ChatInterface :=
  {| conversations := conversations s;
     selectedConversation := selectedConversation s;
     messages := messages s; newMessage := newMessage s;
     counselors := counselors s; loading := b; channel := channel s |}.

Definition setChannel (c : option uuid) (s : ChatInterface) : ChatInterface :=
  {| conversations := conversations s;
     selectedConversation := selectedConversation s;
     messages := messages s; newMessage := newMessage s;
     counselors := counselors s; loading := loading s; channel := c |}.

Definition fetchConversations (w : World ChatInterface) : World ChatInterface :=
  let query := fetchConversations_query (profile w) in
  let w := send (SelectConversations query) w in
  let w :=
    match run_conversations_query (uid w) (db w) query with
    | inr data => set_ui (setConversations data (ui w)) w
    | inl _ =>
        toast (destructive "Failed to load conversations")
              (console_error "Error fetching conversations:" w)
    end in
  set_ui (setLoading false (ui w)) w.

(** The rows [fetchMessages] receives: the messages of the conversation the
    session may see, oldest first, each with its sender. *)
Definition messages_of (uid : option uuid) (db : Database)
    (conversationId : uuid) : list Message :=
  with_sender uid db <$>
    merge_sort created_at_asc
      (filter (fun m => chat_messages.conversation_id m = conversationId)
              (select_chat_messages uid db)).

Definition fetchMessages (conversationId : uuid) (w : World ChatInterface)
    : World ChatInterface :=
  let w := send (SelectMessages conversationId) w in
  set_ui (setMessages (fun _ => messages_of (uid w) (db w) conversationId)
                      (ui w)) w.

(** The row [fetchMessageWithSender] receives from [.eq('id', _).single()]. *)
Definition message_by_id (uid : option uuid) (db : Database) (messageId : uuid)
    : PostgrestError + Message :=
  single (with_sender uid db <$>
            filter (fun m => chat_messages.id m = messageId)
                   (select_chat_messages uid db)).

Definition fetchMessageWithSender (messageId : uuid) (w : World ChatInterface)
    : World ChatInterface :=
  let w := send (SelectMessageById messageId) w in
  match message_by_id (uid w) (db w) messageId with
  | inr data => set_ui (setMessages (fun prev => prev ++ [data]) (ui w)) w
  | inl _ => console_error "Error fetching message:" w
  end.

(** [fetchMessages] and [fetchMessageWithSender] above are the two async
    functions run from the call to the arrival of its answer with nothing
    in between.  Neither the effect on [selectedConversation] nor the
    callback of the channel waits for them: a call is asked, the backend
    answers it at some later moment from the database as it is then, and
    the rest of the function runs when the answer arrives.  A page is a
    [Client]: the component and the calls it has in flight. *)
Inductive Asked :=
| HistoryOf (conversationId : uuid)    (* [fetchMessages] *)
| RowById (messageId : uuid).          (* [fetchMessageWithSender] *)

Inductive Answer :=
| History (rows : list Message)
| RowOrError (r : PostgrestError + Message).

Inductive InFlight :=
| asked (q : Asked)
| answered (a : Answer).

Record Client := {
  page : World ChatInterface;
  in_flight : list InFlight
}.

Definition on_page (f : World ChatInterface -> World ChatInterface)
    (k : Client) : Client :=
  {| page := f (page k); in_flight := in_flight k |}.

Definition request_of (q : Asked) : Request :=
  match q with
  | HistoryOf c => SelectMessages c
  | RowById i => SelectMessageById i
  end.

(** The first half of either function: the call leaves the page. *)
Definition ask (q : Asked) (k : Client) : Client :=
  {| page := send (request_of q) (page k);
     in_flight := in_flight k ++ [asked q] |}.

(** What the backend makes of a call, for the session and the database of
    the moment. *)
Definition answer_of (uid : option uuid) (d : Database) (q : Asked) : Answer :=
  match q with
  | HistoryOf c => History (messages_of uid d c)
  | RowById i => RowOrError (message_by_id uid d i)
  end.

Definition serve (i : nat) (k : Client) : Client :=
  match in_flight k !! i with
  | Some (asked q) =>
      {| page := page k;
         in_flight :=
           <[i := answered (answer_of (uid (page k)) (db (page k)) q)]>
             (in_flight k) |}
  | _ => k
  end.

(** The second half of either function: what it does with its answer. *)
Definition settle (a : Answer) (w : World ChatInterface)
    : World ChatInterface :=
  match a with
  | History rows => set_ui (setMessages (fun _ => rows) (ui w)) w
  | RowOrError (inr data) =>
      set_ui (setMessages (fun prev => prev ++ [data]) (ui w)) w
  | RowOrError (inl _) => console_error "Error fetching message:" w
  end.

Definition receive (i : nat) (k : Client) : Client :=
  match in_flight k !! i with
  | Some (answered a) =>
      {| page := settle a (page k); in_flight := delete i (in_flight k) |}
  | _ => k
  end.

(** The effect on [selectedConversation]: ask for the history, once, and
    open the channel on INSERT events of that conversation. *)
Definition subscribe (k : Client) : Client :=
  match truthy (selectedConversation (ui (page k))) with
  | Some c =>
      on_page (fun w => set_ui (setChannel (Some c) (ui w)) w)
              (ask (HistoryOf c) k)
  | None => k
  end.

(** Its cleanup, [supabase.removeChannel(channel)]; the calls in flight are
    not called back. *)
Definition unsubscribe (k : Client) : Client :=
  on_page (fun w => set_ui (setChannel None (ui w)) w) k.

(** The callback of the channel: [payload.new] is the bare row, and the
    callback asks for it again by id. *)
Definition callback (new : chat_messages.Row) (k : Client) : Client :=
  ask (RowById (chat_messages.id new)) k.

(** What can happen next to a page: a session, this one or another, stores
    a message; the channel hands an INSERT event to the callback; the
    backend answers a call in flight; an answer arrives. *)
Inductive Step :=
| Stored (who : option uuid) (new : chat_messages.Row)
| Event (new : chat_messages.Row)
| Answered (i : nat)
| Arrived (i : nat).

Definition step (s : Step) (k : Client) : Client :=
  match s with
  | Stored who new =>
      on_page
        (fun w => set_db (commit (db w) (insert_chat_messages who new (db w))) w)
        k
  | Event new => callback new k
  | Answered i => serve i k
  | Arrived i => receive i k
  end.

Definition run (steps : list Step) (k : Client) : Client :=
  foldl (fun k s => step s k) k steps.

(** One INSERT event followed to the arrival of its answer.  The channel
    was opened with the filter [conversation_id=eq.c], and the realtime
    service hands an event to the callback only while the channel is open
    and the row passes the filter: the two tests are the service's, the
    callback has none. *)
Definition on_insert (new : chat_messages.Row) (w : World ChatInterface)
    : World ChatInterface :=
  match channel (ui w) with
  | Some c =>
      if bool_decide (chat_messages.conversation_id new = c)
      then fetchMessageWithSender (chat_messages.id new) w
      else w
  | None => w
  end.

(** The row [sendMessage] asks for, with the column defaults filled in;
    [t] is the trimmed draft as the server has read it. *)
Definition new_message (fresh : uuid) (now : timestamptz) (conv : uuid)
    (p : profiles.Row) (t : text) : chat_messages.Row :=
  {| chat_messages.id := fresh;
     chat_messages.conversation_id := conv;
     chat_messages.sender_id := profiles.id p;
     chat_messages.message_type := Some "text";
     chat_messages.content := Some t;
     chat_messages.file_url := None;
     chat_messages.file_name := None;
     chat_messages.status := Some "sent";
     chat_messages.read_at := None;
     chat_messages.created_at := Some now |}.

Definition touch_last_message_at (t : timestamptz) : chat_conversations.Update :=
  {| chat_conversations.set_id := None;
     chat_conversations.set_student_id := None;
     chat_conversations.set_counselor_id := None;
     chat_conversations.set_conversation_type := None;
     chat_conversations.set_status := None;
     chat_conversations.set_started_at := None;
     chat_conversations.set_last_message_at := Some (Some t);
     chat_conversations.set_created_at := None;
     chat_conversations.set_updated_at := None |}.

(** The insert [sendMessage] asks for, as the server runs it: the body is
    read first, then the row goes through the policy and the constraints. *)
Definition post_chat_messages (uid : option uuid) (fresh : uuid)
    (now : timestamptz) (conv : uuid) (p : profiles.Row) (content : jsstring)
    (db : Database) : PostgrestError + Database :=
  match read_text content with
  | inl e => inl e
  | inr t => insert_chat_messages uid (new_message fresh now conv p t) db
  end.

(** [sendMessage].  [fresh] and [now_insert] are what [gen_random_uuid()]
    and [NOW()] give the server while it inserts; [date_now] is what
    [new Date()] gives the browser once the insert has answered;
    [now_update] is [NOW()] when the update runs. *)
Definition sendMessage (fresh : uuid) (now_insert : timestamptz) (date_now : Z)
    (now_update : timestamptz) (w : World ChatInterface)
    : World ChatInterface :=
  match trim (newMessage (ui w)), truthy (selectedConversation (ui w)),
        profile w with
  | _ :: _, Some conv, Some p =>
      let content := trim (newMessage (ui w)) in
      let w := send (InsertMessage conv (profiles.id p) content "text") w in
      match post_chat_messages (uid w) fresh now_insert conv p content
              (db w) with
      | inl _ =>
          toast (destructive "Failed to send message")
                (console_error "Error sending message:" w)
      | inr db' =>
          let w := set_db db' w in
          let u := touch_last_message_at date_now in
          let w := send (UpdateConversation conv u) w in
          let w :=
            set_db
              (commit (db w)
                 (update_chat_conversations (uid w)
                    (fun c => bool_decide (chat_conversations.id c = conv))
                    u now_update (db w))) w in
          set_ui (setNewMessage [] (ui w)) w
      end
  | _, _, _ => w
  end.

(** The rows a call in flight is about to hand to the page. *)
Definition rows_of (c : InFlight) : list Message :=
  match c with
  | answered (History rows) => rows
  | answered (RowOrError (inr data)) => [data]
  | _ => []
  end.

(** What the fetch behind one event brings back, if anything. *)
Definition fetched (uid : option uuid) (d : Database) (new : chat_messages.Row)
    : option Message :=
  match message_by_id uid d (chat_messages.id new) with
  | inr data => Some data
  | inl _ => None
  end.

(** ** Outcomes and patches used to state the properties *)

Definition accepted {A} (r : PostgrestError + A) : bool :=
  match r with
  | inr _ => true
  | inl _ => false
  end.

(** The patch [u] with other values for the two instants. *)
Definition with_times (s e : option timestamptz) (u : appointments.Update)
    : appointments.Update :=
  {| appointments.set_id := appointments.set_id u;
     appointments.set_student_id := appointments.set_student_id u;
     appointments.set_counselor_id := appointments.set_counselor_id u;
     appointments.set_conversation_id := appointments.set_conversation_id u;
     appointments.set_appointment_type := appointments.set_appointment_type u;
     appointments.set_status := appointments.set_status u;
     appointments.set_scheduled_start := s;
     appointments.set_scheduled_end := e;
     appointments.set_meeting_url := appointments.set_meeting_url u;
     appointments.set_notes := appointments.set_notes u;
     appointments.set_reason_for_visit := appointments.set_reason_for_visit u;
     appointments.set_is_emergency := appointments.set_is_emergency u;
     appointments.set_created_at := appointments.set_created_at u;
     appointments.set_updated_at := appointments.set_updated_at u |}.

(** The row [a] moved to the instants [s] and [e]. *)
Definition reschedule (s e : timestamptz) (a : appointments.Row)
    : appointments.Row :=
  appointments.apply (with_times (Some s) (Some e) appointments.no_change) a.

(** Two rows that differ at most in their two instants. *)
Definition same_but_times (a b : appointments.Row) : Prop :=
  reschedule 0%Z 0%Z a = reschedule 0%Z 0%Z b.

(** Two outcomes of the same kind: the same error, or related results. *)
Definition alike {A} (rel : A -> A -> Prop) (x y : PostgrestError + A) : Prop :=
  match x, y with
  | inl e1, inl e2 => e1 = e2
  | inr a, inr b => rel a b
  | _, _ => False
  end.

(** The constraints the schema keeps true of the conversations between
    statements: the primary key, the CHECK lists, the foreign keys. *)
Definition consistent (d : Database) : bool :=
  bool_decide (NoDup (chat_conversations.id <$> db_chat_conversations d))
  && forallb chat_conversations_checks (db_chat_conversations d)
  && foreign_keys d.

(** What the update of [sendMessage] does to one conversation row. *)
Definition touch_conversation (uid : option uuid) (conv : uuid)
    (t now : timestamptz) (r : chat_conversations.Row)
    : chat_conversations.Row :=
  if bool_decide (chat_conversations.id r = conv)
     && chat_conversations_update_using uid r
  then chat_conversations.update_updated_at_column now
         (chat_conversations.apply (touch_last_message_at t) r)
  else r.

(** ** A small world to run the definitions on *)

Module sample.
Definition person (k : uuid) (r : option user_role) : profiles.Row :=
  {| profiles.id := k; profiles.email := k +:+ "@example.org";
     profiles.first_name := k; profiles.last_name := "";
     profiles.phone := None; profiles.profile_image_url := None;
     profiles.role := r; profiles.is_active := Some true;
     profiles.last_login_at := None; profiles.created_at := Some 0%Z;
     profiles.updated_at := Some 0%Z |}.

Definition asha : profiles.Row := person "asha" (Some student).
Definition kiran : profiles.Row := person "kiran" (Some counselor).
Definition third : profiles.Row := person "third" (Some student).
Definition root : profiles.Row := person "root" (Some admin).

Definition chat : chat_conversations.Row :=
  {| chat_conversations.id := "c1";
     chat_conversations.student_id := "asha";
     chat_conversations.counselor_id := "kiran";
     chat_conversations.conversation_type := Some "support";
     chat_conversations.status := Some "active";
     chat_conversations.started_at := Some 100%Z;
     chat_conversations.last_message_at := Some 100%Z;
     chat_conversations.created_at := Some 100%Z;
     chat_conversations.updated_at := Some 100%Z |}.

Definition text (bytes : list N) (k : uuid) (from_ : uuid) (at_ : Z)
    : chat_messages.Row :=
  {| chat_messages.id := k; chat_messages.conversation_id := "c1";
     chat_messages.sender_id := from_;
     chat_messages.message_type := Some "text";
     chat_messages.content :=
       match read_text bytes with
       | inr t => Some t
       | inl _ => None
       end;
     chat_messages.file_url := None; chat_messages.file_name := None;
     chat_messages.status := Some "sent"; chat_messages.read_at := None;
     chat_messages.created_at := Some at_ |}.

(** "Hello" *)
Definition hello : chat_messages.Row :=
  text [72; 101; 108; 108; 111]%N "m1" "asha" 200%Z.

(** "Hi", a later message of the same sender. *)
Definition again : chat_messages.Row := text [72; 105]%N "m2" "asha" 300%Z.

(** T = 1 700 000 000 000 ms, a thirty-minute video session. *)
Definition T : Z := 1700000000000.

Definition visit (st : string) : appointments.Row :=
  {| appointments.id := "a1"; appointments.student_id := "asha";
     appointments.counselor_id := "kiran";
     appointments.conversation_id := None;
     appointments.appointment_type := Some "video";
     appointments.status := Some st;
     appointments.scheduled_start := T;
     appointments.scheduled_end := (T + 30 * 60000)%Z;
     appointments.meeting_url := None; appointments.notes := None;
     appointments.reason_for_visit := None;
     appointments.is_emergency := Some false;
     appointments.created_at := Some 0%Z;
     appointments.updated_at := Some 0%Z |}.

Definition empty : Database :=
  {| db_profiles := [asha; kiran; third; root];
     db_chat_conversations := [chat];
     db_chat_messages := [];
     db_appointments := [] |}.

Definition stored : Database :=
  {| db_profiles := [asha; kiran; third; root];
     db_chat_conversations := [chat];
     db_chat_messages := [hello];
     db_appointments := [visit "scheduled"] |}.

(** A booking form filled in back to front: it ends before it starts. *)
Definition backwards : AppointmentForm :=
  {| form_counselor_id := "kiran"; form_appointment_type := "video";
     form_scheduled_start := Some (T + 30 * 60000)%Z;
     form_scheduled_end := Some T;
     form_reason_for_visit := []; form_is_emergency := false |}.

Definition dashboard (f : AppointmentForm) : AppointmentDashboard :=
  {| appointments_ := []; counselors_a := [kiran]; loading_a := false;
     showCreateDialog := true; createLoading := false;
     appointmentForm := f |}.

Definition chat_ui (draft : jsstring) : ChatInterface :=
  {| conversations := []; selectedConversation := Some "c1";
     messages := []; newMessage := draft; counselors := [];
     loading := false; channel := Some "c1" |}.

Definition world {S} (d : Database) (who : profiles.Row) (s : S) : World S :=
  {| db := d; uid := Some (profiles.id who); profile := Some who; ui := s;
     toasts := []; console := []; requests := [] |}.

(** The chat page of [who] with nothing in flight. *)
Definition client (d : Database) (who : profiles.Row) : Client :=
  {| page := world d who (chat_ui []); in_flight := [] |}.
End sample.

(** ** Room names *)

(** An ASCII literal as UTF-16 code units. *)
Definition units (s : string) : jsstring :=
  (fun a => N_of_ascii a) <$> String.list_ascii_of_string s.

(** The four room names the client makes up, each from one reading of
    [Date.now()]. *)
Definition appointment_room (date_now : Z) : string :=
  "sathi-appointment-" +:+ pretty date_now.

Definition call_room (date_now : Z) : string :=
  "sathi-call-" +:+ pretty date_now.

Definition video_room (date_now : Z) : string :=
  "sathi-room-" +:+ pretty date_now.

Definition quick_room (date_now : Z) : string :=
  "sathi-quick-" +:+ pretty date_now.

Definition meet (room : string) : string := "https://meet.jit.si/" +:+ room.

(** [startVideoCall] of the chat: the address it opens. *)
Definition startVideoCall (date_now : Z) : string := meet (call_room date_now).

(** [joinVideoCall] of the appointment list: the address it opens, if the
    row has a [meeting_url] that passes the truthiness test. *)
Definition joinVideoCall (a : Appointment) : option string :=
  truthy (appointments.meeting_url (appointment a)).

(** ** Video sessions *)

Module video_call_sessions.
Record Row := {
  id : uuid;
  appointment_id : option uuid;
  room_id : string;
  participants : option (list (option uuid));
  call_started_at : option timestamptz;
  call_ended_at : option timestamptz;
  call_duration : option Z;
  recording_url : option string;
  created_at : option timestamptz
}.
End video_call_sessions.

(** The four tables above and the sessions. *)
Record Backend := {
  tables : Database;
  db_video_call_sessions : list video_call_sessions.Row
}.

(** "Users can view sessions for their appointments":
    [EXISTS (SELECT 1 FROM appointments WHERE id = appointment_id AND
             (student_id = auth.uid() OR counselor_id = auth.uid()))].
    A NULL [appointment_id] equals no [id]. *)
Definition video_call_sessions_select_using (uid : option uuid) (b : Backend)
    (s : video_call_sessions.Row) : bool :=
  match video_call_sessions.appointment_id s with
  | None => false
  | Some k =>
      existsb
        (fun a =>
           bool_decide (appointments.id a = k)
           && (uid_is uid (appointments.student_id a)
               || uid_is uid (appointments.counselor_id a)))
        (db_appointments (tables b))
  end.

Definition select_video_call_sessions (uid : option uuid) (b : Backend)
    : list video_call_sessions.Row :=
  filter (fun s => video_call_sessions_select_using uid b s)
         (db_video_call_sessions b).

(** Row-level security is enabled on the table and the migration gives no
    policy FOR INSERT: no new row passes. *)
Definition video_call_sessions_insert_check (uid : option uuid)
    (s : video_call_sessions.Row) : bool :=
  false.

Definition insert_video_call_sessions (uid : option uuid)
    (new : video_call_sessions.Row) (b : Backend) : PostgrestError + Backend :=
  if negb (video_call_sessions_insert_check uid new) then inl PolicyDenied
  else if bool_decide (video_call_sessions.id new
                       ∈ video_call_sessions.id <$> db_video_call_sessions b)
          || bool_decide (video_call_sessions.room_id new
                          ∈ video_call_sessions.room_id
                              <$> db_video_call_sessions b)
       then inl UniqueViolation
  else if negb (match video_call_sessions.appointment_id new with
                | None => true
                | Some k =>
                    bool_decide
                      (k ∈ appointments.id <$> db_appointments (tables b))
                end)
       then inl ForeignKeyViolation
  else inr {| tables := tables b;
              db_video_call_sessions := db_video_call_sessions b ++ [new] |}.

(** ** VideoCallInterface *)

Module video.
Record VideoCallInterface := {
  roomId : jsstring;
  isCreating : bool
}.

(** The page: the client world, the sessions table behind it, and the
    addresses handed to [window.open]. *)
Record Page := {
  world : World VideoCallInterface;
  sessions : list video_call_sessions.Row;
  windows : list jsstring
}.

Definition backend (v : Page) : Backend :=
  {| tables := db (world v); db_video_call_sessions := sessions v |}.

Definition setIsCreating (b : bool) (s : VideoCallInterface)
    : VideoCallInterface :=
  {| roomId := roomId s; isCreating := b |}.

Definition on_world (f : World VideoCallInterface -> World VideoCallInterface)
    (v : Page) : Page :=
  {| world := f (world v); sessions := sessions v; windows := windows v |}.

Definition window_open (url : jsstring) (v : Page) : Page :=
  {| world := world v; sessions := sessions v; windows := windows v ++ [url] |}.

Definition set_backend (b : Backend) (v : Page) : Page :=
  {| world := set_db (tables b) (world v);
     sessions := db_video_call_sessions b; windows := windows v |}.

(** The row [createVideoCall] asks for, with the column defaults filled in.
    [participants] is [[profile?.id]]: one entry, null without a profile. *)
Definition new_session (fresh : uuid) (now : timestamptz) (date_now : Z)
    (started : Z) (p : option profiles.Row) : video_call_sessions.Row :=
  {| video_call_sessions.id := fresh;
     video_call_sessions.appointment_id := None;
     video_call_sessions.room_id := video_room date_now;
     video_call_sessions.participants := Some [profiles.id <$> p];
     video_call_sessions.call_started_at := Some started;
     video_call_sessions.call_ended_at := None;
     video_call_sessions.call_duration := None;
     video_call_sessions.recording_url := None;
     video_call_sessions.created_at := Some now |}.

(** [createVideoCall].  [date_now] is the [Date.now()] of the room name,
    [started] the [new Date()] of [call_started_at]. *)
Definition createVideoCall (fresh : uuid) (now : timestamptz) (date_now : Z)
    (started : Z) (v : Page) : Page :=
  let v := on_world (fun w => set_ui (setIsCreating true (ui w)) w) v in
  let new := new_session fresh now date_now started (profile (world v)) in
  let v :=
    match insert_video_call_sessions (uid (world v)) new (backend v) with
    | inr b' =>
        let v := set_backend b' v in
        let v := window_open (units (meet (video_room date_now))) v in
        on_world (toast (success "Video call room created successfully")) v
    | inl _ =>
        on_world
          (fun w => toast (destructive "Failed to create video call")
                      (console_error "Error creating video call:" w)) v
    end in
  on_world (fun w => set_ui (setIsCreating false (ui w)) w) v.

(** [joinVideoCall]: the address is built from [roomId] as typed. *)
Definition joinVideoCall (v : Page) : Page :=
  match trim (roomId (ui (world v))) with
  | [] => on_world (toast (destructive "Please enter a room ID")) v
  | _ :: _ => window_open (units (meet "") ++ roomId (ui (world v))) v
  end.

Definition joinQuickCall (date_now : Z) (v : Page) : Page :=
  window_open (units (meet (quick_room date_now))) v.
End video.

(** ** Profiles: policies, updates and the signup trigger *)

Definition with_profiles (l : list profiles.Row) (d : Database) : Database :=
  {| db_profiles := l; db_chat_conversations := db_chat_conversations d;
     db_chat_messages := db_chat_messages d;
     db_appointments := db_appointments d |}.

(** "Users can update own profile" *)
Definition profiles_update_using (uid : option uuid) (r : profiles.Row) : bool :=
  uid_is uid (profiles.id r).

(** "Users can insert own profile" *)
Definition profiles_insert_check (uid : option uuid) (r : profiles.Row) : bool :=
  uid_is uid (profiles.id r).

Module profile_update.
(** The [Update] shape of [profiles] in the generated types. *)
Record Patch := {
  set_id : option uuid;
  set_email : option string;
  set_first_name : option string;
  set_last_name : option string;
  set_phone : option (option string);
  set_profile_image_url : option (option string);
  set_role : option (option user_role);
  set_is_active : option (option bool);
  set_last_login_at : option (option timestamptz);
  set_created_at : option (option timestamptz);
  set_updated_at : option (option timestamptz)
}.

Definition no_change : Patch :=
  Build_Patch None None None None None None None None None None None.

Definition set_role_only (r : option user_role) : Patch :=
  Build_Patch None None None None None None (Some r) None None None None.

Definition apply (u : Patch) (r : profiles.Row) : profiles.Row :=
  {| profiles.id := default (profiles.id r) (set_id u);
     profiles.email := default (profiles.email r) (set_email u);
     profiles.first_name := default (profiles.first_name r) (set_first_name u);
     profiles.last_name := default (profiles.last_name r) (set_last_name u);
     profiles.phone := default (profiles.phone r) (set_phone u);
     profiles.profile_image_url :=
       default (profiles.profile_image_url r) (set_profile_image_url u);
     profiles.role := default (profiles.role r) (set_role u);
     profiles.is_active := default (profiles.is_active r) (set_is_active u);
     profiles.last_login_at :=
       default (profiles.last_login_at r) (set_last_login_at u);
     profiles.created_at := default (profiles.created_at r) (set_created_at u);
     profiles.updated_at := default (profiles.updated_at r) (set_updated_at u) |}.

Definition update_updated_at_column (now : timestamptz) (r : profiles.Row)
    : profiles.Row :=
  {| profiles.id := profiles.id r; profiles.email := profiles.email r;
     profiles.first_name := profiles.first_name r;
     profiles.last_name := profiles.last_name r;
     profiles.phone := profiles.phone r;
     profiles.profile_image_url := profiles.profile_image_url r;
     profiles.role := profiles.role r;
     profiles.is_active := profiles.is_active r;
     profiles.last_login_at := profiles.last_login_at r;
     profiles.created_at := profiles.created_at r;
     profiles.updated_at := Some now |}.
End profile_update.

Definition rewrite_profile (uid : option uuid) (u : profile_update.Patch)
    (now : timestamptz) (r : profiles.Row) : PostgrestError + profiles.Row :=
  let new :=
    profile_update.update_updated_at_column now (profile_update.apply u r) in
  if negb (profiles_update_using uid new) then inl PolicyDenied
  else inr new.

(** An UPDATE of [profiles]: the primary key, [email UNIQUE] and the
    references to [profiles(id)] are looked at once the rows are rewritten. *)
Definition update_profiles (uid : option uuid)
    (where_ : profiles.Row -> bool) (u : profile_update.Patch)
    (now : timestamptz) (d : Database) : PostgrestError + Database :=
  match update_rows
          (fun r => where_ r && profiles_update_using uid r)
          (rewrite_profile uid u now) (db_profiles d) with
  | inl e => inl e
  | inr rows =>
      let d' := with_profiles rows d in
      if negb (bool_decide (NoDup (profiles.id <$> rows))
               && bool_decide (NoDup (profiles.email <$> rows)))
      then inl UniqueViolation
      else if negb (foreign_keys d') then inl ForeignKeyViolation
      else inr d'
  end.

(** A row of [auth.users] as the trigger reads it: [raw_user_meta_data]
    is the object [->>] looks keys up in. *)
Record auth_user := {
  auth_id : uuid;
  auth_email : option string;
  raw_user_meta_data : gmap string string
}.

Inductive SignupError :=
| invalid_enum_value      (* the cast to [user_role] fails *)
| not_null_violation      (* [email] is NOT NULL *)
| unique_violation.       (* the primary key or [email UNIQUE] *)

(** The cast [::user_role]. *)
Definition user_role_of_text (s : string) : option user_role :=
  if bool_decide (s = "student") then Some student
  else if bool_decide (s = "counselor") then Some counselor
  else if bool_decide (s = "admin") then Some admin
  else None.

(** [handle_new_user()], run AFTER INSERT on [auth.users] with the rights
    of its owner, so no policy applies to its insert. *)
Definition handle_new_user (NEW : auth_user) (now : timestamptz) (d : Database)
    : SignupError + Database :=
  match user_role_of_text
          (default "student" (raw_user_meta_data NEW !! "role")) with
  | None => inl invalid_enum_value
  | Some r =>
      match auth_email NEW with
      | None => inl not_null_violation
      | Some e =>
          if bool_decide (auth_id NEW ∈ profiles.id <$> db_profiles d)
             || bool_decide (e ∈ profiles.email <$> db_profiles d)
          then inl unique_violation
          else
            inr (with_profiles
                   (db_profiles d ++
                    [{| profiles.id := auth_id NEW;
                        profiles.email := e;
                        profiles.first_name :=
                          default "" (raw_user_meta_data NEW !! "first_name");
                        profiles.last_name :=
                          default "" (raw_user_meta_data NEW !! "last_name");
                        profiles.phone := None;
                        profiles.profile_image_url := None;
                        profiles.role := Some r;
                        profiles.is_active := Some true;
                        profiles.last_login_at := None;
                        profiles.created_at := Some now;
                        profiles.updated_at := Some now |}]) d)
      end
  end.

(** ** Loading counselors and starting a conversation *)

(** The rows [fetchCounselors] receives:
    [.eq('role', 'counselor').eq('is_active', true)]. *)
Definition counselors_of (uid : option uuid) (d : Database)
    : list profiles.Row :=
  filter (fun p => profiles.role p = Some counselor
                   /\ profiles.is_active p = Some true)
         (select_profiles uid d).

Definition setCounselors (l : list profiles.Row) (s : ChatInterface)
    : ChatInterface :=
  {| conversations := conversations s;
     selectedConversation := selectedConversation s;
     messages := messages s; newMessage := newMessage s;
     counselors := l; loading := loading s; channel := channel s |}.

Definition setSelectedConversation (c : option string) (s : ChatInterface)
    : ChatInterface :=
  {| conversations := conversations s; selectedConversation := c;
     messages := messages s; newMessage := newMessage s;
     counselors := counselors s; loading := loading s; channel := channel s |}.

Definition setCounselors_a (l : list profiles.Row) (s : AppointmentDashboard)
    : AppointmentDashboard :=
  {| appointments_ := appointments_ s; counselors_a := l;
     loading_a := loading_a s; showCreateDialog := showCreateDialog s;
     createLoading := createLoading s; appointmentForm := appointmentForm s |}.

(** [fetchCounselors] of the chat and of the appointment list.  The log
    [requests] is kept for the calls of the handlers above; the handlers
    from here on leave it alone. *)
Definition fetchCounselors (w : World ChatInterface) : World ChatInterface :=
  set_ui (setCounselors (counselors_of (uid w) (db w)) (ui w)) w.

Definition fetchCounselors_a (w : World AppointmentDashboard)
    : World AppointmentDashboard :=
  set_ui (setCounselors_a (counselors_of (uid w) (db w)) (ui w)) w.

(** The effect on [profile] of either component. *)
Definition mount_chat (w : World ChatInterface) : World ChatInterface :=
  match profile w with
  | Some _ => fetchCounselors (fetchConversations w)
  | None => w
  end.

Definition mount_dashboard (w : World AppointmentDashboard)
    : World AppointmentDashboard :=
  match profile w with
  | Some _ =>
      let w := fetchAppointments w in
      if role_is_student (profile w) then fetchCounselors_a w else w
  | None => w
  end.

(** The row [createConversation] asks for, with the column defaults. *)
Definition new_conversation (fresh : uuid) (now : timestamptz)
    (student_ : uuid) (counselorId : uuid) : chat_conversations.Row :=
  {| chat_conversations.id := fresh;
     chat_conversations.student_id := student_;
     chat_conversations.counselor_id := counselorId;
     chat_conversations.conversation_type := Some "support";
     chat_conversations.status := Some "active";
     chat_conversations.started_at := Some now;
     chat_conversations.last_message_at := Some now;
     chat_conversations.created_at := Some now;
     chat_conversations.updated_at := Some now |}.

Definition conversation_failed (w : World ChatInterface) : World ChatInterface :=
  toast (destructive "Failed to start conversation")
        (console_error "Error creating conversation:" w).

(** [createConversation].  Without a profile [student_id] is [undefined]
    and the row is sent without it: [auth.uid() = student_id] is then not
    true and the insert is refused. *)
Definition createConversation (fresh : uuid) (now : timestamptz)
    (counselorId : uuid) (w : World ChatInterface) : World ChatInterface :=
  match profile w with
  | Some p =>
      let new := new_conversation fresh now (profiles.id p) counselorId in
      match insert_chat_conversations (uid w) new (db w) with
      | inr db' =>
          let w := set_db db' w in
          let data := with_parties_c (uid w) (db w) new in
          let w :=
            set_ui (setConversations (data :: conversations (ui w)) (ui w)) w in
          let w := set_ui (setSelectedConversation (Some fresh) (ui w)) w in
          toast (success "New conversation started") w
      | inl _ => conversation_failed w
      end
  | None => conversation_failed w
  end.

(** ** Updates of messages *)

(** Row-level security is enabled on [chat_messages] and the migration
    gives no policy FOR UPDATE: no row is within reach of an update. *)
Definition chat_messages_update_using (uid : option uuid)
    (m : chat_messages.Row) : bool :=
  false.

Module message_update.
(** The [Update] shape of [chat_messages] in the generated types. *)
Record Patch := {
  set_id : option uuid;
  set_conversation_id : option uuid;
  set_sender_id : option uuid;
  set_message_type : option (option string);
  set_content : option (option text);
  set_file_url : option (option string);
  set_file_name : option (option string);
  set_status : option (option string);
  set_read_at : option (option timestamptz);
  set_created_at : option (option timestamptz)
}.

Definition apply (u : Patch) (r : chat_messages.Row) : chat_messages.Row :=
  {| chat_messages.id := default (chat_messages.id r) (set_id u);
     chat_messages.conversation_id :=
       default (chat_messages.conversation_id r) (set_conversation_id u);
     chat_messages.sender_id :=
       default (chat_messages.sender_id r) (set_sender_id u);
     chat_messages.message_type :=
       default (chat_messages.message_type r) (set_message_type u);
     chat_messages.content := default (chat_messages.content r) (set_content u);
     chat_messages.file_url :=
       default (chat_messages.file_url r) (set_file_url u);
     chat_messages.file_name :=
       default (chat_messages.file_name r) (set_file_name u);
     chat_messages.status := default (chat_messages.status r) (set_status u);
     chat_messages.read_at := default (chat_messages.read_at r) (set_read_at u);
     chat_messages.created_at :=
       default (chat_messages.created_at r) (set_created_at u) |}.
End message_update.

Definition rewrite_message (uid : option uuid) (u : message_update.Patch)
    (r : chat_messages.Row) : PostgrestError + chat_messages.Row :=
  let new := message_update.apply u r in
  if negb (chat_messages_update_using uid new) then inl PolicyDenied
  else if negb (chat_messages_checks new) then inl CheckViolation
  else inr new.

Definition update_chat_messages (uid : option uuid)
    (where_ : chat_messages.Row -> bool) (u : message_update.Patch)
    (d : Database) : PostgrestError + Database :=
  match update_rows
          (fun r => where_ r && chat_messages_update_using uid r)
          (rewrite_message uid u) (db_chat_messages d) with
  | inl e => inl e
  | inr rows =>
      let d' := with_chat_messages rows d in
      if negb (bool_decide (NoDup (chat_messages.id <$> rows)))
      then inl UniqueViolation
      else if negb (foreign_keys d') then inl ForeignKeyViolation
      else inr d'
  end.

(** ** The constraints as one invariant *)

(** Every primary key and [email] is unique, every CHECK list holds, and
    every reference has its row. *)
Definition schema_ok (d : Database) : bool :=
  bool_decide (NoDup (profiles.id <$> db_profiles d))
  && bool_decide (NoDup (profiles.email <$> db_profiles d))
  && bool_decide (NoDup (chat_conversations.id <$> db_chat_conversations d))
  && bool_decide (NoDup (chat_messages.id <$> db_chat_messages d))
  && bool_decide (NoDup (appointments.id <$> db_appointments d))
  && forallb chat_conversations_checks (db_chat_conversations d)
  && forallb chat_messages_checks (db_chat_messages d)
  && forallb appointments_checks (db_appointments d)
  && foreign_keys d.

Module demo.
(** A signup that asks for the counselor role. *)
Definition newcomer : auth_user :=
  {| auth_id := "nisha"; auth_email := Some "nisha@example.org";
     raw_user_meta_data := {[ "role" := "counselor" ]} |}.

Definition video_page (typed : jsstring) : video.Page :=
  {| video.world :=
       sample.world sample.stored sample.asha
         {| video.roomId := typed; video.isCreating := false |};
     video.sessions := []; video.windows := [] |}.

(** A session that belongs to no appointment. *)
Definition loose_session : video_call_sessions.Row :=
  video.new_session "v1" 0%Z 1%Z 2%Z (Some sample.asha).
End demo.

(** * Properties *)

(** ** Reading the policies *)

Lemma uid_is_true (uid : option uuid) (col : uuid) :
  uid_is uid col = true <-> uid = Some col.
Proof. unfold uid_is. apply bool_decide_eq_true. Qed.

Lemma party_true (uid : option uuid) (s c : uuid) :
  uid_is uid s || uid_is uid c = true <-> uid = Some s \/ uid = Some c.
Proof. rewrite orb_true_iff, !uid_is_true. reflexivity. Qed.

Lemma exists_own_conversation_true (uid : option uuid) (db : Database)
    (k : uuid) :
  exists_own_conversation uid db k = true <->
  exists c, c ∈ db_chat_conversations db /\ chat_conversations.id c = k
            /\ (uid = Some (chat_conversations.student_id c)
                \/ uid = Some (chat_conversations.counselor_id c)).
Proof.
  unfold exists_own_conversation. rewrite existsb_exists. split.
  - intros (c & Hin & Hc). apply andb_true_iff in Hc as [Hid Hp].
    exists c. rewrite list_elem_of_In. split; [done|]. split.
    + by apply bool_decide_eq_true in Hid.
    + by apply party_true.
  - intros (c & Hin & Hid & Hp). exists c.
    rewrite <- list_elem_of_In. split; [done|].
    apply andb_true_iff. split.
    + by apply bool_decide_eq_true.
    + by apply party_true.
Qed.

(** A primary key names at most one row. *)
Lemma primary_key {R} (key : R -> uuid) (rows : list R) (r1 r2 : R) :
  NoDup (key <$> rows) -> r1 ∈ rows -> r2 ∈ rows -> key r1 = key r2 -> r1 = r2.
Proof.
  induction rows as [|r rows IH]; intros Hnd H1 H2 Hk.
  - by apply elem_of_nil in H1.
  - rewrite fmap_cons in Hnd. apply NoDup_cons in Hnd as [Hfresh Hnd].
    apply elem_of_cons in H1 as [->|H1];
      apply elem_of_cons in H2 as [->|H2]; try done.
    + exfalso. apply Hfresh. rewrite Hk. by apply list_elem_of_fmap_2.
    + exfalso. apply Hfresh. rewrite <- Hk. by apply list_elem_of_fmap_2.
    + by apply IH.
Qed.

Lemma own_conversation_of (uid : option uuid) (db : Database)
    (C : chat_conversations.Row) :
  NoDup (chat_conversations.id <$> db_chat_conversations db) ->
  C ∈ db_chat_conversations db ->
  exists_own_conversation uid db (chat_conversations.id C) = true <->
  uid = Some (chat_conversations.student_id C)
  \/ uid = Some (chat_conversations.counselor_id C).
Proof.
  intros Hpk HC. rewrite exists_own_conversation_true. split.
  - intros (c & Hc & Hid & Hp).
    by rewrite <- (primary_key chat_conversations.id _ c C Hpk Hc HC Hid).
  - intros Hp. by exists C.
Qed.

(** Rows an UPDATE does not touch are still there afterwards, and a row it
    touches has been rewritten. *)
Lemma update_rows_untouched {R} (touch : R -> bool)
    (rw : R -> PostgrestError + R) (rows rows' : list R) (r : R) :
  update_rows touch rw rows = inr rows' ->
  r ∈ rows -> touch r = false -> r ∈ rows'.
Proof.
  revert rows'. induction rows as [|x rows IH]; intros rows' Hu Hin Ht.
  - by apply elem_of_nil in Hin.
  - simpl in Hu.
    destruct (if touch x then rw x else inr x) as [e|x'] eqn:Hx; [done|].
    destruct (update_rows touch rw rows) as [e|rest]; [done|].
    injection Hu as <-.
    apply elem_of_cons in Hin as [->|Hin].
    + rewrite Ht in Hx. injection Hx as <-. apply elem_of_cons; by left.
    + apply elem_of_cons; right. by apply IH.
Qed.

Lemma update_rows_touched {R} (touch : R -> bool)
    (rw : R -> PostgrestError + R) (rows rows' : list R) (r : R) :
  update_rows touch rw rows = inr rows' ->
  r ∈ rows -> touch r = true -> exists r', rw r = inr r' /\ r' ∈ rows'.
Proof.
  revert rows'. induction rows as [|x rows IH]; intros rows' Hu Hin Ht.
  - by apply elem_of_nil in Hin.
  - simpl in Hu.
    destruct (if touch x then rw x else inr x) as [e|x'] eqn:Hx; [done|].
    destruct (update_rows touch rw rows) as [e|rest]; [done|].
    injection Hu as <-.
    apply elem_of_cons in Hin as [->|Hin].
    + rewrite Ht in Hx. exists x'. split; [done|]. apply elem_of_cons; by left.
    + destruct (IH rest eq_refl Hin Ht) as (r' & Hr & Hin').
      exists r'. split; [done|]. apply elem_of_cons; by right.
Qed.

(** An UPDATE whose rewriting succeeds on every row it touches succeeds,
    row by row. *)
Lemma update_rows_total {R} (touch : R -> bool) (f : R -> R)
    (rw : R -> PostgrestError + R) (rows : list R) :
  (forall r, r ∈ rows -> touch r = true -> rw r = inr (f r)) ->
  update_rows touch rw rows
  = inr ((fun r => if touch r then f r else r) <$> rows).
Proof.
  induction rows as [|x rows IH]; intros Hrw; [done|].
  simpl. rewrite IH.
  - destruct (touch x) eqn:Ht; [|done].
    rewrite (Hrw x); [done| |done]. apply elem_of_cons; by left.
  - intros r Hin. apply Hrw. apply elem_of_cons; by right.
Qed.

(** ** Messages *)

(** Claim C1.  Let [C] be the conversation a new message [M] refers to.  The
    insert policy accepts [M] exactly when the acting identity is
    [M.sender_id] and is the student or the counselor of [C]; the insert
    fails with a policy denial exactly when that does not hold, and the
    database is then left as it was. *)
Theorem C1_message_insert_policy (uid : option uuid) (db : Database)
    (M : chat_messages.Row) (C : chat_conversations.Row) :
  NoDup (chat_conversations.id <$> db_chat_conversations db) ->
  C ∈ db_chat_conversations db ->
  chat_conversations.id C = chat_messages.conversation_id M ->
  let permitted :=
    uid = Some (chat_messages.sender_id M)
    /\ (uid = Some (chat_conversations.student_id C)
        \/ uid = Some (chat_conversations.counselor_id C)) in
  (chat_messages_insert_check uid db M = true <-> permitted)
  /\ (insert_chat_messages uid M db = inl PolicyDenied <-> ~ permitted)
  /\ (~ permitted -> commit db (insert_chat_messages uid M db) = db).
Proof.
  intros Hpk HC Hid permitted.
  assert (Hpol : chat_messages_insert_check uid db M = true <-> permitted).
  { unfold chat_messages_insert_check, permitted.
    rewrite andb_true_iff, uid_is_true, <- Hid.
    by rewrite (own_conversation_of uid db C Hpk HC). }
  assert (Hdeny : insert_chat_messages uid M db = inl PolicyDenied
                  <-> ~ permitted).
  { rewrite <- Hpol. unfold insert_chat_messages.
    destruct (chat_messages_insert_check uid db M); simpl.
    - split; [|done]. intros H. exfalso.
      repeat (case_match; try discriminate).
    - split; [discriminate|done]. }
  split; [done|]. split; [done|].
  intros Hn. apply Hdeny in Hn. by rewrite Hn.
Qed.

Lemma C1_message_insert_policy_witness :
  insert_chat_messages (Some "third")
    (sample.text [] "m2" "third" 300%Z) sample.stored = inl PolicyDenied
  <-> ~ (Some "third" = Some "third"
         /\ (Some "third" = Some "asha" \/ Some "third" = Some "kiran")).
Proof.
  apply (C1_message_insert_policy (Some "third") sample.stored
           (sample.text [] "m2" "third" 300%Z) sample.chat).
  - apply (bool_decide_unpack _). vm_compute. exact I.
  - apply list_elem_of_here.
  - reflexivity.
Defined.

(** Looking a row up by its key among the rows a policy lets through. *)
Lemma filter_by_key {R} (key : R -> uuid) (visible : R -> bool)
    (rows : list R) (r : R) :
  NoDup (key <$> rows) -> r ∈ rows ->
  filter (fun x => key x = key r) (filter (fun x => visible x) rows)
  = if visible r then [r] else [].
Proof.
  induction rows as [|x rows IH]; intros Hnd Hin.
  - by apply elem_of_nil in Hin.
  - rewrite fmap_cons in Hnd. apply NoDup_cons in Hnd as [Hfresh Hnd].
    assert (Hrest : forall y, y ∈ rows -> key y <> key x).
    { intros y Hy Heq. apply Hfresh. rewrite <- Heq.
      by apply list_elem_of_fmap_2. }
    apply elem_of_cons in Hin as [->|Hin].
    + assert (Hnone : filter (fun y => key y = key x)
                        (filter (fun y => visible y) rows) = []).
      { destruct (filter _ (filter _ rows)) as [|y ys] eqn:Hf; [done|].
        assert (Hy : y ∈ y :: ys) by apply list_elem_of_here.
        rewrite <- Hf in Hy.
        apply list_elem_of_filter in Hy as [Hk Hy].
        apply list_elem_of_filter in Hy as [_ Hy].
        by destruct (Hrest y Hy). }
      destruct (visible x) eqn:Hv.
      * rewrite (filter_cons_True (fun y => visible y)) by (by apply Is_true_true).
        rewrite filter_cons_True by done. by rewrite Hnone.
      * rewrite (filter_cons_False (fun y => visible y)) by (by apply Is_true_false).
        done.
    + destruct (visible x) eqn:Hv.
      * rewrite (filter_cons_True (fun y => visible y)) by (by apply Is_true_true).
        rewrite filter_cons_False; [by apply IH|].
        intros Heq. by apply (Hrest r Hin).
      * rewrite (filter_cons_False (fun y => visible y)) by (by apply Is_true_false).
        by apply IH.
Qed.

Lemma message_by_id_of (uid : option uuid) (db : Database)
    (M : chat_messages.Row) :
  NoDup (chat_messages.id <$> db_chat_messages db) ->
  M ∈ db_chat_messages db ->
  message_by_id uid db (chat_messages.id M)
  = if chat_messages_select_using uid db M then inr (with_sender uid db M)
    else inl NotSingleRow.
Proof.
  intros Hpk HM. unfold message_by_id, select_chat_messages.
  rewrite (filter_by_key chat_messages.id
             (chat_messages_select_using uid db) _ M Hpk HM).
  by destruct (chat_messages_select_using uid db M).
Qed.

(** The read claim C2 fails in its last part: a third profile that reads
    the conversation of a stored message gets an ordinary, empty answer, and
    fetching the message by id fails for want of a row; in neither case
    does the storage layer answer with a policy denial. *)
Lemma C2_third_profile_not_denied :
  let w := fetchMessages "c1"
             (sample.world sample.stored sample.third (sample.chat_ui [])) in
  sample.hello ∈ db_chat_messages sample.stored
  /\ messages (ui w) = [] /\ console w = [] /\ toasts w = []
  /\ message_by_id (Some "third") sample.stored "m1" = inl NotSingleRow
  /\ message_by_id (Some "third") sample.stored "m1" <> inl PolicyDenied.
Proof.
  split; [apply list_elem_of_here|].
  split; [vm_compute; reflexivity|].
  split; [reflexivity|]. split; [reflexivity|].
  split; [vm_compute; reflexivity|]. vm_compute. discriminate.
Qed.

(** Claim C2, amended.  Let [C] be the conversation of a stored message
    [M].  The read policy shows [M] to the acting identity exactly when it
    is the student or the counselor of [C] (the policy finds [C] through
    [M.conversation_id]), and such a party fetches [M] by id with its
    sender.  Anyone else is answered without [M]: the row is withheld from
    the result of a read, which raises no error, and fetching it by id
    fails because no row is found. *)
Theorem C2_message_read_policy (uid : option uuid) (db : Database)
    (M : chat_messages.Row) (C : chat_conversations.Row) :
  NoDup (chat_conversations.id <$> db_chat_conversations db) ->
  NoDup (chat_messages.id <$> db_chat_messages db) ->
  C ∈ db_chat_conversations db ->
  chat_conversations.id C = chat_messages.conversation_id M ->
  M ∈ db_chat_messages db ->
  let party :=
    uid = Some (chat_conversations.student_id C)
    \/ uid = Some (chat_conversations.counselor_id C) in
  (chat_messages_select_using uid db M = true <-> party)
  /\ (M ∈ select_chat_messages uid db <-> party)
  /\ (party ->
      message_by_id uid db (chat_messages.id M) = inr (with_sender uid db M))
  /\ (~ party ->
      (M ∉ select_chat_messages uid db)
      /\ (M ∉ message <$> messages_of uid db (chat_messages.conversation_id M))
      /\ message_by_id uid db (chat_messages.id M) = inl NotSingleRow).
Proof.
  intros Hpk Hpkm HC Hid HM party.
  assert (Hpol : chat_messages_select_using uid db M = true <-> party).
  { unfold chat_messages_select_using, party. rewrite <- Hid.
    apply (own_conversation_of uid db C Hpk HC). }
  assert (Hsel : M ∈ select_chat_messages uid db <-> party).
  { unfold select_chat_messages. rewrite list_elem_of_filter, Is_true_true.
    rewrite Hpol. tauto. }
  split; [done|]. split; [done|]. split.
  - intros Hp. apply Hpol in Hp.
    by rewrite (message_by_id_of uid db M Hpkm HM), Hp.
  - intros Hn. split; [by rewrite Hsel|]. split.
    + unfold messages_of.
      rewrite <- list_fmap_compose, (list_fmap_ext _ id _ (fun _ _ _ => eq_refl)),
        list_fmap_id, merge_sort_Permutation, list_elem_of_filter.
      intros [_ Hin]. by apply Hn, Hsel.
    + rewrite (message_by_id_of uid db M Hpkm HM).
      destruct (chat_messages_select_using uid db M); [|done].
      exfalso. by apply Hn, Hpol.
Qed.

Lemma C2_message_read_policy_witness :
  sample.hello ∈ select_chat_messages (Some "third") sample.stored
  <-> Some "third" = Some "asha" \/ Some "third" = Some "kiran".
Proof.
  apply (C2_message_read_policy (Some "third") sample.stored
           sample.hello sample.chat).
  - apply (bool_decide_unpack _). vm_compute. exact I.
  - apply (bool_decide_unpack _). vm_compute. exact I.
  - apply list_elem_of_here.
  - reflexivity.
  - apply list_elem_of_here.
Defined.

(** ** Conversations and appointments *)

Ltac denied_first :=
  repeat (case_match; try discriminate).

Lemma insert_chat_conversations_denied (uid : option uuid) (db : Database)
    (c : chat_conversations.Row) :
  insert_chat_conversations uid c db = inl PolicyDenied
  <-> uid <> Some (chat_conversations.student_id c).
Proof.
  unfold insert_chat_conversations, chat_conversations_insert_check.
  destruct (uid_is uid (chat_conversations.student_id c)) eqn:Hu; simpl.
  - apply uid_is_true in Hu. split; [|done]. intros H. exfalso. denied_first.
  - split; [|done]. intros _ Heq. apply uid_is_true in Heq. congruence.
Qed.

Lemma insert_appointments_denied (uid : option uuid) (db : Database)
    (a : appointments.Row) :
  insert_appointments uid a db = inl PolicyDenied
  <-> uid <> Some (appointments.student_id a).
Proof.
  unfold insert_appointments, appointments_insert_check.
  destruct (uid_is uid (appointments.student_id a)) eqn:Hu; simpl.
  - apply uid_is_true in Hu. split; [|done]. intros H. exfalso. denied_first.
  - split; [|done]. intros _ Heq. apply uid_is_true in Heq. congruence.
Qed.

Lemma update_chat_conversations_rows (uid : option uuid)
    (where_ : chat_conversations.Row -> bool) (u : chat_conversations.Update)
    (now : timestamptz) (db db' : Database) :
  update_chat_conversations uid where_ u now db = inr db' ->
  update_rows (fun r => where_ r && chat_conversations_update_using uid r)
    (rewrite_chat_conversation uid u now) (db_chat_conversations db)
  = inr (db_chat_conversations db').
Proof.
  unfold update_chat_conversations. intros H.
  destruct (update_rows _ _ _) as [e|rows]; [done|].
  repeat (case_match; try discriminate). by injection H as <-.
Qed.

Lemma update_appointments_rows (uid : option uuid)
    (where_ : appointments.Row -> bool) (u : appointments.Update)
    (now : timestamptz) (db db' : Database) :
  update_appointments uid where_ u now db = inr db' ->
  update_rows (fun r => where_ r && appointments_update_using uid r)
    (rewrite_appointment uid u now) (db_appointments db)
  = inr (db_appointments db').
Proof.
  unfold update_appointments. intros H.
  destruct (update_rows _ _ _) as [e|rows]; [done|].
  repeat (case_match; try discriminate). by injection H as <-.
Qed.

(** ** The join window *)

Lemma canJoinCall_true (t : Z) (a : Appointment) :
  let A := appointment a in
  canJoinCall t a = true <->
    four_digit_year (appointments.scheduled_start A) = true
    /\ four_digit_year (appointments.scheduled_end A) = true
    /\ (appointments.scheduled_start A - 15 * 60000 <= t)%Z
    /\ (t <= appointments.scheduled_end A)%Z
    /\ appointments.status A <> Some "cancelled"
    /\ appointments.appointment_type A = Some "video".
Proof.
  intros A. unfold canJoinCall, new_Date. fold A.
  rewrite !andb_true_iff, negb_true_iff, bool_decide_eq_false,
    bool_decide_eq_true.
  destruct (four_digit_year (appointments.scheduled_start A)),
           (four_digit_year (appointments.scheduled_end A)); simpl;
    rewrite ?Z.leb_le; intuition congruence.
Qed.

(** The join-window claim C4 fails as written.  A video appointment that
    starts at [T] and ends on the first day of the year 10000 is a row the
    table accepts; at [T] the clock is past fifteen minutes before the
    start and before the end, the status is 'scheduled' and the type is
    'video', and yet [canJoinCall] is false: the end is an instant [Date]
    does not read back, and a comparison with its time value is false. *)
Lemma C4_unreadable_end_not_joinable :
  let A := reschedule sample.T 253402300800000%Z (sample.visit "scheduled") in
  let a := with_parties_a (Some "asha") sample.stored A in
  accepted (insert_appointments (Some "asha") A sample.empty) = true
  /\ (appointments.scheduled_start A - 15 * 60000 <= sample.T)%Z
  /\ (sample.T <= appointments.scheduled_end A)%Z
  /\ appointments.status A <> Some "cancelled"
  /\ appointments.appointment_type A = Some "video"
  /\ canJoinCall sample.T a = false.
Proof.
  split; [vm_compute; reflexivity|].
  split; [vm_compute; discriminate|].
  split; [vm_compute; discriminate|].
  split; [discriminate|].
  split; [reflexivity|]. vm_compute. reflexivity.
Qed.

(** Claim C4, amended.  For an appointment whose [scheduled_start] and
    [scheduled_end] both fall in the years 0001 to 9999 (the instants
    [Date] reads back from the text of the API), [canJoinCall] holds exactly
    when the clock is no earlier than fifteen minutes before
    [scheduled_start], no later than [scheduled_end], the status is not
    'cancelled' and the type is 'video'.  For any other appointment it is
    false at every time; and whenever it holds, the four conditions hold.
    For a scheduled video appointment from [T0] to [T0] + 30 min, both in
    those years, it holds throughout [T0 - 15 min, T0 + 30 min]; it fails
    at [T0 - 16 min] and at [T0 + 31 min], and at any time once the status
    is 'cancelled'.  The result depends on the appointment row and the
    clock alone. *)
Theorem C4_canJoinCall_window (a : Appointment) (t : Z) :
  let A := appointment a in
  let window :=
    (appointments.scheduled_start A - 15 * 60000 <= t)%Z
    /\ (t <= appointments.scheduled_end A)%Z
    /\ appointments.status A <> Some "cancelled"
    /\ appointments.appointment_type A = Some "video" in
  (four_digit_year (appointments.scheduled_start A) = true ->
   four_digit_year (appointments.scheduled_end A) = true ->
   (canJoinCall t a = true <-> window))
  /\ (four_digit_year (appointments.scheduled_start A) = false
      \/ four_digit_year (appointments.scheduled_end A) = false ->
      canJoinCall t a = false)
  /\ (canJoinCall t a = true -> window)
  /\ (forall T0 : Z,
        appointments.scheduled_start A = T0 ->
        appointments.scheduled_end A = (T0 + 30 * 60000)%Z ->
        appointments.appointment_type A = Some "video" ->
        (appointments.status A = Some "scheduled" ->
           (four_digit_year T0 = true ->
            four_digit_year (T0 + 30 * 60000)%Z = true ->
            (T0 - 15 * 60000 <= t <= T0 + 30 * 60000)%Z ->
              canJoinCall t a = true)
           /\ canJoinCall (T0 - 16 * 60000) a = false
           /\ canJoinCall (T0 + 31 * 60000) a = false)
        /\ (appointments.status A = Some "cancelled" ->
              canJoinCall t a = false))
  /\ (forall a' : Appointment,
        appointment a' = appointment a -> canJoinCall t a' = canJoinCall t a).
Proof.
  intros A window. unfold window.
  pose proof (fun now => canJoinCall_true now a) as Hiff. fold A in Hiff.
  simpl in Hiff.
  split; [|split; [|split; [|split]]].
  - intros Hs He. rewrite Hiff. tauto.
  - intros Hbad. apply not_true_is_false. intros H. apply Hiff in H.
    destruct H as (Hs & He & _). destruct Hbad; congruence.
  - intros H. apply Hiff in H. tauto.
  - intros T0 Hs He Hty. split.
    + intros Hst. split; [|split].
      * intros Hr1 Hr2 Ht. apply Hiff. rewrite Hs, He, Hst.
        repeat split; [done|done|lia|lia|done|done].
      * apply not_true_is_false. intros H. apply Hiff in H. lia.
      * apply not_true_is_false. intros H. apply Hiff in H. lia.
    + intros Hst. apply not_true_is_false. intros H. apply Hiff in H.
      by destruct H as (_ & _ & _ & _ & Hn & _).
  - intros a' Heq. unfold canJoinCall. by rewrite Heq.
Qed.

Lemma C4_canJoinCall_window_witness :
  let a := with_parties_a (Some "asha") sample.stored
             (sample.visit "scheduled") in
  canJoinCall (sample.T - 15 * 60000) a = true
  /\ canJoinCall (sample.T - 16 * 60000) a = false
  /\ canJoinCall (sample.T + 31 * 60000) a = false.
Proof.
  intros a.
  destruct (C4_canJoinCall_window a (sample.T - 15 * 60000))
    as (_ & _ & _ & H & _).
  destruct (H sample.T eq_refl eq_refl eq_refl) as [Hs _].
  destruct (Hs eq_refl) as (Hin & Hearly & Hlate).
  split; [|split].
  - apply Hin; [reflexivity|reflexivity|]. unfold sample.T. lia.
  - exact Hearly.
  - exact Hlate.
Defined.

(** ** Appointment times *)

Lemma update_rows_alike {R} (rel : R -> R -> Prop) (touch : R -> bool)
    (rw1 rw2 : R -> PostgrestError + R) (rows : list R) :
  (forall r, rel r r) ->
  (forall r, alike rel (rw1 r) (rw2 r)) ->
  alike (Forall2 rel) (update_rows touch rw1 rows) (update_rows touch rw2 rows).
Proof.
  intros Hrefl Hrw. induction rows as [|x rows IH]; simpl.
  - constructor.
  - destruct (touch x).
    + specialize (Hrw x).
      destruct (rw1 x) as [e1|a], (rw2 x) as [e2|b]; simpl in *; try done.
      destruct (update_rows touch rw1 rows) as [e1|l1],
               (update_rows touch rw2 rows) as [e2|l2]; simpl in *; try done.
      by constructor.
    + destruct (update_rows touch rw1 rows) as [e1|l1],
               (update_rows touch rw2 rows) as [e2|l2]; simpl in *; try done.
      constructor; [apply Hrefl|done].
Qed.

Lemma rewrite_appointment_alike (uid : option uuid) (u : appointments.Update)
    (s e : option timestamptz) (now : timestamptz) (r : appointments.Row) :
  alike same_but_times (rewrite_appointment uid (with_times s e u) now r)
                       (rewrite_appointment uid u now r).
Proof.
  unfold rewrite_appointment.
  change (appointments_update_using uid
            (appointments.update_updated_at_column now
               (appointments.apply (with_times s e u) r)))
    with (appointments_update_using uid
            (appointments.update_updated_at_column now
               (appointments.apply u r))).
  change (appointments_checks
            (appointments.update_updated_at_column now
               (appointments.apply (with_times s e u) r)))
    with (appointments_checks
            (appointments.update_updated_at_column now
               (appointments.apply u r))).
  destruct (appointments_update_using uid _); simpl; [|done].
  destruct (appointments_checks _); simpl; done.
Qed.

Lemma same_but_times_keys (l1 l2 : list appointments.Row) :
  Forall2 same_but_times l1 l2 ->
  appointments.id <$> l1 = appointments.id <$> l2.
Proof.
  induction 1 as [|a b l1 l2 Hab _ IH]; [done|].
  rewrite !fmap_cons, IH. f_equal.
  exact (f_equal appointments.id Hab).
Qed.

Lemma same_but_times_fkeys (db : Database) (l1 l2 : list appointments.Row) :
  Forall2 same_but_times l1 l2 ->
  foreign_keys (with_appointments l1 db)
  = foreign_keys (with_appointments l2 db).
Proof.
  intros H.
  change (forallb (chat_conversations_fkeys db) (db_chat_conversations db)
          && forallb (chat_messages_fkeys db) (db_chat_messages db)
          && forallb (appointments_fkeys db) l1
          = forallb (chat_conversations_fkeys db) (db_chat_conversations db)
            && forallb (chat_messages_fkeys db) (db_chat_messages db)
            && forallb (appointments_fkeys db) l2).
  f_equal. induction H as [|a b l1 l2 Hab _ IH]; [done|].
  simpl. rewrite IH. f_equal. unfold appointments_fkeys.
  pose proof (f_equal appointments.student_id Hab) as Hs.
  pose proof (f_equal appointments.counselor_id Hab) as Hc.
  pose proof (f_equal appointments.conversation_id Hab) as Hv.
  simpl in Hs, Hc, Hv. by rewrite Hs, Hc, Hv.
Qed.

Lemma update_appointments_times (uid : option uuid) (db : Database)
    (where_ : appointments.Row -> bool) (u : appointments.Update)
    (now : timestamptz) (s e : option timestamptz) :
  accepted (update_appointments uid where_ (with_times s e u) now db)
  = accepted (update_appointments uid where_ u now db).
Proof.
  unfold update_appointments.
  pose proof (update_rows_alike same_but_times
                (fun r => where_ r && appointments_update_using uid r)
                (rewrite_appointment uid (with_times s e u) now)
                (rewrite_appointment uid u now) (db_appointments db)
                (fun r => eq_refl)
                (rewrite_appointment_alike uid u s e now)) as H.
  destruct (update_rows _ (rewrite_appointment uid (with_times s e u) now) _)
    as [e1|l1],
    (update_rows _ (rewrite_appointment uid u now) _) as [e2|l2];
    simpl in H; try done.
  rewrite (same_but_times_keys l1 l2 H), (same_but_times_fkeys db l1 l2 H).
  destruct (negb (bool_decide (NoDup (appointments.id <$> l2)))); [done|].
  by destruct (negb (foreign_keys (with_appointments l2 db))).
Qed.

Lemma insert_appointments_times (uid : option uuid) (db : Database)
    (a : appointments.Row) (s e : timestamptz) :
  accepted (insert_appointments uid (reschedule s e a) db)
  = accepted (insert_appointments uid a db).
Proof.
  unfold insert_appointments.
  change (appointments_insert_check uid (reschedule s e a))
    with (appointments_insert_check uid a).
  change (appointments_checks (reschedule s e a))
    with (appointments_checks a).
  change (appointments.id (reschedule s e a)) with (appointments.id a).
  change (appointments_fkeys db (reschedule s e a))
    with (appointments_fkeys db a).
  by repeat case_match.
Qed.

(** The appointment claim fails as written: a booking whose end precedes
    its start is stored, through [createAppointment] and through an update
    alike. *)
Lemma C5_backwards_accepted :
  (exists a,
     db_appointments
       (db (createAppointment "a9" 500%Z 600%Z
              (sample.world sample.empty sample.asha
                 (sample.dashboard sample.backwards)))) = [a]
     /\ (appointments.scheduled_end a < appointments.scheduled_start a)%Z)
  /\ (exists a db',
        update_appointments (Some "kiran")
          (fun r => bool_decide (appointments.id r = "a1"))
          (with_times None (Some (sample.T - 1)%Z) appointments.no_change)
          700%Z sample.stored = inr db'
        /\ db_appointments db' = [a]
        /\ (appointments.scheduled_end a < appointments.scheduled_start a)%Z).
Proof.
  split.
  - eexists. split; [vm_compute; reflexivity|]. vm_compute. reflexivity.
  - eexists. eexists. split; [vm_compute; reflexivity|].
    split; [vm_compute; reflexivity|]. vm_compute. reflexivity.
Qed.

(** Claim C5, amended.  Whether a create or an update of an appointment is
    accepted does not depend on the two instants, hence not on their order.
    What is required is their presence: [createAppointment] sends nothing
    while either field of the form is empty, and once both are filled in
    the database becomes whatever the insert of that row makes of it. *)
Theorem C5_appointment_times_unchecked (who : option uuid) (d : Database) :
  (forall a s e,
     accepted (insert_appointments who (reschedule s e a) d)
     = accepted (insert_appointments who a d))
  /\ (forall where_ u now s e,
        accepted (update_appointments who where_ (with_times s e u) now d)
        = accepted (update_appointments who where_ u now d))
  /\ (forall fresh now date_now (w : World AppointmentDashboard),
        let f := appointmentForm (ui w) in
        let w' := createAppointment fresh now date_now w in
        (form_scheduled_start f = None \/ form_scheduled_end f = None ->
           db w' = db w /\ requests w' = requests w)
        /\ (forall p s e,
              profile w = Some p -> form_counselor_id f <> "" ->
              form_scheduled_start f = Some s ->
              form_scheduled_end f = Some e ->
              db w' = commit (db w)
                        (insert_appointments (uid w)
                           (new_appointment fresh now date_now p f s e)
                           (db w)))).
Proof.
  split; [intros; apply insert_appointments_times|].
  split; [intros; apply update_appointments_times|].
  intros fresh now date_now w f w'. split.
  - intros Hempty. unfold w', createAppointment. fold f.
    destruct (profile w), (bool_decide (form_counselor_id f = "")),
      (form_scheduled_start f), (form_scheduled_end f);
      try done; by destruct Hempty.
  - intros p s e Hp Hc Hs He. unfold w', createAppointment. fold f.
    rewrite Hp, Hs, He. rewrite bool_decide_eq_false_2 by done. simpl.
    destruct (insert_appointments _ _ _) as [err|db']; simpl; [done|].
    by case_match.
Qed.

Lemma C5_appointment_times_unchecked_witness :
  accepted (insert_appointments (Some "asha")
              (reschedule (sample.T + 1)%Z sample.T (sample.visit "scheduled"))
              sample.empty)
  = accepted (insert_appointments (Some "asha") (sample.visit "scheduled")
                sample.empty).
Proof.
  apply (C5_appointment_times_unchecked (Some "asha") sample.empty).
Defined.

(** ** Sending a message *)

Lemma touch_conversation_keys (uid : option uuid) (conv : uuid)
    (t now : timestamptz) (rows : list chat_conversations.Row) :
  chat_conversations.id <$> (touch_conversation uid conv t now <$> rows)
  = chat_conversations.id <$> rows.
Proof.
  rewrite <- list_fmap_compose. apply list_fmap_ext. intros _ r _.
  unfold compose, touch_conversation. by case_match.
Qed.

Lemma touch_conversation_fkeys (uid : option uuid) (conv : uuid)
    (t now : timestamptz) (d : Database) (r : chat_conversations.Row) :
  chat_conversations_fkeys d (touch_conversation uid conv t now r)
  = chat_conversations_fkeys d r.
Proof. unfold touch_conversation. by case_match. Qed.

Lemma foreign_keys_touched (uid : option uuid) (conv : uuid)
    (t now : timestamptz) (d : Database) :
  foreign_keys
    (with_chat_conversations
       (touch_conversation uid conv t now <$> db_chat_conversations d) d)
  = foreign_keys d.
Proof.
  unfold foreign_keys, chat_messages_fkeys, appointments_fkeys,
    conversation_exists. simpl.
  rewrite touch_conversation_keys. do 2 f_equal.
  generalize (touch_conversation uid conv t now <$> db_chat_conversations d)
    at 1.
  intros l. induction (db_chat_conversations d) as [|r rows IH]; [done|].
  rewrite fmap_cons. simpl. rewrite IH. f_equal.
  apply (touch_conversation_fkeys uid conv t now d r).
Qed.

Lemma update_touch_accepted (uid : option uuid) (conv : uuid)
    (t now : timestamptz) (d : Database) :
  consistent d = true ->
  update_chat_conversations uid
    (fun c => bool_decide (chat_conversations.id c = conv))
    (touch_last_message_at t) now d
  = inr (with_chat_conversations
           (touch_conversation uid conv t now <$> db_chat_conversations d) d).
Proof.
  intros Hc. unfold consistent in Hc.
  apply andb_true_iff in Hc as [Hc Hfk]. apply andb_true_iff in Hc as [Hpk Hck].
  unfold update_chat_conversations.
  rewrite (update_rows_total _
             (fun r => chat_conversations.update_updated_at_column now
                         (chat_conversations.apply (touch_last_message_at t) r))).
  - change (fun r => if bool_decide (chat_conversations.id r = conv)
                        && chat_conversations_update_using uid r
                     then _ else r)
      with (touch_conversation uid conv t now).
    rewrite touch_conversation_keys, Hpk, foreign_keys_touched, Hfk. done.
  - intros r Hin Ht. apply andb_true_iff in Ht as [_ Hu].
    unfold rewrite_chat_conversation.
    change (chat_conversations_update_using uid
              (chat_conversations.update_updated_at_column now
                 (chat_conversations.apply (touch_last_message_at t) r)))
      with (chat_conversations_update_using uid r).
    change (chat_conversations_checks
              (chat_conversations.update_updated_at_column now
                 (chat_conversations.apply (touch_last_message_at t) r)))
      with (chat_conversations_checks r).
    rewrite Hu. simpl.
    rewrite forallb_forall in Hck. rewrite (Hck r); [done|].
    by apply list_elem_of_In.
Qed.

Lemma insert_chat_messages_inr (uid : option uuid) (M : chat_messages.Row)
    (d d1 : Database) :
  insert_chat_messages uid M d = inr d1 ->
  chat_messages_insert_check uid d M = true
  /\ chat_messages_fkeys d M = true
  /\ d1 = with_chat_messages (db_chat_messages d ++ [M]) d.
Proof.
  unfold insert_chat_messages. intros H.
  destruct (chat_messages_insert_check uid d M); [|done].
  destruct (chat_messages_checks M); [|done].
  destruct (bool_decide _); [done|].
  destruct (chat_messages_fkeys d M); [|done].
  simpl in H. by injection H as <-.
Qed.

Lemma consistent_after_insert (uid : option uuid) (M : chat_messages.Row)
    (d d1 : Database) :
  consistent d = true -> insert_chat_messages uid M d = inr d1 ->
  consistent d1 = true.
Proof.
  intros Hc Hins. apply insert_chat_messages_inr in Hins as (_ & Hfk & ->).
  unfold consistent in *.
  apply andb_true_iff in Hc as [Hc Hall]. rewrite andb_true_iff. split; [done|].
  unfold foreign_keys in *. simpl.
  apply andb_true_iff in Hall as [Hall Ha].
  apply andb_true_iff in Hall as [Hcv Hm].
  rewrite !andb_true_iff. split; [split|]; [done| |done].
  rewrite forallb_app, andb_true_iff. split; [done|].
  simpl. by rewrite andb_true_r.
Qed.

(** The message claim fails in one point: after [sendMessage] the
    conversation carries the reading of the browser clock, not the
    [created_at] the server gave the message. *)
Lemma C6_touch_differs_from_created_at :
  let w' := sendMessage "m9" 1000%Z 2000%Z 1001%Z
              (sample.world sample.empty sample.asha
                 (sample.chat_ui [104; 105]%N)) in
  exists m c,
    db_chat_messages (db w') = [m]
    /\ db_chat_conversations (db w') = [c]
    /\ chat_messages.conversation_id m = chat_conversations.id c
    /\ chat_messages.created_at m = Some 1000%Z
    /\ chat_conversations.last_message_at c = Some 2000%Z
    /\ chat_conversations.last_message_at c <> chat_messages.created_at m.
Proof.
  eexists. eexists.
  split; [vm_compute; reflexivity|]. split; [vm_compute; reflexivity|].
  split; [reflexivity|]. split; [reflexivity|]. split; [reflexivity|].
  vm_compute. discriminate.
Qed.

(** Reading a string as text either gives a text with those code units or
    fails. *)
Lemma text_eq (a b : text) : code_units a = code_units b -> a = b.
Proof.
  destruct a as [s Hs], b as [s' Hs']. simpl. intros ->.
  f_equal. apply proof_irrel.
Qed.

Lemma read_text_cases (s : jsstring) :
  (exists t, read_text s = inr t /\ code_units t = s /\ well_formed s = true)
  \/ (read_text s = inl NotText /\ well_formed s = false).
Proof.
  unfold read_text.
  assert (H : forall b (E : well_formed s = b),
    (exists t,
       match b as b' return well_formed s = b' -> PostgrestError + text with
       | true => fun H => inr (Text s H)
       | false => fun _ => inl NotText
       end E = inr t /\ code_units t = s /\ b = true)
    \/ (match b as b' return well_formed s = b' -> PostgrestError + text with
        | true => fun H => inr (Text s H)
        | false => fun _ => inl NotText
        end E = inl NotText /\ b = false)).
  { intros [] E; [left|right; done]. by exists (Text s E). }
  destruct (H (well_formed s) eq_refl) as [(t & Ht & Hu & Hw)|[He Hw]].
  - left. by exists t.
  - by right.
Qed.

Lemma read_text_of (t : text) : read_text (code_units t) = inr t.
Proof.
  destruct (read_text_cases (code_units t)) as [(t' & Ht & Hu & _)|[_ Hw]].
  - rewrite Ht. f_equal. by apply text_eq.
  - rewrite (text_ok t) in Hw. discriminate.
Qed.

Lemma post_chat_messages_text (uid : option uuid) (fresh : uuid)
    (now : timestamptz) (conv : uuid) (p : profiles.Row) (t : text)
    (d : Database) :
  post_chat_messages uid fresh now conv p (code_units t) d
  = insert_chat_messages uid (new_message fresh now conv p t) d.
Proof. unfold post_chat_messages. by rewrite read_text_of. Qed.

Lemma post_chat_messages_inr (uid : option uuid) (fresh : uuid)
    (now : timestamptz) (conv : uuid) (p : profiles.Row) (content : jsstring)
    (d d1 : Database) :
  post_chat_messages uid fresh now conv p content d = inr d1 ->
  exists t, code_units t = content
    /\ insert_chat_messages uid (new_message fresh now conv p t) d = inr d1.
Proof.
  unfold post_chat_messages. intros H.
  destruct (read_text_cases content) as [(t & Ht & Hu & _)|[He _]].
  - rewrite Ht in H. by exists t.
  - rewrite He in H. discriminate.
Qed.

(** Claim C6, amended.  When [sendMessage] passes its guard it sends the
    insert first, with the trimmed draft as content.  The server reads the
    content as text, which fails when a code unit names no character, and
    otherwise inserts the row.  If the insert fails, nothing else is sent
    and the database is as before.  If it succeeds, exactly one more call
    follows it: the update of the selected conversation that sets
    [last_message_at] to the browser clock read after the insert; on a
    consistent database that update is applied, so the conversation then
    carries that reading while the stored message carries the server time
    of its insert. *)
Theorem C6_sendMessage_insert_then_touch (fresh : uuid)
    (now_insert : timestamptz) (date_now : Z) (now_update : timestamptz)
    (w : World ChatInterface) (conv : uuid) (p : profiles.Row) :
  trim (newMessage (ui w)) <> [] ->
  truthy (selectedConversation (ui w)) = Some conv ->
  profile w = Some p ->
  let content := trim (newMessage (ui w)) in
  let insert := InsertMessage conv (profiles.id p) content "text" in
  let outcome :=
    post_chat_messages (uid w) fresh now_insert conv p content (db w) in
  let w' := sendMessage fresh now_insert date_now now_update w in
  (forall e, outcome = inl e ->
     requests w' = requests w ++ [insert] /\ db w' = db w)
  /\ (well_formed content = false -> outcome = inl NotText)
  /\ (forall t, code_units t = content ->
        outcome = insert_chat_messages (uid w)
                    (new_message fresh now_insert conv p t) (db w))
  /\ (forall d1, outcome = inr d1 ->
        requests w' = requests w
                      ++ [insert;
                          UpdateConversation conv
                            (touch_last_message_at date_now)]
        /\ db w' = commit d1
                     (update_chat_conversations (uid w)
                        (fun c => bool_decide (chat_conversations.id c = conv))
                        (touch_last_message_at date_now) now_update d1)
        /\ exists t, code_units t = content
             /\ let new := new_message fresh now_insert conv p t in
                insert_chat_messages (uid w) new (db w) = inr d1
                /\ (consistent (db w) = true ->
                    forall C, C ∈ db_chat_conversations (db w) ->
                      chat_conversations.id C = conv ->
                      exists C', C' ∈ db_chat_conversations (db w')
                        /\ chat_conversations.id C' = conv
                        /\ chat_conversations.last_message_at C'
                           = Some date_now
                        /\ new ∈ db_chat_messages (db w')
                        /\ chat_messages.created_at new = Some now_insert)).
Proof.
  intros Htext Hsel Hp content. unfold sendMessage. rewrite Hsel, Hp.
  fold content in Htext |- *. clearbody content.
  destruct content as [|c0 s0]; [done|]. cbn [uid db send].
  remember (c0 :: s0) as content eqn:Hcontent. clear Hcontent Htext c0 s0.
  set (outcome :=
         post_chat_messages (uid w) fresh now_insert conv p content (db w)).
  set (insert := InsertMessage conv (profiles.id p) content "text").
  split; [|split; [|split]].
  - intros e He. rewrite He. done.
  - intros Hw. unfold outcome, post_chat_messages.
    destruct (read_text_cases content) as [(t & _ & _ & Ht)|[He _]].
    + congruence.
    + by rewrite He.
  - intros t Ht. unfold outcome. rewrite <- Ht.
    apply post_chat_messages_text.
  - intros d1 Hd1. rewrite Hd1.
    cbn [uid db requests send set_db set_ui]. rewrite <- app_assoc.
    split; [done|]. split; [done|].
    unfold outcome in Hd1.
    apply post_chat_messages_inr in Hd1 as (t & Ht & Hd1).
    exists t. split; [by rewrite Ht|]. split; [done|].
    intros Hc C HC Hid.
    pose proof (consistent_after_insert _ _ _ _ Hc Hd1) as Hc1.
    rewrite (update_touch_accepted (uid w) conv date_now now_update d1 Hc1).
    apply insert_chat_messages_inr in Hd1 as (Hpol & _ & ->). simpl.
    assert (Hparty : chat_conversations_update_using (uid w) C = true).
    { unfold chat_messages_insert_check in Hpol.
      apply andb_true_iff in Hpol as [_ Hown].
      change (chat_messages.conversation_id (new_message _ _ _ _ _))
        with conv in Hown.
      rewrite <- Hid in Hown. apply party_true.
      apply (own_conversation_of (uid w) (db w) C); [|done|done].
      unfold consistent in Hc. rewrite !andb_true_iff in Hc.
      destruct Hc as [[Hpk _] _]. by apply bool_decide_eq_true in Hpk. }
    exists (touch_conversation (uid w) conv date_now now_update C).
    split; [by apply list_elem_of_fmap_2|].
    unfold touch_conversation. rewrite Hparty.
    rewrite bool_decide_eq_true_2 by done. simpl.
    split; [done|]. split; [done|]. split; [|done].
    apply elem_of_app. right. apply list_elem_of_here.
Qed.

Lemma C6_sendMessage_insert_then_touch_witness :
  requests
    (sendMessage "m9" 1000%Z 2000%Z 1001%Z
       (sample.world sample.empty sample.asha (sample.chat_ui [104; 105]%N)))
  = [InsertMessage "c1" "asha" [104; 105]%N "text";
     UpdateConversation "c1" (touch_last_message_at 2000%Z)].
Proof.
  destruct (C6_sendMessage_insert_then_touch "m9" 1000%Z 2000%Z 1001%Z
              (sample.world sample.empty sample.asha
                 (sample.chat_ui [104; 105]%N))
              "c1" sample.asha) as (_ & _ & _ & H).
  - vm_compute. discriminate.
  - reflexivity.
  - reflexivity.
  - destruct (H (with_chat_messages
                   [sample.text [104; 105]%N "m9" "asha" 1000%Z]
                   sample.empty)) as [Hreq _].
    + vm_compute. reflexivity.
    + exact Hreq.
Defined.

(** Claim C10.  When the trimmed text is empty, or no conversation is
    selected, or no profile is loaded, [sendMessage] returns the world it
    was given: no call is sent, and the message list, the draft, the
    notifications and the database are as before. *)
Theorem C10_sendMessage_guard (fresh : uuid) (now_insert : timestamptz)
    (date_now : Z) (now_update : timestamptz) (w : World ChatInterface) :
  trim (newMessage (ui w)) = []
  \/ selectedConversation (ui w) = None
  \/ profile w = None ->
  let w' := sendMessage fresh now_insert date_now now_update w in
  w' = w
  /\ requests w' = requests w
  /\ messages (ui w') = messages (ui w)
  /\ db w' = db w.
Proof.
  intros H w'.
  assert (Hw : w' = w).
  { unfold w', sendMessage.
    destruct H as [H|[H|H]]; rewrite H; simpl; by repeat case_match. }
  by rewrite Hw.
Qed.

Lemma C10_sendMessage_guard_witness :
  sendMessage "m9" 1000%Z 2000%Z 1001%Z
    (sample.world sample.empty sample.asha (sample.chat_ui [32; 9; 160]%N))
  = sample.world sample.empty sample.asha (sample.chat_ui [32; 9; 160]%N).
Proof.
  apply (C10_sendMessage_guard "m9" 1000%Z 2000%Z 1001%Z
           (sample.world sample.empty sample.asha
              (sample.chat_ui [32; 9; 160]%N))).
  left. reflexivity.
Defined.

(** ** The realtime merge *)

#[global] Instance created_at_asc_total : Total created_at_asc.
Proof.
  intros m1 m2. unfold created_at_asc, asc_nulls_last.
  destruct (chat_messages.created_at m1), (chat_messages.created_at m2);
    try tauto. lia.
Qed.

Lemma message_with_sender (uid : option uuid) (d : Database)
    (l : list chat_messages.Row) :
  message <$> (with_sender uid d <$> l) = l.
Proof.
  rewrite <- list_fmap_compose. rewrite <- (list_fmap_id l) at 2.
  by apply list_fmap_ext.
Qed.

Lemma message_by_id_key (uid : option uuid) (d : Database) (k : uuid)
    (data : Message) :
  message_by_id uid d k = inr data ->
  chat_messages.id (message data) = k
  /\ message data ∈ select_chat_messages uid d
  /\ data = with_sender uid d (message data).
Proof.
  unfold message_by_id. intros H.
  destruct (filter _ (select_chat_messages uid d)) as [|m [|m' l]] eqn:Hf;
    simpl in H; try done.
  injection H as <-. simpl.
  assert (Hm : m ∈ [m]) by apply list_elem_of_here.
  rewrite <- Hf in Hm. apply list_elem_of_filter in Hm as [Hk Hm]. done.
Qed.

Lemma on_insert_frame (new : chat_messages.Row) (w : World ChatInterface) :
  db (on_insert new w) = db w /\ uid (on_insert new w) = uid w
  /\ channel (ui (on_insert new w)) = channel (ui w).
Proof.
  unfold on_insert, fetchMessageWithSender.
  by repeat case_match.
Qed.

Lemma on_insert_appends (new : chat_messages.Row) (w : World ChatInterface)
    (c : uuid) :
  channel (ui w) = Some c -> chat_messages.conversation_id new = c ->
  messages (ui (on_insert new w))
  = messages (ui w) ++ option_list (fetched (uid w) (db w) new).
Proof.
  intros Hch Hc. unfold on_insert, fetchMessageWithSender, fetched.
  rewrite Hch, bool_decide_eq_true_2 by done. cbn [uid db send].
  destruct (message_by_id (uid w) (db w) (chat_messages.id new)); simpl.
  - by rewrite app_nil_r.
  - done.
Qed.

(** An embed finds the row a foreign key points to. *)
Lemma embed_profile_of (uid : option uuid) (d : Database) (P : profiles.Row) :
  NoDup (profiles.id <$> db_profiles d) -> P ∈ db_profiles d ->
  embed_profile uid d (profiles.id P) = Some P.
Proof.
  intros Hpk HP. unfold embed_profile, select_profiles.
  by rewrite (filter_by_key profiles.id (profiles_select_using uid) _ P Hpk HP).
Qed.

Lemma insert_last {A} (l : list A) (x y : A) :
  <[length l := y]> (l ++ [x]) = l ++ [y].
Proof.
  rewrite <- (Nat.add_0_r (length l)). by rewrite insert_app_r.
Qed.

(** A call asked last is the last in flight; answering it and letting the
    answer arrive with nothing in between runs the async function as a
    whole. *)
Lemma follow (q : Asked) (k : Client) :
  receive (length (in_flight k)) (serve (length (in_flight k)) (ask q k))
  = {| page := settle (answer_of (uid (page k)) (db (page k)) q)
                      (send (request_of q) (page k));
       in_flight := in_flight k |}.
Proof.
  unfold serve, ask. cbn [in_flight page].
  rewrite (list_lookup_middle _ [] _ _ eq_refl).
  unfold receive. cbn [in_flight page].
  rewrite insert_last, (list_lookup_middle _ [] _ _ eq_refl), delete_middle.
  by rewrite app_nil_r.
Qed.

Lemma settle_row (i : uuid) (w : World ChatInterface) :
  settle (answer_of (uid w) (db w) (RowById i)) (send (request_of (RowById i)) w)
  = fetchMessageWithSender i w.
Proof.
  unfold fetchMessageWithSender. simpl.
  by destruct (message_by_id (uid w) (db w) i).
Qed.

(** The claim on the realtime merge fails in its ordering.  On a page that
    has loaded an empty history, two messages are stored and their events
    arrive in that order; the answer to the second fetch arrives before the
    answer to the first, and the list shows the second message before the
    first.  And when the answer to the history call, given before a
    message was stored, arrives after that message has been fetched and
    appended, the list is replaced by the history and the message, stored
    as it is, is gone from the list. *)
Lemma C7_answers_arrive_in_any_order :
  let k0 := subscribe (sample.client sample.empty sample.kiran) in
  let m1 := sample.hello in
  let m2 := sample.again in
  let late_second :=
    run [Answered 0; Arrived 0;
         Stored (Some "asha") m1; Stored (Some "asha") m2;
         Event m1; Event m2;
         Answered 0; Answered 1; Arrived 1; Arrived 0] k0 in
  let late_history :=
    run [Answered 0; Stored (Some "asha") m1; Event m1;
         Answered 1; Arrived 1; Arrived 0] k0 in
  db_chat_messages (db (page late_second)) = [m1; m2]
  /\ message <$> messages (ui (page late_second)) = [m2; m1]
  /\ in_flight late_second = []
  /\ db_chat_messages (db (page late_history)) = [m1]
  /\ messages (ui (page late_history)) = []
  /\ in_flight late_history = [].
Proof. vm_compute. repeat split. Qed.

(** Claim C7, amended.  Selecting a conversation asks for its history once
    and opens the channel; the list changes only when an answer arrives.
    The answer to the history call is the visible messages of the
    conversation, oldest first, and on arrival it replaces the list.  Each
    INSERT event makes the client ask for the row by id; for a stored row
    of a conversation the session is a party of, the answer is that row
    with the profile of its sender, and on arrival it is put at the end of
    the list as it is then.  So the list shows fetched rows in the order
    their answers arrive, after whatever it held; when an event is followed
    to the arrival of its answer with nothing in between, the row is
    appended to the list as the event found it. *)
Theorem C7_realtime_append (k : Client) :
  let w := page k in
  let n := length (in_flight k) in
  (forall c, truthy (selectedConversation (ui w)) = Some c ->
     let k0 := subscribe k in
     in_flight k0 = in_flight k ++ [asked (HistoryOf c)]
     /\ requests (page k0) = requests w ++ [SelectMessages c]
     /\ channel (ui (page k0)) = Some c
     /\ messages (ui (page k0)) = messages (ui w)
     /\ messages (ui (page (receive n (serve n k0))))
        = messages_of (uid w) (db w) c)
  /\ (forall c,
        let history := messages_of (uid w) (db w) c in
        answer_of (uid w) (db w) (HistoryOf c) = History history
        /\ Sorted created_at_asc (message <$> history)
        /\ message <$> history
           ≡ₚ filter (fun m => chat_messages.conversation_id m = c)
                     (select_chat_messages (uid w) (db w)))
  /\ (forall new,
        let k1 := callback new k in
        in_flight k1 = in_flight k ++ [asked (RowById (chat_messages.id new))]
        /\ requests (page k1)
           = requests w ++ [SelectMessageById (chat_messages.id new)]
        /\ messages (ui (page k1)) = messages (ui w)
        /\ page (receive n (serve n k1))
           = fetchMessageWithSender (chat_messages.id new) w
        /\ in_flight (receive n (serve n k1)) = in_flight k)
  /\ (forall i q,
        in_flight k !! i = Some (asked q) ->
        serve i k
        = {| page := w;
             in_flight :=
               <[i := answered (answer_of (uid w) (db w) q)]> (in_flight k) |})
  /\ (forall M C P,
        NoDup (chat_conversations.id <$> db_chat_conversations (db w)) ->
        NoDup (chat_messages.id <$> db_chat_messages (db w)) ->
        NoDup (profiles.id <$> db_profiles (db w)) ->
        M ∈ db_chat_messages (db w) ->
        C ∈ db_chat_conversations (db w) ->
        chat_conversations.id C = chat_messages.conversation_id M ->
        P ∈ db_profiles (db w) ->
        profiles.id P = chat_messages.sender_id M ->
        uid w = Some (chat_conversations.student_id C)
        \/ uid w = Some (chat_conversations.counselor_id C) ->
        answer_of (uid w) (db w) (RowById (chat_messages.id M))
        = RowOrError (inr {| message := M; sender := Some P |})
        /\ messages (ui (page (receive n (serve n (callback M k)))))
           = messages (ui w) ++ [{| message := M; sender := Some P |}])
  /\ (forall i data,
        in_flight k !! i = Some (answered (RowOrError (inr data))) ->
        messages (ui (page (receive i k))) = messages (ui w) ++ [data]
        /\ in_flight (receive i k) = delete i (in_flight k))
  /\ (forall i rows,
        in_flight k !! i = Some (answered (History rows)) ->
        messages (ui (page (receive i k))) = rows
        /\ in_flight (receive i k) = delete i (in_flight k)).
Proof.
  intros w n.
  split; [|split; [|split; [|split; [|split; [|split]]]]].
  - intros c Hsel k0.
    assert (Hk0 : k0 = on_page (fun w => set_ui (setChannel (Some c) (ui w)) w)
                         (ask (HistoryOf c) k)).
    { unfold k0, subscribe. fold w. by rewrite Hsel. }
    split; [by rewrite Hk0|]. split; [by rewrite Hk0|].
    split; [by rewrite Hk0|]. split; [by rewrite Hk0|].
    rewrite Hk0. unfold n, serve, on_page, ask. cbn [in_flight page].
    rewrite (list_lookup_middle _ [] _ _ eq_refl).
    unfold receive. cbn [in_flight page].
    by rewrite insert_last, (list_lookup_middle _ [] _ _ eq_refl).
  - intros c history. split; [done|]. split.
    + unfold history, messages_of. rewrite message_with_sender.
      apply Sorted_merge_sort, _.
    + unfold history, messages_of. rewrite message_with_sender.
      apply merge_sort_Permutation.
  - intros new k1. split; [done|]. split; [done|]. split; [done|].
    unfold k1, callback, n. rewrite follow. cbn [page in_flight].
    split; [apply settle_row|done].
  - intros i q Hi. unfold serve. by rewrite Hi.
  - intros M C P Hpkc Hpkm Hpkp HM HC Hid HP Hs Hparty.
    assert (Hans : message_by_id (uid w) (db w) (chat_messages.id M)
                   = inr {| message := M; sender := Some P |}).
    { rewrite (message_by_id_of _ _ M Hpkm HM).
      unfold chat_messages_select_using. rewrite <- Hid.
      rewrite (proj2 (own_conversation_of (uid w) (db w) C Hpkc HC) Hparty).
      unfold with_sender. by rewrite <- Hs, (embed_profile_of _ _ P Hpkp HP). }
    split; [simpl; by rewrite Hans|].
    unfold callback, n. rewrite follow. cbn [page].
    rewrite settle_row. unfold fetchMessageWithSender. cbn [uid db send].
    fold w. by rewrite Hans.
  - intros i data Hi. unfold receive. by rewrite Hi.
  - intros i rows Hi. unfold receive. by rewrite Hi.
Qed.

Lemma C7_realtime_append_witness :
  messages
    (ui (page (receive 0 (serve 0
                 (callback sample.hello
                    (sample.client sample.stored sample.kiran))))))
  = [{| message := sample.hello; sender := Some sample.asha |}].
Proof.
  destruct (C7_realtime_append (sample.client sample.stored sample.kiran))
    as (_ & _ & _ & _ & H & _).
  apply (H sample.hello sample.chat sample.asha).
  - apply (bool_decide_unpack _). vm_compute. exact I.
  - apply (bool_decide_unpack _). vm_compute. exact I.
  - apply (bool_decide_unpack _). vm_compute. exact I.
  - apply list_elem_of_here.
  - apply list_elem_of_here.
  - reflexivity.
  - apply list_elem_of_here.
  - reflexivity.
  - right. reflexivity.
Defined.

(** Claim C8.  The merge step is not idempotent.  Handling the same INSERT
    event twice appends the fetched row twice: the list grows by two
    entries with that message id, and differs from the list after one
    delivery. *)
Theorem C8_merge_not_idempotent (new : chat_messages.Row)
    (w : World ChatInterface) (c : uuid) (data : Message) :
  channel (ui w) = Some c ->
  chat_messages.conversation_id new = c ->
  message_by_id (uid w) (db w) (chat_messages.id new) = inr data ->
  let same_id := fun m : Message =>
    chat_messages.id (message m) = chat_messages.id new in
  let once := on_insert new w in
  let twice := on_insert new once in
  messages (ui twice) = messages (ui w) ++ [data; data]
  /\ length (filter same_id (messages (ui twice)))
     = 2 + length (filter same_id (messages (ui w)))
  /\ messages (ui twice) <> messages (ui once).
Proof.
  intros Hch Hc Hdata same_id once twice.
  destruct (on_insert_frame new w) as (Hdb & Huid & Hch').
  assert (H1 : messages (ui once) = messages (ui w) ++ [data]).
  { unfold once. rewrite (on_insert_appends new w c Hch Hc).
    unfold fetched. by rewrite Hdata. }
  assert (H2 : messages (ui twice) = messages (ui w) ++ [data; data]).
  { unfold twice.
    rewrite (on_insert_appends new once c); [|unfold once; congruence|done].
    unfold once at 2 3. rewrite Hdb, Huid. unfold fetched. rewrite Hdata, H1.
    by rewrite <- app_assoc. }
  apply message_by_id_key in Hdata as (Hk & _ & _).
  split; [done|]. split.
  - rewrite H2, filter_app, length_app.
    rewrite !filter_cons_True by done. simpl. lia.
  - rewrite H1, H2. intros Heq. apply (f_equal length) in Heq.
    rewrite !length_app in Heq. simpl in Heq. lia.
Qed.

Lemma C8_merge_not_idempotent_witness :
  let w := sample.world sample.stored sample.asha (sample.chat_ui []) in
  messages (ui (on_insert sample.hello (on_insert sample.hello w)))
  = [with_sender (Some "asha") sample.stored sample.hello;
     with_sender (Some "asha") sample.stored sample.hello].
Proof.
  intros w.
  apply (C8_merge_not_idempotent sample.hello w "c1"
           (with_sender (Some "asha") sample.stored sample.hello)).
  - reflexivity.
  - reflexivity.
  - vm_compute. reflexivity.
Defined.

(** ** The role branch of the list queries *)

Lemma appointment_with_parties (uid : option uuid) (d : Database)
    (l : list appointments.Row) :
  appointment <$> (with_parties_a uid d <$> l) = l.
Proof.
  rewrite <- list_fmap_compose. rewrite <- (list_fmap_id l) at 2.
  by apply list_fmap_ext.
Qed.

Lemma conversation_with_parties (uid : option uuid) (d : Database)
    (l : list chat_conversations.Row) :
  conversation <$> (with_parties_c uid d <$> l) = l.
Proof.
  rewrite <- list_fmap_compose. rewrite <- (list_fmap_id l) at 2.
  by apply list_fmap_ext.
Qed.

Lemma passes_one {R} (column : Column -> R -> uuid) (c : Column) (k : uuid)
    (r : R) :
  passes column [(c, Some k)] r <-> column c r = k.
Proof.
  unfold passes. simpl. rewrite andb_true_r, bool_decide_spec.
  split; [by intros [= ->]|by intros ->].
Qed.

Lemma run_appointments_one (uid : option uuid) (d : Database) (q : Query)
    (c : Column) (k : uuid) :
  eqs q = [(c, Some k)] ->
  exists rows,
    run_appointments_query uid d q = inr rows
    /\ forall a, a ∈ appointment <$> rows
                 <-> a ∈ select_appointments uid d
                     /\ appointments_column c a = k.
Proof.
  intros Hq. unfold run_appointments_query. rewrite Hq.
  eexists. split; [reflexivity|]. intros a.
  rewrite appointment_with_parties, merge_sort_Permutation.
  rewrite list_elem_of_filter, passes_one. tauto.
Qed.

Lemma run_conversations_one (uid : option uuid) (d : Database) (q : Query)
    (c : Column) (k : uuid) :
  eqs q = [(c, Some k)] ->
  exists rows,
    run_conversations_query uid d q = inr rows
    /\ forall a, a ∈ conversation <$> rows
                 <-> a ∈ select_chat_conversations uid d
                     /\ chat_conversations_column c a = k.
Proof.
  intros Hq. unfold run_conversations_query. rewrite Hq.
  eexists. split; [reflexivity|]. intros a.
  rewrite conversation_with_parties, merge_sort_Permutation.
  rewrite list_elem_of_filter, passes_one. tauto.
Qed.

(** Claim C9.  Both list queries branch on the role once.  A profile whose
    role is 'student' filters on [student_id]; every other profile, an
    'admin' among them, filters on [counselor_id] with its own id, and so
    receives exactly the rows it may see in which it is the counselor. *)
Theorem C9_role_branch (p : profiles.Row) (who : option uuid) (d : Database) :
  let me := Some (profiles.id p) in
  (profiles.role p = Some student ->
     eqs (fetchAppointments_query (Some p)) = [(col_student_id, me)]
     /\ eqs (fetchConversations_query (Some p)) = [(col_student_id, me)])
  /\ (profiles.role p <> Some student ->
      eqs (fetchAppointments_query (Some p)) = [(col_counselor_id, me)]
      /\ eqs (fetchConversations_query (Some p)) = [(col_counselor_id, me)]
      /\ (exists rows,
            run_appointments_query who d (fetchAppointments_query (Some p))
            = inr rows
            /\ forall a, a ∈ appointment <$> rows
                         <-> a ∈ select_appointments who d
                             /\ appointments.counselor_id a = profiles.id p)
      /\ (exists rows,
            run_conversations_query who d (fetchConversations_query (Some p))
            = inr rows
            /\ forall c, c ∈ conversation <$> rows
                         <-> c ∈ select_chat_conversations who d
                             /\ chat_conversations.counselor_id c
                                = profiles.id p))
  /\ (profiles.role p = Some admin ->
      eqs (fetchAppointments_query (Some p)) = [(col_counselor_id, me)]
      /\ eqs (fetchConversations_query (Some p)) = [(col_counselor_id, me)]).
Proof.
  intros me.
  assert (Hother : profiles.role p <> Some student ->
            eqs (fetchAppointments_query (Some p)) = [(col_counselor_id, me)]
            /\ eqs (fetchConversations_query (Some p))
               = [(col_counselor_id, me)]).
  { intros Hr. unfold fetchAppointments_query, fetchConversations_query.
    simpl. by rewrite bool_decide_eq_false_2. }
  split; [|split].
  - intros Hr. unfold fetchAppointments_query, fetchConversations_query.
    simpl. by rewrite bool_decide_eq_true_2.
  - intros Hr. destruct (Hother Hr) as [Ha Hc].
    split; [done|]. split; [done|]. split.
    + apply (run_appointments_one who d _ col_counselor_id _ Ha).
    + apply (run_conversations_one who d _ col_counselor_id _ Hc).
  - intros Hr. apply Hother. by rewrite Hr.
Qed.

Lemma C9_role_branch_witness :
  eqs (fetchAppointments_query (Some sample.root))
  = [(col_counselor_id, Some "root")]
  /\ eqs (fetchConversations_query (Some sample.root))
     = [(col_counselor_id, Some "root")].
Proof.
  destruct (C9_role_branch sample.root None sample.stored) as (_ & _ & H).
  apply H. reflexivity.
Defined.

(** * Further properties of the code *)

(** ** Video rooms and sessions *)

(** X1.  [createVideoCall] never creates a room.  Whatever the session and
    the clock, its insert is refused, so no window is opened and no session
    is stored; the user gets the failure notification and the button is
    released. *)
Theorem createVideoCall_always_refused (fresh : uuid) (now : timestamptz)
    (date_now started : Z) (v : video.Page) :
  let v' := video.createVideoCall fresh now date_now started v in
  insert_video_call_sessions (uid (video.world v))
    (video.new_session fresh now date_now started (profile (video.world v)))
    (video.backend v) = inl PolicyDenied
  /\ video.windows v' = video.windows v
  /\ video.sessions v' = video.sessions v
  /\ db (video.world v') = db (video.world v)
  /\ toasts (video.world v')
     = toasts (video.world v) ++ [destructive "Failed to create video call"]
  /\ console (video.world v')
     = console (video.world v) ++ ["Error creating video call:"]
  /\ video.isCreating (ui (video.world v')) = false.
Proof. repeat split. Qed.

Lemma session_of_appointment (uid : option uuid) (b : Backend)
    (A : appointments.Row) :
  NoDup (appointments.id <$> db_appointments (tables b)) ->
  A ∈ db_appointments (tables b) ->
  existsb
    (fun a =>
       bool_decide (appointments.id a = appointments.id A)
       && (uid_is uid (appointments.student_id a)
           || uid_is uid (appointments.counselor_id a)))
    (db_appointments (tables b)) = true
  <-> uid = Some (appointments.student_id A)
      \/ uid = Some (appointments.counselor_id A).
Proof.
  intros Hpk HA. rewrite existsb_exists. split.
  - intros (a & Hin & Ha). apply andb_true_iff in Ha as [Hid Hp].
    apply bool_decide_eq_true in Hid. apply list_elem_of_In in Hin.
    rewrite <- (primary_key appointments.id _ a A Hpk Hin HA Hid).
    by apply party_true.
  - intros Hp. exists A. split; [by apply list_elem_of_In|].
    apply andb_true_iff. split; [by apply bool_decide_eq_true|].
    by apply party_true.
Qed.

(** X2.  A video session is shown to the student and the counselor of the
    appointment it is linked to and to nobody else; a session linked to no
    appointment, such as every row [createVideoCall] asks for, is shown to
    nobody, its creator included. *)
Theorem video_session_visibility (uid : option uuid) (b : Backend)
    (s : video_call_sessions.Row) :
  (video_call_sessions.appointment_id s = None ->
     s ∉ select_video_call_sessions uid b)
  /\ (forall fresh now date_now started p,
        video.new_session fresh now date_now started p
        ∉ select_video_call_sessions uid b)
  /\ (forall A,
        NoDup (appointments.id <$> db_appointments (tables b)) ->
        A ∈ db_appointments (tables b) ->
        video_call_sessions.appointment_id s = Some (appointments.id A) ->
        s ∈ db_video_call_sessions b ->
        (s ∈ select_video_call_sessions uid b
         <-> uid = Some (appointments.student_id A)
             \/ uid = Some (appointments.counselor_id A))).
Proof.
  assert (Hnone : forall s0, video_call_sessions.appointment_id s0 = None ->
                    s0 ∉ select_video_call_sessions uid b).
  { intros s0 H0 Hin. unfold select_video_call_sessions in Hin.
    apply list_elem_of_filter in Hin as [Hv _].
    unfold video_call_sessions_select_using in Hv. by rewrite H0 in Hv. }
  split; [apply Hnone|]. split; [intros; by apply Hnone|].
  intros A Hpk HA Hs Hin. unfold select_video_call_sessions.
  rewrite list_elem_of_filter, Is_true_true.
  unfold video_call_sessions_select_using. rewrite Hs.
  rewrite (session_of_appointment uid b A Hpk HA). tauto.
Qed.

Lemma video_session_visibility_witness :
  demo.loose_session
  ∉ select_video_call_sessions (Some "asha")
      {| tables := sample.stored;
         db_video_call_sessions := [demo.loose_session] |}.
Proof.
  destruct (video_session_visibility (Some "asha")
              {| tables := sample.stored;
                 db_video_call_sessions := [demo.loose_session] |}
              demo.loose_session) as [H _].
  apply H. reflexivity.
Defined.

(** X3.  Room names.  Each of the four generators gives different names
    for different readings of the clock and the same name for the same
    reading; names of different generators never coincide; and different
    rooms have different addresses. *)
Theorem room_names_distinct (t1 t2 : Z) :
  (appointment_room t1 = appointment_room t2 <-> t1 = t2)
  /\ (call_room t1 = call_room t2 <-> t1 = t2)
  /\ (video_room t1 = video_room t2 <-> t1 = t2)
  /\ (quick_room t1 = quick_room t2 <-> t1 = t2)
  /\ appointment_room t1 <> call_room t2
  /\ appointment_room t1 <> video_room t2
  /\ appointment_room t1 <> quick_room t2
  /\ call_room t1 <> video_room t2
  /\ call_room t1 <> quick_room t2
  /\ video_room t1 <> quick_room t2
  /\ (forall r1 r2, meet r1 = meet r2 <-> r1 = r2).
Proof.
  assert (Hinj : forall prefix : string,
            prefix +:+ pretty t1 = prefix +:+ pretty t2 <-> t1 = t2).
  { intros prefix. split; [|by intros ->].
    intros H. apply (inj (String.app prefix)) in H. by apply (inj pretty). }
  unfold appointment_room, call_room, video_room, quick_room, meet.
  repeat split; try (apply Hinj); try (intros ->; done);
    try (simpl; intros H; discriminate H).
  intros H. by apply (inj (String.app _)) in H.
Qed.

(** X4.  [joinVideoCall] of the video page.  With nothing but white space
    typed it opens no window and asks for a room id.  Otherwise it opens
    exactly one window, on the room id as it was typed: white space around
    it is tested away but stays in the address. *)
Theorem joinVideoCall_uses_typed_room (v : video.Page) :
  let typed := video.roomId (ui (video.world v)) in
  let v' := video.joinVideoCall v in
  (trim typed = [] ->
     video.windows v' = video.windows v
     /\ toasts (video.world v')
        = toasts (video.world v) ++ [destructive "Please enter a room ID"])
  /\ (trim typed <> [] ->
     video.windows v'
     = video.windows v ++ [units "https://meet.jit.si/" ++ typed]
     /\ toasts (video.world v') = toasts (video.world v)).
Proof.
  intros typed v'. unfold v', video.joinVideoCall. fold typed. split.
  - intros H. by rewrite H.
  - intros H. by destruct (trim typed).
Qed.

Lemma joinVideoCall_uses_typed_room_witness :
  video.windows (video.joinVideoCall (demo.video_page [32; 97; 32]%N))
  = [units "https://meet.jit.si/" ++ [32; 97; 32]%N].
Proof.
  apply (joinVideoCall_uses_typed_room (demo.video_page [32; 97; 32]%N)).
  vm_compute. discriminate.
Defined.

(** X5.  The join button and the link behind it.  For an appointment as
    [createAppointment] writes it, whenever [canJoinCall] shows the button
    the click opens the room made for that appointment; an appointment of
    another type has no link and never shows the button.  For any row
    whose [meeting_url] is NULL or empty the click opens nothing. *)
Theorem join_button_has_link (fresh : uuid) (now : timestamptz) (date_now : Z)
    (p : profiles.Row) (f : AppointmentForm) (s e : timestamptz)
    (who : option uuid) (d : Database) (t : Z) :
  let a := with_parties_a who d (new_appointment fresh now date_now p f s e) in
  (canJoinCall t a = true ->
     joinVideoCall a = Some (meet (appointment_room date_now)))
  /\ (form_appointment_type f <> "video" ->
      joinVideoCall a = None /\ canJoinCall t a = false)
  /\ (forall a' : Appointment,
        appointments.meeting_url (appointment a') = None
        \/ appointments.meeting_url (appointment a') = Some "" ->
        joinVideoCall a' = None).
Proof.
  intros a. split; [|split].
  - intros H. unfold canJoinCall in H. rewrite !andb_true_iff in H.
    destruct H as [_ Hty]. apply bool_decide_eq_true in Hty.
    injection Hty as Hty. unfold joinVideoCall. simpl.
    by rewrite bool_decide_eq_true_2.
  - intros Hty. unfold joinVideoCall, canJoinCall. simpl.
    rewrite bool_decide_eq_false_2 by done. split; [done|].
    rewrite (bool_decide_eq_false_2 (Some _ = Some "video")) by congruence.
    apply andb_false_r.
  - intros a' [H|H]; unfold joinVideoCall; by rewrite H.
Qed.

Lemma join_button_has_link_witness :
  joinVideoCall
    (with_parties_a None sample.empty
       (new_appointment "a9" 0%Z 600%Z sample.asha sample.backwards
          sample.T sample.T))
  = Some (meet (appointment_room 600%Z)).
Proof.
  apply (join_button_has_link "a9" 0%Z 600%Z sample.asha sample.backwards
           sample.T sample.T None sample.empty sample.T).
  vm_compute. reflexivity.
Defined.

(** ** Profiles, roles and signup *)

Lemma forallb_pointwise {A} (f g : A -> bool) (l : list A) :
  (forall x, f x = g x) -> forallb f l = forallb g l.
Proof. intros H. induction l as [|x l IH]; simpl; [done|]. by rewrite H, IH. Qed.

Lemma relabel_keys {R} (key : R -> uuid) (g : R -> R) (l : list R) :
  (forall r, key (g r) = key r) -> key <$> (g <$> l) = key <$> l.
Proof.
  intros H. rewrite <- list_fmap_compose. apply list_fmap_ext.
  intros _ r _. apply H.
Qed.

Lemma profile_exists_relabel (g : profiles.Row -> profiles.Row) (d : Database)
    (k : uuid) :
  (forall p, profiles.id (g p) = profiles.id p) ->
  profile_exists (with_profiles (g <$> db_profiles d) d) k
  = profile_exists d k.
Proof.
  intros H. unfold profile_exists. simpl.
  by rewrite (relabel_keys profiles.id g _ H).
Qed.

Lemma foreign_keys_relabel (g : profiles.Row -> profiles.Row) (d : Database) :
  (forall p, profiles.id (g p) = profiles.id p) ->
  foreign_keys (with_profiles (g <$> db_profiles d) d) = foreign_keys d.
Proof.
  intros H. unfold foreign_keys. simpl. f_equal; [f_equal|].
  - apply forallb_pointwise. intros c. unfold chat_conversations_fkeys.
    by rewrite !(profile_exists_relabel g d _ H).
  - apply forallb_pointwise. intros m. unfold chat_messages_fkeys.
    by rewrite (profile_exists_relabel g d _ H).
  - apply forallb_pointwise. intros a. unfold appointments_fkeys.
    by rewrite !(profile_exists_relabel g d _ H).
Qed.

(** X6.  The insert policies never look at a role.  Rewrite the profiles
    in any way that keeps their ids (change every role, deactivate
    everyone): each insert of a conversation, a message or an appointment
    is accepted or refused exactly as before.  So "Students can create"
    means "whoever names itself as the student can create". *)
Theorem inserts_ignore_roles (uid : option uuid) (d : Database)
    (g : profiles.Row -> profiles.Row) :
  (forall p, profiles.id (g p) = profiles.id p) ->
  let d' := with_profiles (g <$> db_profiles d) d in
  (forall c, accepted (insert_chat_conversations uid c d')
             = accepted (insert_chat_conversations uid c d))
  /\ (forall m, accepted (insert_chat_messages uid m d')
                = accepted (insert_chat_messages uid m d))
  /\ (forall a, accepted (insert_appointments uid a d')
                = accepted (insert_appointments uid a d)).
Proof.
  intros H d'. split; [|split].
  - intros c. unfold insert_chat_conversations, chat_conversations_fkeys.
    unfold d'. rewrite !(profile_exists_relabel g d _ H).
    change (conversation_exists (with_profiles _ d))
      with (conversation_exists d).
    by repeat case_match.
  - intros m. unfold insert_chat_messages, chat_messages_fkeys.
    unfold d'. rewrite !(profile_exists_relabel g d _ H).
    change (conversation_exists (with_profiles _ d))
      with (conversation_exists d).
    change (chat_messages_insert_check uid (with_profiles _ d) m)
      with (chat_messages_insert_check uid d m).
    change (db_chat_messages (with_profiles _ d)) with (db_chat_messages d).
    by repeat case_match.
  - intros a. unfold insert_appointments, appointments_fkeys.
    unfold d'. rewrite !(profile_exists_relabel g d _ H).
    change (conversation_exists (with_profiles _ d))
      with (conversation_exists d).
    change (db_appointments (with_profiles _ d)) with (db_appointments d).
    by repeat case_match.
Qed.

Lemma inserts_ignore_roles_witness :
  accepted (insert_appointments (Some "kiran")
              (reschedule 0%Z 1%Z (sample.visit "scheduled"))
              (with_profiles
                 (profile_update.apply (profile_update.set_role_only None)
                    <$> db_profiles sample.empty) sample.empty))
  = accepted (insert_appointments (Some "kiran")
                (reschedule 0%Z 1%Z (sample.visit "scheduled")) sample.empty).
Proof.
  apply (inserts_ignore_roles (Some "kiran") sample.empty
           (profile_update.apply (profile_update.set_role_only None))).
  reflexivity.
Defined.

(** The outcomes of the signup trigger, case by case. *)
Lemma handle_new_user_facts (NEW : auth_user) (now : timestamptz)
    (d : Database) :
  let meta := raw_user_meta_data NEW in
  let asked := default "student" (meta !! "role") in
  ((exists d', handle_new_user NEW now d = inr d')
   <-> is_Some (user_role_of_text asked)
       /\ (exists e, auth_email NEW = Some e
                     /\ e ∉ profiles.email <$> db_profiles d)
       /\ auth_id NEW ∉ profiles.id <$> db_profiles d)
  /\ (user_role_of_text asked = None ->
      handle_new_user NEW now d = inl invalid_enum_value)
  /\ (forall d', handle_new_user NEW now d = inr d' ->
      exists p,
        d' = with_profiles (db_profiles d ++ [p]) d
        /\ profiles.id p = auth_id NEW
        /\ Some (profiles.email p) = auth_email NEW
        /\ profiles.role p = user_role_of_text asked
        /\ (meta !! "role" = None -> profiles.role p = Some student)
        /\ profiles.first_name p = default "" (meta !! "first_name")
        /\ profiles.last_name p = default "" (meta !! "last_name")
        /\ profiles.is_active p = Some true).
Proof.
  intros meta asked. unfold handle_new_user. fold meta. fold asked.
  split; [|split].
  - destruct (user_role_of_text asked) as [r|]; simpl.
    2:{ split; [by intros [? ?]|]. by intros [[? ?] _]. }
    destruct (auth_email NEW) as [e|]; simpl.
    2:{ split; [by intros [? ?]|]. by intros (_ & (e & ? & _) & _). }
    destruct (bool_decide (auth_id NEW ∈ _)) eqn:Hid;
      destruct (bool_decide (e ∈ _)) eqn:He; simpl;
      try apply bool_decide_eq_true in Hid;
      try apply bool_decide_eq_false in Hid;
      try apply bool_decide_eq_true in He;
      try apply bool_decide_eq_false in He.
    + split; [by intros [? ?]|]. by intros (_ & _ & Hn).
    + split; [by intros [? ?]|]. by intros (_ & _ & Hn).
    + split; [by intros [? ?]|]. intros (_ & (e' & [= <-] & Hn) & _). done.
    + split; [|by eexists]. intros _. split; [by eexists|]. split; [|done].
      by exists e.
  - by intros ->.
  - intros d' H. destruct (user_role_of_text asked) as [r|] eqn:Hr; [|done].
    destruct (auth_email NEW) as [e|]; [|done].
    destruct (_ || _); [done|]. injection H as <-.
    eexists. split; [reflexivity|]. simpl. repeat split; try done.
    intros Hnone. unfold asked in Hr. rewrite Hnone in Hr. simpl in Hr.
    by injection Hr as <-.
Qed.

(** X7.  The signup trigger.  It creates the profile exactly when the role
    text is one of the three roles (no text counts as 'student'), the
    email is present, and neither the id nor the email is taken.  The new
    profile carries the id and email of the account, the role asked for,
    names that default to the empty text, and is active; nothing else in
    the database changes.  A role outside the enum fails the signup. *)
Theorem handle_new_user_outcome (NEW : auth_user) (now : timestamptz)
    (d : Database) :
  let meta := raw_user_meta_data NEW in
  let asked := default "student" (meta !! "role") in
  ((exists d', handle_new_user NEW now d = inr d')
   <-> is_Some (user_role_of_text asked)
       /\ (exists e, auth_email NEW = Some e
                     /\ e ∉ profiles.email <$> db_profiles d)
       /\ auth_id NEW ∉ profiles.id <$> db_profiles d)
  /\ (user_role_of_text asked = None ->
      handle_new_user NEW now d = inl invalid_enum_value)
  /\ (forall d', handle_new_user NEW now d = inr d' ->
      exists p,
        d' = with_profiles (db_profiles d ++ [p]) d
        /\ profiles.id p = auth_id NEW
        /\ Some (profiles.email p) = auth_email NEW
        /\ profiles.role p = user_role_of_text asked
        /\ (meta !! "role" = None -> profiles.role p = Some student)
        /\ profiles.first_name p = default "" (meta !! "first_name")
        /\ profiles.last_name p = default "" (meta !! "last_name")
        /\ profiles.is_active p = Some true).
Proof. exact (handle_new_user_facts NEW now d). Qed.

Lemma counselors_of_spec (uid : option uuid) (d : Database)
    (p : profiles.Row) :
  p ∈ counselors_of uid d
  <-> p ∈ db_profiles d /\ profiles.role p = Some counselor
      /\ profiles.is_active p = Some true.
Proof.
  unfold counselors_of, select_profiles. rewrite !list_elem_of_filter.
  unfold profiles_select_using. simpl. tauto.
Qed.

(** X8.  Counselors are listed on their own word.  [fetchCounselors]
    returns, to any session whatever, exactly the profiles whose role is
    'counselor' and that are active; and an account that signs up asking
    for the counselor role is in that list straight away. *)
Theorem signup_counselor_is_listed (NEW : auth_user) (now : timestamptz)
    (d d' : Database) (w : World ChatInterface) :
  raw_user_meta_data NEW !! "role" = Some "counselor" ->
  handle_new_user NEW now d = inr d' ->
  db w = d' ->
  (forall p, p ∈ counselors (ui (fetchCounselors w))
             <-> p ∈ db_profiles d' /\ profiles.role p = Some counselor
                 /\ profiles.is_active p = Some true)
  /\ exists p, p ∈ counselors (ui (fetchCounselors w))
               /\ profiles.id p = auth_id NEW.
Proof.
  intros Hrole Hnew Hdb.
  assert (Hspec : forall p, p ∈ counselors (ui (fetchCounselors w))
             <-> p ∈ db_profiles d' /\ profiles.role p = Some counselor
                 /\ profiles.is_active p = Some true).
  { intros p. unfold fetchCounselors. simpl. rewrite Hdb.
    apply counselors_of_spec. }
  split; [done|].
  destruct (handle_new_user_facts NEW now d) as (_ & _ & Hshape).
  destruct (Hshape d' Hnew) as (p & -> & Hid & _ & Hr & _ & _ & _ & Hact).
  exists p. split; [|done]. apply Hspec. split; [|split; [|done]].
  - simpl. apply elem_of_app. right. apply list_elem_of_here.
  - rewrite Hr, Hrole. reflexivity.
Qed.

Lemma signup_counselor_is_listed_witness :
  exists d',
    handle_new_user demo.newcomer 5%Z sample.empty = inr d'
    /\ exists p,
         p ∈ counselors
               (ui (fetchCounselors
                      (sample.world d' sample.asha (sample.chat_ui []))))
         /\ profiles.id p = "nisha".
Proof.
  destruct (handle_new_user demo.newcomer 5%Z sample.empty) as [e|d'] eqn:H;
    [by vm_compute in H|].
  exists d'. split; [done|].
  apply (signup_counselor_is_listed demo.newcomer 5%Z sample.empty d'
           (sample.world d' sample.asha (sample.chat_ui []))).
  - reflexivity.
  - exact H.
  - reflexivity.
Defined.

(** ** What an update can reach *)

(** Every row of the result of an UPDATE is an old row it passed over or
    the rewriting of an old row it touched. *)
Lemma update_rows_origin {R} (touch : R -> bool)
    (rw : R -> PostgrestError + R) (rows rows' : list R) (r' : R) :
  update_rows touch rw rows = inr rows' ->
  r' ∈ rows' ->
  (r' ∈ rows /\ touch r' = false)
  \/ exists r, r ∈ rows /\ touch r = true /\ rw r = inr r'.
Proof.
  revert rows'. induction rows as [|x rows IH]; intros rows' Hu Hin; simpl in Hu.
  - injection Hu as <-. by apply elem_of_nil in Hin.
  - destruct (touch x) eqn:Ht.
    + destruct (rw x) as [e|x'] eqn:Hx; [done|].
      destruct (update_rows touch rw rows) as [e|rest]; [done|].
      injection Hu as <-. apply elem_of_cons in Hin as [->|Hin].
      * right. exists x. split; [apply list_elem_of_here|done].
      * destruct (IH rest eq_refl Hin) as [[H1 H2]|(r & H1 & H2 & H3)].
        -- left. split; [by apply list_elem_of_further|done].
        -- right. exists r. split; [by apply list_elem_of_further|done].
    + destruct (update_rows touch rw rows) as [e|rest]; [done|].
      injection Hu as <-. apply elem_of_cons in Hin as [->|Hin].
      * left. split; [apply list_elem_of_here|done].
      * destruct (IH rest eq_refl Hin) as [[H1 H2]|(r & H1 & H2 & H3)].
        -- left. split; [by apply list_elem_of_further|done].
        -- right. exists r. split; [by apply list_elem_of_further|done].
Qed.

(** An UPDATE whose rewriting keeps a column keeps it row by row. *)
Lemma update_rows_keys {R K} (key : R -> K) (touch : R -> bool)
    (rw : R -> PostgrestError + R) (rows rows' : list R) :
  (forall r r', touch r = true -> rw r = inr r' -> key r' = key r) ->
  update_rows touch rw rows = inr rows' ->
  key <$> rows' = key <$> rows.
Proof.
  intros Hk. revert rows'.
  induction rows as [|x rows IH]; intros rows' Hu; simpl in Hu.
  - by injection Hu as <-.
  - destruct (touch x) eqn:Ht.
    + destruct (rw x) as [e|x'] eqn:Hx; [done|].
      destruct (update_rows touch rw rows) as [e|rest]; [done|].
      injection Hu as <-. rewrite !fmap_cons, (IH rest eq_refl).
      by rewrite (Hk x x' Ht Hx).
    + destruct (update_rows touch rw rows) as [e|rest]; [done|].
      injection Hu as <-. by rewrite !fmap_cons, (IH rest eq_refl).
Qed.

Lemma update_profiles_rows (uid : option uuid)
    (where_ : profiles.Row -> bool) (u : profile_update.Patch)
    (now : timestamptz) (d d' : Database) :
  update_profiles uid where_ u now d = inr d' ->
  update_rows (fun r => where_ r && profiles_update_using uid r)
    (rewrite_profile uid u now) (db_profiles d) = inr (db_profiles d')
  /\ d' = with_profiles (db_profiles d') d.
Proof.
  unfold update_profiles. intros H.
  destruct (update_rows _ _ _) as [e|rows]; [done|].
  repeat (case_match; try discriminate). by injection H as <-.
Qed.

Lemma rewrite_profile_inr (uid : option uuid) (u : profile_update.Patch)
    (now : timestamptz) (r r' : profiles.Row) :
  rewrite_profile uid u now r = inr r' ->
  r' = profile_update.update_updated_at_column now (profile_update.apply u r)
  /\ uid = Some (profiles.id r').
Proof.
  unfold rewrite_profile. intros H.
  destruct (profiles_update_using uid _) eqn:Hu; [|done].
  simpl in H. injection H as <-. split; [done|]. by apply uid_is_true in Hu.
Qed.

(** X9.  A profile can be changed by its owner alone, and keeps its id.
    After any accepted update of [profiles], the profiles of everyone else
    are as they were, every changed row belongs to the acting identity and
    is stamped with the time of the update, the ids are the same as
    before in the same order, and the other tables are untouched. *)
Theorem update_profiles_own_row_only (uid : option uuid)
    (where_ : profiles.Row -> bool) (u : profile_update.Patch)
    (now : timestamptz) (d d' : Database) :
  update_profiles uid where_ u now d = inr d' ->
  (forall p, p ∈ db_profiles d -> uid <> Some (profiles.id p) ->
             p ∈ db_profiles d')
  /\ (forall p', p' ∈ db_profiles d' ->
        p' ∈ db_profiles d
        \/ (uid = Some (profiles.id p')
            /\ profiles.updated_at p' = Some now))
  /\ profiles.id <$> db_profiles d' = profiles.id <$> db_profiles d
  /\ db_chat_conversations d' = db_chat_conversations d
  /\ db_chat_messages d' = db_chat_messages d
  /\ db_appointments d' = db_appointments d.
Proof.
  intros Hup. apply update_profiles_rows in Hup as [Hrows Hd'].
  split; [|split; [|split]].
  - intros p Hin Hne. apply (update_rows_untouched _ _ _ _ p Hrows Hin).
    apply andb_false_iff. right. apply not_true_is_false.
    intros Hu. by apply uid_is_true in Hu.
  - intros p' Hin.
    destruct (update_rows_origin _ _ _ _ p' Hrows Hin)
      as [[H _]|(r & _ & _ & Hr)]; [by left|].
    right. apply rewrite_profile_inr in Hr as [-> Hu]. done.
  - eapply update_rows_keys; [|exact Hrows]. intros r r' Ht Hr.
    apply andb_true_iff in Ht as [_ Ht]. apply uid_is_true in Ht.
    apply rewrite_profile_inr in Hr as [_ Hu]. congruence.
  - rewrite Hd'. done.
Qed.

Lemma update_profiles_own_row_only_witness :
  exists d',
    update_profiles (Some "asha") (fun _ => true)
      (profile_update.set_role_only (Some admin)) 9%Z sample.stored = inr d'
    /\ profiles.id <$> db_profiles d' = profiles.id <$> db_profiles sample.stored.
Proof.
  destruct (update_profiles (Some "asha") (fun _ => true)
              (profile_update.set_role_only (Some admin)) 9%Z sample.stored)
    as [e|d'] eqn:H; [by vm_compute in H|].
  exists d'. split; [done|].
  apply (update_profiles_own_row_only (Some "asha") (fun _ => true)
           (profile_update.set_role_only (Some admin)) 9%Z sample.stored d' H).
Defined.

(** ** The schema invariant *)

Lemma schema_ok_true (d : Database) :
  schema_ok d = true <->
  NoDup (profiles.id <$> db_profiles d)
  /\ NoDup (profiles.email <$> db_profiles d)
  /\ NoDup (chat_conversations.id <$> db_chat_conversations d)
  /\ NoDup (chat_messages.id <$> db_chat_messages d)
  /\ NoDup (appointments.id <$> db_appointments d)
  /\ forallb chat_conversations_checks (db_chat_conversations d) = true
  /\ forallb chat_messages_checks (db_chat_messages d) = true
  /\ forallb appointments_checks (db_appointments d) = true
  /\ foreign_keys d = true.
Proof.
  unfold schema_ok. rewrite !andb_true_iff, !bool_decide_eq_true. tauto.
Qed.

Lemma forallb_impl {A} (f g : A -> bool) (l : list A) :
  (forall x, f x = true -> g x = true) ->
  forallb f l = true -> forallb g l = true.
Proof.
  intros H. rewrite !forallb_forall. intros Hf x Hx. by apply H, Hf.
Qed.

Lemma forallb_snoc {A} (f : A -> bool) (l : list A) (x : A) :
  forallb f l = true -> f x = true -> forallb f (l ++ [x]) = true.
Proof.
  intros Hl Hx. rewrite forallb_app, Hl. simpl. by rewrite Hx.
Qed.

Lemma NoDup_snoc_key {R K} (key : R -> K) (l : list R) (x : R) :
  NoDup (key <$> l) -> key x ∉ key <$> l -> NoDup (key <$> (l ++ [x])).
Proof.
  intros Hl Hx. rewrite fmap_snoc. apply NoDup_app.
  split; [done|]. split; [|apply NoDup_singleton].
  intros k Hk Hin. apply list_elem_of_singleton in Hin. by subst.
Qed.

Lemma foreign_keys_true (d : Database) :
  foreign_keys d = true <->
  forallb (chat_conversations_fkeys d) (db_chat_conversations d) = true
  /\ forallb (chat_messages_fkeys d) (db_chat_messages d) = true
  /\ forallb (appointments_fkeys d) (db_appointments d) = true.
Proof. unfold foreign_keys. rewrite !andb_true_iff. tauto. Qed.

Lemma insert_chat_messages_accepted (uid : option uuid)
    (M : chat_messages.Row) (d d1 : Database) :
  insert_chat_messages uid M d = inr d1 ->
  chat_messages_insert_check uid d M = true
  /\ chat_messages_checks M = true
  /\ (chat_messages.id M ∉ chat_messages.id <$> db_chat_messages d)
  /\ chat_messages_fkeys d M = true
  /\ d1 = with_chat_messages (db_chat_messages d ++ [M]) d.
Proof.
  unfold insert_chat_messages. intros H.
  destruct (chat_messages_insert_check uid d M); [|done].
  destruct (chat_messages_checks M); [|done].
  destruct (bool_decide _) eqn:Hk; [done|].
  apply bool_decide_eq_false in Hk.
  destruct (chat_messages_fkeys d M); [|done].
  simpl in H. by injection H as <-.
Qed.

Lemma insert_chat_conversations_accepted (uid : option uuid)
    (c : chat_conversations.Row) (d d1 : Database) :
  insert_chat_conversations uid c d = inr d1 ->
  uid = Some (chat_conversations.student_id c)
  /\ chat_conversations_checks c = true
  /\ (chat_conversations.id c
      ∉ chat_conversations.id <$> db_chat_conversations d)
  /\ chat_conversations_fkeys d c = true
  /\ d1 = with_chat_conversations (db_chat_conversations d ++ [c]) d.
Proof.
  unfold insert_chat_conversations. intros H.
  destruct (chat_conversations_insert_check uid c) eqn:Hu; [|done].
  apply uid_is_true in Hu.
  destruct (chat_conversations_checks c); [|done].
  destruct (conversation_exists d _) eqn:Hk; [done|].
  apply bool_decide_eq_false in Hk.
  destruct (chat_conversations_fkeys d c); [|done].
  simpl in H. by injection H as <-.
Qed.

Lemma insert_appointments_accepted (uid : option uuid)
    (a : appointments.Row) (d d1 : Database) :
  insert_appointments uid a d = inr d1 ->
  uid = Some (appointments.student_id a)
  /\ appointments_checks a = true
  /\ (appointments.id a ∉ appointments.id <$> db_appointments d)
  /\ appointments_fkeys d a = true
  /\ d1 = with_appointments (db_appointments d ++ [a]) d.
Proof.
  unfold insert_appointments. intros H.
  destruct (appointments_insert_check uid a) eqn:Hu; [|done].
  apply uid_is_true in Hu.
  destruct (appointments_checks a); [|done].
  destruct (bool_decide _) eqn:Hk; [done|].
  apply bool_decide_eq_false in Hk.
  destruct (appointments_fkeys d a); [|done].
  simpl in H. by injection H as <-.
Qed.

Lemma update_chat_conversations_accepted (uid : option uuid)
    (where_ : chat_conversations.Row -> bool) (u : chat_conversations.Update)
    (now : timestamptz) (d d' : Database) :
  update_chat_conversations uid where_ u now d = inr d' ->
  d' = with_chat_conversations (db_chat_conversations d') d
  /\ NoDup (chat_conversations.id <$> db_chat_conversations d')
  /\ foreign_keys d' = true.
Proof.
  unfold update_chat_conversations. intros H.
  destruct (update_rows _ _ _) as [e|rows]; [done|].
  destruct (bool_decide (NoDup _)) eqn:Hn; [|done].
  apply bool_decide_eq_true in Hn. simpl in H.
  destruct (foreign_keys _) eqn:Hf; [|done].
  simpl in H. by injection H as <-.
Qed.

Lemma update_appointments_accepted (uid : option uuid)
    (where_ : appointments.Row -> bool) (u : appointments.Update)
    (now : timestamptz) (d d' : Database) :
  update_appointments uid where_ u now d = inr d' ->
  d' = with_appointments (db_appointments d') d
  /\ NoDup (appointments.id <$> db_appointments d')
  /\ foreign_keys d' = true.
Proof.
  unfold update_appointments. intros H.
  destruct (update_rows _ _ _) as [e|rows]; [done|].
  destruct (bool_decide (NoDup _)) eqn:Hn; [|done].
  apply bool_decide_eq_true in Hn. simpl in H.
  destruct (foreign_keys _) eqn:Hf; [|done].
  simpl in H. by injection H as <-.
Qed.

Lemma update_profiles_accepted (uid : option uuid)
    (where_ : profiles.Row -> bool) (u : profile_update.Patch)
    (now : timestamptz) (d d' : Database) :
  update_profiles uid where_ u now d = inr d' ->
  d' = with_profiles (db_profiles d') d
  /\ NoDup (profiles.id <$> db_profiles d')
  /\ NoDup (profiles.email <$> db_profiles d')
  /\ foreign_keys d' = true.
Proof.
  unfold update_profiles. intros H.
  destruct (update_rows _ _ _) as [e|rows]; [done|].
  destruct (bool_decide (NoDup (profiles.id <$> rows))) eqn:Hn; [|done].
  destruct (bool_decide (NoDup (profiles.email <$> rows))) eqn:He; [|done].
  apply bool_decide_eq_true in Hn. apply bool_decide_eq_true in He.
  simpl in H. destruct (foreign_keys _) eqn:Hf; [|done].
  simpl in H. by injection H as <-.
Qed.

Lemma update_rows_checks {R} (ok : R -> bool) (touch : R -> bool)
    (rw : R -> PostgrestError + R) (rows rows' : list R) :
  (forall r r', rw r = inr r' -> ok r' = true) ->
  forallb ok rows = true ->
  update_rows touch rw rows = inr rows' ->
  forallb ok rows' = true.
Proof.
  intros Hrw Hok Hu. apply forallb_forall. intros r' Hin.
  apply list_elem_of_In in Hin.
  destruct (update_rows_origin _ _ _ _ r' Hu Hin) as [[H _]|(r & _ & _ & Hr)].
  - rewrite forallb_forall in Hok. by apply Hok, list_elem_of_In.
  - by apply (Hrw r).
Qed.

Lemma profile_exists_more (d : Database) (p : profiles.Row) (k : uuid) :
  profile_exists d k = true ->
  profile_exists (with_profiles (db_profiles d ++ [p]) d) k = true.
Proof.
  unfold profile_exists. rewrite !bool_decide_eq_true. simpl.
  rewrite fmap_app, elem_of_app. by left.
Qed.

Lemma conversation_exists_more (d : Database) (c : chat_conversations.Row)
    (k : uuid) :
  conversation_exists d k = true ->
  conversation_exists
    (with_chat_conversations (db_chat_conversations d ++ [c]) d) k = true.
Proof.
  unfold conversation_exists. rewrite !bool_decide_eq_true. simpl.
  rewrite fmap_app, elem_of_app. by left.
Qed.

Lemma insert_chat_messages_keeps (uid : option uuid) (M : chat_messages.Row)
    (d d1 : Database) :
  schema_ok d = true -> insert_chat_messages uid M d = inr d1 ->
  schema_ok d1 = true.
Proof.
  intros Hok Hins.
  apply schema_ok_true in Hok
    as (Hp & He & Hc & Hm & Ha & Hcc & Hmc & Hac & Hfk).
  apply foreign_keys_true in Hfk as (Hfc & Hfm & Hfa).
  apply insert_chat_messages_accepted in Hins as (_ & Hck & Hfresh & Hf & ->).
  apply schema_ok_true. simpl. repeat split; try done.
  - by apply NoDup_snoc_key.
  - by apply forallb_snoc.
  - apply foreign_keys_true. simpl. repeat split; try done.
    by apply forallb_snoc.
Qed.

Lemma insert_appointments_keeps (uid : option uuid) (a : appointments.Row)
    (d d1 : Database) :
  schema_ok d = true -> insert_appointments uid a d = inr d1 ->
  schema_ok d1 = true.
Proof.
  intros Hok Hins.
  apply schema_ok_true in Hok
    as (Hp & He & Hc & Hm & Ha & Hcc & Hmc & Hac & Hfk).
  apply foreign_keys_true in Hfk as (Hfc & Hfm & Hfa).
  apply insert_appointments_accepted in Hins as (_ & Hck & Hfresh & Hf & ->).
  apply schema_ok_true. simpl. repeat split; try done.
  - by apply NoDup_snoc_key.
  - by apply forallb_snoc.
  - apply foreign_keys_true. simpl. repeat split; try done.
    by apply forallb_snoc.
Qed.

Lemma insert_chat_conversations_keeps (uid : option uuid)
    (c : chat_conversations.Row) (d d1 : Database) :
  schema_ok d = true -> insert_chat_conversations uid c d = inr d1 ->
  schema_ok d1 = true.
Proof.
  intros Hok Hins.
  apply schema_ok_true in Hok
    as (Hp & He & Hc & Hm & Ha & Hcc & Hmc & Hac & Hfk).
  apply foreign_keys_true in Hfk as (Hfc & Hfm & Hfa).
  apply insert_chat_conversations_accepted in Hins
    as (_ & Hck & Hfresh & Hf & ->).
  apply schema_ok_true. simpl. repeat split; try done.
  - by apply NoDup_snoc_key.
  - by apply forallb_snoc.
  - apply foreign_keys_true. simpl. split; [|split].
    + by apply forallb_snoc.
    + revert Hfm. apply forallb_impl. intros m.
      unfold chat_messages_fkeys. rewrite !andb_true_iff. intros [H1 H2].
      split; [by apply conversation_exists_more|done].
    + revert Hfa. apply forallb_impl. intros a.
      unfold appointments_fkeys. rewrite !andb_true_iff. intros [H1 H2].
      split; [done|]. destruct (appointments.conversation_id a); [|done].
      by apply conversation_exists_more.
Qed.

Lemma update_chat_conversations_keeps (uid : option uuid)
    (where_ : chat_conversations.Row -> bool) (u : chat_conversations.Update)
    (now : timestamptz) (d d' : Database) :
  schema_ok d = true ->
  update_chat_conversations uid where_ u now d = inr d' ->
  schema_ok d' = true.
Proof.
  intros Hok Hup.
  apply schema_ok_true in Hok
    as (Hp & He & Hc & Hm & Ha & Hcc & Hmc & Hac & Hfk).
  pose proof (update_chat_conversations_rows _ _ _ _ _ _ Hup) as Hrows.
  apply update_chat_conversations_accepted in Hup as (Hd' & Hn & Hf).
  assert (Hchecks :
    forallb chat_conversations_checks (db_chat_conversations d') = true).
  { eapply update_rows_checks; [|exact Hcc|exact Hrows]. intros r r' Hr.
    unfold rewrite_chat_conversation in Hr.
    repeat (case_match; try discriminate). injection Hr as <-.
    by apply negb_false_iff. }
  apply schema_ok_true. rewrite Hd'. simpl. rewrite Hd' in Hf.
  repeat split; done.
Qed.

Lemma update_appointments_keeps (uid : option uuid)
    (where_ : appointments.Row -> bool) (u : appointments.Update)
    (now : timestamptz) (d d' : Database) :
  schema_ok d = true ->
  update_appointments uid where_ u now d = inr d' ->
  schema_ok d' = true.
Proof.
  intros Hok Hup.
  apply schema_ok_true in Hok
    as (Hp & He & Hc & Hm & Ha & Hcc & Hmc & Hac & Hfk).
  pose proof (update_appointments_rows _ _ _ _ _ _ Hup) as Hrows.
  apply update_appointments_accepted in Hup as (Hd' & Hn & Hf).
  assert (Hchecks : forallb appointments_checks (db_appointments d') = true).
  { eapply update_rows_checks; [|exact Hac|exact Hrows]. intros r r' Hr.
    unfold rewrite_appointment in Hr.
    repeat (case_match; try discriminate). injection Hr as <-.
    by apply negb_false_iff. }
  apply schema_ok_true. rewrite Hd'. simpl. rewrite Hd' in Hf.
  repeat split; done.
Qed.

Lemma update_profiles_keeps (uid : option uuid)
    (where_ : profiles.Row -> bool) (u : profile_update.Patch)
    (now : timestamptz) (d d' : Database) :
  schema_ok d = true ->
  update_profiles uid where_ u now d = inr d' ->
  schema_ok d' = true.
Proof.
  intros Hok Hup.
  apply schema_ok_true in Hok
    as (Hp & He & Hc & Hm & Ha & Hcc & Hmc & Hac & Hfk).
  apply update_profiles_accepted in Hup as (Hd' & Hn & Hne & Hf).
  apply schema_ok_true. rewrite Hd'. simpl. rewrite Hd' in Hf.
  repeat split; done.
Qed.

Lemma handle_new_user_keeps (NEW : auth_user) (now : timestamptz)
    (d d' : Database) :
  schema_ok d = true -> handle_new_user NEW now d = inr d' ->
  schema_ok d' = true.
Proof.
  intros Hok Hnew.
  apply schema_ok_true in Hok
    as (Hp & He & Hc & Hm & Ha & Hcc & Hmc & Hac & Hfk).
  apply foreign_keys_true in Hfk as (Hfc & Hfm & Hfa).
  destruct (handle_new_user_facts NEW now d) as (Hacc & _ & Hshape).
  destruct (Hshape d' Hnew) as (p & -> & Hid & Hem & _).
  destruct Hacc as [Hacc _].
  destruct (Hacc (ex_intro _ _ Hnew)) as (_ & (e & He1 & He2) & Hfresh).
  rewrite He1 in Hem. injection Hem as Hem.
  apply schema_ok_true. simpl. repeat split; try done.
  - apply NoDup_snoc_key; [done|]. by rewrite Hid.
  - apply NoDup_snoc_key; [done|]. by rewrite Hem.
  - apply foreign_keys_true. simpl. split; [|split].
    + revert Hfc. apply forallb_impl. intros c.
      unfold chat_conversations_fkeys. rewrite !andb_true_iff.
      intros [H1 H2]. split; by apply profile_exists_more.
    + revert Hfm. apply forallb_impl. intros m.
      unfold chat_messages_fkeys. rewrite !andb_true_iff.
      intros [H1 H2]. split; [done|by apply profile_exists_more].
    + revert Hfa. apply forallb_impl. intros a.
      unfold appointments_fkeys. rewrite !andb_true_iff.
      intros [[H1 H2] H3]. split; [split|done]; by apply profile_exists_more.
Qed.

(** X10.  No statement breaks the schema.  On a database in which every
    primary key and email is unique, every CHECK list holds and every
    reference has its row, each accepted insert, each accepted update and
    each accepted signup leaves a database of which the same is true. *)
Theorem statements_keep_schema (uid : option uuid) (d d' : Database) :
  schema_ok d = true ->
  (forall m, insert_chat_messages uid m d = inr d' -> schema_ok d' = true)
  /\ (forall c, insert_chat_conversations uid c d = inr d' ->
        schema_ok d' = true)
  /\ (forall a, insert_appointments uid a d = inr d' -> schema_ok d' = true)
  /\ (forall where_ u now,
        update_chat_conversations uid where_ u now d = inr d' ->
        schema_ok d' = true)
  /\ (forall where_ u now,
        update_appointments uid where_ u now d = inr d' ->
        schema_ok d' = true)
  /\ (forall where_ u now,
        update_profiles uid where_ u now d = inr d' -> schema_ok d' = true)
  /\ (forall NEW now, handle_new_user NEW now d = inr d' ->
        schema_ok d' = true).
Proof.
  intros Hok. repeat split; intros.
  - by eapply insert_chat_messages_keeps.
  - by eapply insert_chat_conversations_keeps.
  - by eapply insert_appointments_keeps.
  - by eapply update_chat_conversations_keeps.
  - by eapply update_appointments_keeps.
  - by eapply update_profiles_keeps.
  - by eapply handle_new_user_keeps.
Qed.

Lemma statements_keep_schema_witness :
  schema_ok
    (with_chat_messages [sample.hello] sample.empty) = true.
Proof.
  destruct (statements_keep_schema (Some "asha") sample.empty
              (with_chat_messages [sample.hello] sample.empty)) as [H _].
  - vm_compute. reflexivity.
  - apply (H sample.hello). vm_compute. reflexivity.
Defined.

(** X11.  A profile can give itself any role.  On a database that
    satisfies the schema, the update by which a profile sets its own role
    (to 'admin', say) is accepted; the row then carries that role under
    the same id, and the list queries of that profile branch on it. *)
Theorem own_role_can_be_changed (p : profiles.Row) (r : option user_role)
    (now : timestamptz) (d : Database) :
  schema_ok d = true -> p ∈ db_profiles d ->
  let p' := profile_update.update_updated_at_column now
              (profile_update.apply (profile_update.set_role_only r) p) in
  exists d',
    update_profiles (Some (profiles.id p))
      (fun q => bool_decide (profiles.id q = profiles.id p))
      (profile_update.set_role_only r) now d = inr d'
    /\ p' ∈ db_profiles d'
    /\ profiles.id p' = profiles.id p
    /\ profiles.role p' = r
    /\ role_is_student (Some p') = bool_decide (r = Some student).
Proof.
  intros Hok Hin p'.
  apply schema_ok_true in Hok
    as (Hp & He & Hc & Hm & Ha & Hcc & Hmc & Hac & Hfk).
  set (f := fun q => profile_update.update_updated_at_column now
                (profile_update.apply (profile_update.set_role_only r) q)).
  set (touch := fun q => bool_decide (profiles.id q = profiles.id p)
                         && profiles_update_using (Some (profiles.id p)) q).
  set (g := fun q => if touch q then f q else q).
  assert (Hgid : forall q, profiles.id (g q) = profiles.id q).
  { intros q. unfold g. by destruct (touch q). }
  assert (Hgem : forall q, profiles.email (g q) = profiles.email q).
  { intros q. unfold g. by destruct (touch q). }
  exists (with_profiles (g <$> db_profiles d) d).
  split; [|split; [|done]].
  - unfold update_profiles. fold touch.
    rewrite (update_rows_total touch f).
    + fold g. rewrite (relabel_keys profiles.id g _ Hgid).
      rewrite (relabel_keys profiles.email g _ Hgem).
      rewrite !bool_decide_eq_true_2 by done.
      rewrite (foreign_keys_relabel g d Hgid), Hfk. done.
    + intros q _ Ht. unfold touch in Ht. apply andb_true_iff in Ht as [_ Ht].
      unfold rewrite_profile.
      change (profiles_update_using (Some (profiles.id p))
                (profile_update.update_updated_at_column now
                   (profile_update.apply (profile_update.set_role_only r) q)))
        with (profiles_update_using (Some (profiles.id p)) q).
      by rewrite Ht.
  - simpl. apply (list_elem_of_fmap_2' g _ p); [done|].
    unfold g, touch, profiles_update_using, uid_is.
    by rewrite !bool_decide_eq_true_2.
Qed.

Lemma own_role_can_be_changed_witness :
  exists d',
    update_profiles (Some "asha")
      (fun q => bool_decide (profiles.id q = "asha"))
      (profile_update.set_role_only (Some admin)) 9%Z sample.stored = inr d'.
Proof.
  destruct (own_role_can_be_changed sample.asha (Some admin) 9%Z sample.stored)
    as (d' & H & _).
  - vm_compute. reflexivity.
  - apply list_elem_of_here.
  - by exists d'.
Defined.

(** X12.  Messages cannot be changed.  No update of [chat_messages] reaches
    a row: whoever asks, with whatever WHERE clause and patch, an accepted
    update returns the database it was given, and on a database that
    satisfies the schema it is accepted.  A status never moves on from
    'sent' through the client. *)
Theorem messages_never_updated (uid : option uuid)
    (where_ : chat_messages.Row -> bool) (u : message_update.Patch)
    (d : Database) :
  (forall d', update_chat_messages uid where_ u d = inr d' -> d' = d)
  /\ (schema_ok d = true -> update_chat_messages uid where_ u d = inr d).
Proof.
  assert (Hrows : update_rows
            (fun r => where_ r && chat_messages_update_using uid r)
            (rewrite_message uid u) (db_chat_messages d)
          = inr (db_chat_messages d)).
  { induction (db_chat_messages d) as [|m l IH]; [done|].
    simpl. rewrite IH. unfold chat_messages_update_using.
    by rewrite andb_false_r. }
  assert (Hsame : with_chat_messages (db_chat_messages d) d = d)
    by by destruct d.
  unfold update_chat_messages. rewrite Hrows, Hsame. split.
  - intros d' H. repeat (case_match; try discriminate). by injection H.
  - intros Hok. apply schema_ok_true in Hok
      as (_ & _ & _ & Hm & _ & _ & _ & _ & Hfk).
    by rewrite bool_decide_eq_true_2, Hfk.
Qed.

Lemma messages_never_updated_witness :
  update_chat_messages (Some "asha") (fun _ => true)
    {| message_update.set_id := None;
       message_update.set_conversation_id := None;
       message_update.set_sender_id := None;
       message_update.set_message_type := None;
       message_update.set_content := None;
       message_update.set_file_url := None;
       message_update.set_file_name := None;
       message_update.set_status := Some (Some "read");
       message_update.set_read_at := Some (Some 9%Z);
       message_update.set_created_at := None |} sample.stored
  = inr sample.stored.
Proof.
  apply messages_never_updated. vm_compute. reflexivity.
Defined.

(** X13.  An update stamps what it changes.  In the result of an accepted
    update of conversations or of appointments every row is either a row
    that was there before or carries the server time of the update in
    [updated_at], whatever the patch asked [updated_at] to be. *)
Theorem updates_are_stamped (uid : option uuid) (now : timestamptz)
    (d d' : Database) :
  (forall where_ u, update_chat_conversations uid where_ u now d = inr d' ->
     forall r', r' ∈ db_chat_conversations d' ->
       r' ∈ db_chat_conversations d
       \/ chat_conversations.updated_at r' = Some now)
  /\ (forall where_ u, update_appointments uid where_ u now d = inr d' ->
     forall r', r' ∈ db_appointments d' ->
       r' ∈ db_appointments d \/ appointments.updated_at r' = Some now).
Proof.
  split.
  - intros where_ u Hup r' Hin.
    apply update_chat_conversations_rows in Hup.
    destruct (update_rows_origin _ _ _ _ r' Hup Hin)
      as [[H _]|(r & _ & _ & Hr)]; [by left|right].
    unfold rewrite_chat_conversation in Hr.
    repeat (case_match; try discriminate). by injection Hr as <-.
  - intros where_ u Hup r' Hin.
    apply update_appointments_rows in Hup.
    destruct (update_rows_origin _ _ _ _ r' Hup Hin)
      as [[H _]|(r & _ & _ & Hr)]; [by left|right].
    unfold rewrite_appointment in Hr.
    repeat (case_match; try discriminate). by injection Hr as <-.
Qed.

(** ** Conversations and appointments: who reaches a row *)

Lemma fmap_members {A B} (f g : A -> B) (l : list A) :
  (forall x, x ∈ l -> f x = g x) -> f <$> l = g <$> l.
Proof.
  intros H. apply list_fmap_ext. intros i x Hi. apply H.
  by eapply list_elem_of_lookup_2.
Qed.

(** An UPDATE is refused as soon as one row it touches cannot be
    rewritten. *)
Lemma update_rows_refused {R} (touch : R -> bool)
    (rw : R -> PostgrestError + R) (rows : list R) (r : R) (e : PostgrestError) :
  r ∈ rows -> touch r = true -> rw r = inl e ->
  accepted (update_rows touch rw rows) = false.
Proof.
  induction rows as [|x rows IH]; intros Hin Ht Hr.
  - by apply elem_of_nil in Hin.
  - simpl. apply elem_of_cons in Hin as [<-|Hin].
    + by rewrite Ht, Hr.
    + destruct (if touch x then rw x else inr x); [done|].
      specialize (IH Hin Ht Hr).
      by destruct (update_rows touch rw rows).
Qed.

Lemma rewrite_chat_conversation_denied (uid : option uuid)
    (u : chat_conversations.Update) (now : timestamptz)
    (c : chat_conversations.Row) :
  rewrite_chat_conversation uid u now c = inl PolicyDenied
  <-> ~ (uid = Some (chat_conversations.student_id (chat_conversations.apply u c))
         \/ uid = Some (chat_conversations.counselor_id
                          (chat_conversations.apply u c))).
Proof.
  rewrite <- party_true. unfold rewrite_chat_conversation.
  change (chat_conversations_update_using uid
            (chat_conversations.update_updated_at_column now
               (chat_conversations.apply u c)))
    with (uid_is uid (chat_conversations.student_id
                        (chat_conversations.apply u c))
          || uid_is uid (chat_conversations.counselor_id
                           (chat_conversations.apply u c))).
  destruct (uid_is uid _ || uid_is uid _); simpl.
  - split; [|done]. intros H. exfalso. denied_first.
  - split; [|done]. intros _. discriminate.
Qed.

Lemma rewrite_appointment_denied (uid : option uuid)
    (u : appointments.Update) (now : timestamptz) (a : appointments.Row) :
  rewrite_appointment uid u now a = inl PolicyDenied
  <-> ~ (uid = Some (appointments.student_id (appointments.apply u a))
         \/ uid = Some (appointments.counselor_id (appointments.apply u a))).
Proof.
  rewrite <- party_true. unfold rewrite_appointment.
  change (appointments_update_using uid
            (appointments.update_updated_at_column now
               (appointments.apply u a)))
    with (uid_is uid (appointments.student_id (appointments.apply u a))
          || uid_is uid (appointments.counselor_id (appointments.apply u a))).
  destruct (uid_is uid _ || uid_is uid _); simpl.
  - split; [|done]. intros H. exfalso. denied_first.
  - split; [|done]. intros _. discriminate.
Qed.

(** An UPDATE of conversations on a database that satisfies the schema,
    with a patch that leaves the key and the two parties of the rows it
    touches alone and keeps them within the CHECK lists, is accepted, and
    rewrites exactly the rows that the WHERE clause selects and the USING
    clause accepts. *)
Lemma update_chat_conversations_total (uid : option uuid)
    (where_ : chat_conversations.Row -> bool) (u : chat_conversations.Update)
    (now : timestamptz) (d : Database) :
  schema_ok d = true ->
  (forall r, r ∈ db_chat_conversations d -> where_ r = true ->
     chat_conversations_update_using uid r = true ->
     chat_conversations.id (chat_conversations.apply u r)
     = chat_conversations.id r
     /\ chat_conversations.student_id (chat_conversations.apply u r)
        = chat_conversations.student_id r
     /\ chat_conversations.counselor_id (chat_conversations.apply u r)
        = chat_conversations.counselor_id r
     /\ chat_conversations_checks (chat_conversations.apply u r) = true) ->
  update_chat_conversations uid where_ u now d
  = inr (with_chat_conversations
           ((fun r => if where_ r && chat_conversations_update_using uid r
                      then chat_conversations.update_updated_at_column now
                             (chat_conversations.apply u r)
                      else r) <$> db_chat_conversations d) d).
Proof.
  intros Hok Hkeep.
  apply schema_ok_true in Hok
    as (_ & _ & Hpk & _ & _ & _ & _ & _ & Hfk).
  apply foreign_keys_true in Hfk as (Hfc & Hfm & Hfa).
  unfold update_chat_conversations.
  rewrite (update_rows_total _
             (fun r => chat_conversations.update_updated_at_column now
                         (chat_conversations.apply u r))).
  2:{ intros r Hin Ht. apply andb_true_iff in Ht as [Hw Hu].
      destruct (Hkeep r Hin Hw Hu) as (_ & Hs & Hc & Hck).
      unfold rewrite_chat_conversation.
      change (chat_conversations_update_using uid
                (chat_conversations.update_updated_at_column now
                   (chat_conversations.apply u r)))
        with (uid_is uid (chat_conversations.student_id
                            (chat_conversations.apply u r))
              || uid_is uid (chat_conversations.counselor_id
                               (chat_conversations.apply u r))).
      change (chat_conversations_checks
                (chat_conversations.update_updated_at_column now
                   (chat_conversations.apply u r)))
        with (chat_conversations_checks (chat_conversations.apply u r)).
      rewrite Hs, Hc, Hck.
      unfold chat_conversations_update_using in Hu. by rewrite Hu. }
  set (g := fun r => if where_ r && chat_conversations_update_using uid r
                     then chat_conversations.update_updated_at_column now
                            (chat_conversations.apply u r)
                     else r).
  assert (Hg : forall r, r ∈ db_chat_conversations d ->
             chat_conversations.id (g r) = chat_conversations.id r
             /\ chat_conversations_fkeys d (g r) = chat_conversations_fkeys d r).
  { intros r Hin. unfold g.
    destruct (where_ r && chat_conversations_update_using uid r) eqn:Ht;
      [|done].
    apply andb_true_iff in Ht as [Hw Hu].
    destruct (Hkeep r Hin Hw Hu) as (Hi & Hs & Hc & _).
    split; [exact Hi|]. unfold chat_conversations_fkeys.
    change (chat_conversations.student_id
              (chat_conversations.update_updated_at_column now
                 (chat_conversations.apply u r)))
      with (chat_conversations.student_id (chat_conversations.apply u r)).
    change (chat_conversations.counselor_id
              (chat_conversations.update_updated_at_column now
                 (chat_conversations.apply u r)))
      with (chat_conversations.counselor_id (chat_conversations.apply u r)).
    by rewrite Hs, Hc. }
  assert (Hk : chat_conversations.id <$> (g <$> db_chat_conversations d)
               = chat_conversations.id <$> db_chat_conversations d).
  { rewrite <- list_fmap_compose. apply fmap_members.
    intros r Hin. apply (Hg r Hin). }
  rewrite Hk, (bool_decide_eq_true_2 _ Hpk). simpl.
  assert (Hfk' : foreign_keys
                   (with_chat_conversations (g <$> db_chat_conversations d) d)
                 = true).
  { apply foreign_keys_true. simpl. split; [|split].
    - apply forallb_forall. intros x Hx. apply list_elem_of_In in Hx.
      apply list_elem_of_fmap in Hx as (r & -> & Hr).
      change (chat_conversations_fkeys d (g r) = true).
      rewrite (proj2 (Hg r Hr)).
      rewrite forallb_forall in Hfc. by apply Hfc, list_elem_of_In.
    - erewrite forallb_pointwise; [exact Hfm|]. intros m.
      unfold chat_messages_fkeys, conversation_exists, profile_exists. simpl.
      by rewrite Hk.
    - erewrite forallb_pointwise; [exact Hfa|]. intros a.
      unfold appointments_fkeys, conversation_exists, profile_exists. simpl.
      by rewrite Hk. }
  by rewrite Hfk'.
Qed.

Lemma update_appointments_total (uid : option uuid)
    (where_ : appointments.Row -> bool) (u : appointments.Update)
    (now : timestamptz) (d : Database) :
  schema_ok d = true ->
  (forall r, r ∈ db_appointments d -> where_ r = true ->
     appointments_update_using uid r = true ->
     appointments.id (appointments.apply u r) = appointments.id r
     /\ appointments.student_id (appointments.apply u r)
        = appointments.student_id r
     /\ appointments.counselor_id (appointments.apply u r)
        = appointments.counselor_id r
     /\ appointments.conversation_id (appointments.apply u r)
        = appointments.conversation_id r
     /\ appointments_checks (appointments.apply u r) = true) ->
  update_appointments uid where_ u now d
  = inr (with_appointments
           ((fun r => if where_ r && appointments_update_using uid r
                      then appointments.update_updated_at_column now
                             (appointments.apply u r)
                      else r) <$> db_appointments d) d).
Proof.
  intros Hok Hkeep.
  apply schema_ok_true in Hok
    as (_ & _ & _ & _ & Hpk & _ & _ & _ & Hfk).
  apply foreign_keys_true in Hfk as (Hfc & Hfm & Hfa).
  unfold update_appointments.
  rewrite (update_rows_total _
             (fun r => appointments.update_updated_at_column now
                         (appointments.apply u r))).
  2:{ intros r Hin Ht. apply andb_true_iff in Ht as [Hw Hu].
      destruct (Hkeep r Hin Hw Hu) as (_ & Hs & Hc & _ & Hck).
      unfold rewrite_appointment.
      change (appointments_update_using uid
                (appointments.update_updated_at_column now
                   (appointments.apply u r)))
        with (uid_is uid (appointments.student_id (appointments.apply u r))
              || uid_is uid (appointments.counselor_id
                               (appointments.apply u r))).
      change (appointments_checks
                (appointments.update_updated_at_column now
                   (appointments.apply u r)))
        with (appointments_checks (appointments.apply u r)).
      rewrite Hs, Hc, Hck.
      unfold appointments_update_using in Hu. by rewrite Hu. }
  set (g := fun r => if where_ r && appointments_update_using uid r
                     then appointments.update_updated_at_column now
                            (appointments.apply u r)
                     else r).
  assert (Hg : forall r, r ∈ db_appointments d ->
             appointments.id (g r) = appointments.id r
             /\ appointments_fkeys d (g r) = appointments_fkeys d r).
  { intros r Hin. unfold g.
    destruct (where_ r && appointments_update_using uid r) eqn:Ht; [|done].
    apply andb_true_iff in Ht as [Hw Hu].
    destruct (Hkeep r Hin Hw Hu) as (Hi & Hs & Hc & Hv & _).
    split; [exact Hi|]. unfold appointments_fkeys.
    change (appointments.student_id
              (appointments.update_updated_at_column now
                 (appointments.apply u r)))
      with (appointments.student_id (appointments.apply u r)).
    change (appointments.counselor_id
              (appointments.update_updated_at_column now
                 (appointments.apply u r)))
      with (appointments.counselor_id (appointments.apply u r)).
    change (appointments.conversation_id
              (appointments.update_updated_at_column now
                 (appointments.apply u r)))
      with (appointments.conversation_id (appointments.apply u r)).
    by rewrite Hs, Hc, Hv. }
  assert (Hk : appointments.id <$> (g <$> db_appointments d)
               = appointments.id <$> db_appointments d).
  { rewrite <- list_fmap_compose. apply fmap_members.
    intros r Hin. apply (Hg r Hin). }
  rewrite Hk, (bool_decide_eq_true_2 _ Hpk). simpl.
  assert (Hfk' : foreign_keys (with_appointments (g <$> db_appointments d) d)
                 = true).
  { apply foreign_keys_true. simpl. split; [done|]. split; [done|].
    apply forallb_forall. intros x Hx. apply list_elem_of_In in Hx.
    apply list_elem_of_fmap in Hx as (r & -> & Hr).
    change (appointments_fkeys d (g r) = true).
    rewrite (proj2 (Hg r Hr)).
    rewrite forallb_forall in Hfa. by apply Hfa, list_elem_of_In. }
  by rewrite Hfk'.
Qed.

Lemma fmap_untouched {A} (touch : A -> bool) (f : A -> A) (l : list A) :
  (forall x, x ∈ l -> touch x = false) ->
  (fun x => if touch x then f x else x) <$> l = l.
Proof.
  intros H. rewrite <- (list_fmap_id l) at 2. apply fmap_members.
  intros x Hx. by rewrite (H x Hx).
Qed.

(** The claim on conversations and appointments fails where it says that
    every other attempt is rejected, and where it says that a party's
    update is permitted.  A third profile that reads either table gets an
    empty answer, and its update of every row is accepted and changes
    nothing: neither is an error.  And the student of a conversation who
    hands it to a third profile, leaving the conversation, is refused
    with a policy denial although the row is one of its own. *)
Lemma C3_others_not_rejected_party_refused :
  let hand_over :=
    {| chat_conversations.set_id := None;
       chat_conversations.set_student_id := Some "third";
       chat_conversations.set_counselor_id := None;
       chat_conversations.set_conversation_type := None;
       chat_conversations.set_status := None;
       chat_conversations.set_started_at := None;
       chat_conversations.set_last_message_at := None;
       chat_conversations.set_created_at := None;
       chat_conversations.set_updated_at := None |} in
  select_chat_conversations (Some "third") sample.stored = []
  /\ select_appointments (Some "third") sample.stored = []
  /\ update_chat_conversations (Some "third") (fun _ => true)
       (touch_last_message_at 5%Z) 6%Z sample.stored = inr sample.stored
  /\ update_appointments (Some "third") (fun _ => true)
       (with_times (Some 1%Z) (Some 2%Z) appointments.no_change) 6%Z
       sample.stored = inr sample.stored
  /\ chat_conversations_update_using (Some "asha") sample.chat = true
  /\ update_chat_conversations (Some "asha") (fun _ => true) hand_over 6%Z
       sample.stored = inl PolicyDenied.
Proof. vm_compute. repeat split. Qed.

(** Claim C3, amended.  For a conversation and for an appointment alike:
    the read and the update policy accept a row exactly when the acting
    identity is its student or its counselor, and the insert policy exactly
    when it is its student.  A read returns the row exactly to a party and
    raises no error for anyone else.  An insert by anyone but the student
    fails with a policy denial.  An update reaches the rows that its WHERE
    clause selects and of which the acting identity is a party; the
    rewriting of such a row fails with a policy denial exactly when the
    acting identity is no longer a party of the rewritten row, and the
    whole update is then refused.  On a database that satisfies the schema,
    an update that reaches no row is accepted and changes nothing, and an
    update whose patch leaves the key and the references of the rows it
    reaches alone and keeps them within the CHECK lists is accepted and
    rewrites those rows and no other. *)
Theorem C3_conversation_appointment_policies (uid : option uuid)
    (d : Database) :
  (forall c : chat_conversations.Row,
     let party := uid = Some (chat_conversations.student_id c)
                  \/ uid = Some (chat_conversations.counselor_id c) in
     (chat_conversations_select_using uid c = true <-> party)
     /\ (chat_conversations_update_using uid c = true <-> party)
     /\ (chat_conversations_insert_check uid c = true
         <-> uid = Some (chat_conversations.student_id c))
     /\ (c ∈ select_chat_conversations uid d
         <-> c ∈ db_chat_conversations d /\ party)
     /\ (insert_chat_conversations uid c d = inl PolicyDenied
         <-> uid <> Some (chat_conversations.student_id c))
     /\ (forall u now,
           rewrite_chat_conversation uid u now c = inl PolicyDenied
           <-> ~ (uid = Some (chat_conversations.student_id
                                (chat_conversations.apply u c))
                  \/ uid = Some (chat_conversations.counselor_id
                                   (chat_conversations.apply u c))))
     /\ (forall where_ u now,
           c ∈ db_chat_conversations d -> where_ c = true -> party ->
           ~ (uid = Some (chat_conversations.student_id
                            (chat_conversations.apply u c))
              \/ uid = Some (chat_conversations.counselor_id
                               (chat_conversations.apply u c))) ->
           accepted (update_chat_conversations uid where_ u now d) = false)
     /\ (forall where_ u now d',
           update_chat_conversations uid where_ u now d = inr d' ->
           c ∈ db_chat_conversations d ->
           (~ party -> c ∈ db_chat_conversations d')
           /\ (party -> where_ c = true ->
               chat_conversations.update_updated_at_column now
                 (chat_conversations.apply u c) ∈ db_chat_conversations d')))
  /\ (forall a : appointments.Row,
     let party := uid = Some (appointments.student_id a)
                  \/ uid = Some (appointments.counselor_id a) in
     (appointments_select_using uid a = true <-> party)
     /\ (appointments_update_using uid a = true <-> party)
     /\ (appointments_insert_check uid a = true
         <-> uid = Some (appointments.student_id a))
     /\ (a ∈ select_appointments uid d <-> a ∈ db_appointments d /\ party)
     /\ (insert_appointments uid a d = inl PolicyDenied
         <-> uid <> Some (appointments.student_id a))
     /\ (forall u now,
           rewrite_appointment uid u now a = inl PolicyDenied
           <-> ~ (uid = Some (appointments.student_id (appointments.apply u a))
                  \/ uid = Some (appointments.counselor_id
                                   (appointments.apply u a))))
     /\ (forall where_ u now,
           a ∈ db_appointments d -> where_ a = true -> party ->
           ~ (uid = Some (appointments.student_id (appointments.apply u a))
              \/ uid = Some (appointments.counselor_id
                               (appointments.apply u a))) ->
           accepted (update_appointments uid where_ u now d) = false)
     /\ (forall where_ u now d',
           update_appointments uid where_ u now d = inr d' ->
           a ∈ db_appointments d ->
           (~ party -> a ∈ db_appointments d')
           /\ (party -> where_ a = true ->
               appointments.update_updated_at_column now
                 (appointments.apply u a) ∈ db_appointments d')))
  /\ (schema_ok d = true ->
      (forall where_ u now,
         (forall r, r ∈ db_chat_conversations d -> where_ r = true ->
                    chat_conversations_update_using uid r = false) ->
         update_chat_conversations uid where_ u now d = inr d)
      /\ (forall where_ u now,
            (forall r, r ∈ db_appointments d -> where_ r = true ->
                       appointments_update_using uid r = false) ->
            update_appointments uid where_ u now d = inr d)
      /\ (forall where_ u now,
            chat_conversations.set_id u = None ->
            chat_conversations.set_student_id u = None ->
            chat_conversations.set_counselor_id u = None ->
            (forall r, r ∈ db_chat_conversations d ->
               chat_conversations_checks (chat_conversations.apply u r) = true) ->
            update_chat_conversations uid where_ u now d
            = inr (with_chat_conversations
                     ((fun r =>
                         if where_ r && chat_conversations_update_using uid r
                         then chat_conversations.update_updated_at_column now
                                (chat_conversations.apply u r)
                         else r) <$> db_chat_conversations d) d))
      /\ (forall where_ u now,
            appointments.set_id u = None ->
            appointments.set_student_id u = None ->
            appointments.set_counselor_id u = None ->
            appointments.set_conversation_id u = None ->
            (forall r, r ∈ db_appointments d ->
               appointments_checks (appointments.apply u r) = true) ->
            update_appointments uid where_ u now d
            = inr (with_appointments
                     ((fun r =>
                         if where_ r && appointments_update_using uid r
                         then appointments.update_updated_at_column now
                                (appointments.apply u r)
                         else r) <$> db_appointments d) d))).
Proof.
  split; [|split].
  - intros c party.
    assert (Hp : chat_conversations_update_using uid c = true <-> party)
      by apply party_true.
    split; [apply party_true|]. split; [done|].
    split; [apply uid_is_true|]. split; [|split; [|split; [|split]]].
    + unfold select_chat_conversations.
      rewrite list_elem_of_filter, Is_true_true.
      unfold chat_conversations_select_using. rewrite party_true.
      unfold party. tauto.
    + apply insert_chat_conversations_denied.
    + intros u now. apply rewrite_chat_conversation_denied.
    + intros where_ u now Hin Hw Hy Hout. unfold update_chat_conversations.
      pose proof (update_rows_refused
                    (fun r => where_ r && chat_conversations_update_using uid r)
                    (rewrite_chat_conversation uid u now)
                    (db_chat_conversations d) c PolicyDenied Hin) as Hr.
      destruct (update_rows _ _ _); [done|].
      exfalso. assert (true = false); [|done]. apply Hr.
      * apply andb_true_iff. split; [done|by apply Hp].
      * by apply rewrite_chat_conversation_denied.
    + intros where_ u now d' Hup Hin.
      apply update_chat_conversations_rows in Hup. split.
      * intros Hn. apply (update_rows_untouched _ _ _ _ c Hup Hin).
        apply andb_false_iff. right.
        destruct (chat_conversations_update_using uid c); [|done].
        destruct Hn. by apply Hp.
      * intros Hy Hw.
        destruct (update_rows_touched _ _ _ _ c Hup Hin) as (r' & Hr & Hin').
        { apply andb_true_iff. split; [done|by apply Hp]. }
        unfold rewrite_chat_conversation in Hr.
        repeat (case_match; try discriminate). by injection Hr as <-.
  - intros a party.
    assert (Hp : appointments_update_using uid a = true <-> party)
      by apply party_true.
    split; [apply party_true|]. split; [done|].
    split; [apply uid_is_true|]. split; [|split; [|split; [|split]]].
    + unfold select_appointments.
      rewrite list_elem_of_filter, Is_true_true.
      unfold appointments_select_using. rewrite party_true.
      unfold party. tauto.
    + apply insert_appointments_denied.
    + intros u now. apply rewrite_appointment_denied.
    + intros where_ u now Hin Hw Hy Hout. unfold update_appointments.
      pose proof (update_rows_refused
                    (fun r => where_ r && appointments_update_using uid r)
                    (rewrite_appointment uid u now)
                    (db_appointments d) a PolicyDenied Hin) as Hr.
      destruct (update_rows _ _ _); [done|].
      exfalso. assert (true = false); [|done]. apply Hr.
      * apply andb_true_iff. split; [done|by apply Hp].
      * by apply rewrite_appointment_denied.
    + intros where_ u now d' Hup Hin.
      apply update_appointments_rows in Hup. split.
      * intros Hn. apply (update_rows_untouched _ _ _ _ a Hup Hin).
        apply andb_false_iff. right.
        destruct (appointments_update_using uid a); [|done].
        destruct Hn. by apply Hp.
      * intros Hy Hw.
        destruct (update_rows_touched _ _ _ _ a Hup Hin) as (r' & Hr & Hin').
        { apply andb_true_iff. split; [done|by apply Hp]. }
        unfold rewrite_appointment in Hr.
        repeat (case_match; try discriminate). by injection Hr as <-.
  - intros Hok. split; [|split; [|split]].
    + intros where_ u now Hnone.
      rewrite (update_chat_conversations_total uid where_ u now d Hok).
      * rewrite fmap_untouched; [by destruct d|].
        intros r Hin. destruct (where_ r) eqn:Hw; [|done].
        by rewrite (Hnone r Hin Hw).
      * intros r Hin Hw Hu. rewrite (Hnone r Hin Hw) in Hu. discriminate.
    + intros where_ u now Hnone.
      rewrite (update_appointments_total uid where_ u now d Hok).
      * rewrite fmap_untouched; [by destruct d|].
        intros r Hin. destruct (where_ r) eqn:Hw; [|done].
        by rewrite (Hnone r Hin Hw).
      * intros r Hin Hw Hu. rewrite (Hnone r Hin Hw) in Hu. discriminate.
    + intros where_ u now Hi Hs Hc Hck.
      apply (update_chat_conversations_total uid where_ u now d Hok).
      intros r Hin _ _. unfold chat_conversations.apply at 1 2 3.
      simpl. rewrite Hi, Hs, Hc. simpl. by rewrite (Hck r Hin).
    + intros where_ u now Hi Hs Hc Hv Hck.
      apply (update_appointments_total uid where_ u now d Hok).
      intros r Hin _ _. unfold appointments.apply at 1 2 3 4.
      simpl. rewrite Hi, Hs, Hc, Hv. simpl. by rewrite (Hck r Hin).
Qed.

Lemma C3_conversation_appointment_policies_witness :
  update_chat_conversations (Some "kiran")
    (fun c => bool_decide (chat_conversations.id c = "c1"))
    (touch_last_message_at 5%Z) 6%Z sample.stored
  = inr (with_chat_conversations
           [chat_conversations.update_updated_at_column 6%Z
              (chat_conversations.apply (touch_last_message_at 5%Z)
                 sample.chat)]
           sample.stored).
Proof.
  destruct (C3_conversation_appointment_policies (Some "kiran") sample.stored)
    as (_ & _ & H).
  destruct (H eq_refl) as (_ & _ & Hc & _).
  rewrite (Hc (fun c => bool_decide (chat_conversations.id c = "c1"))
              (touch_last_message_at 5%Z) 6%Z eq_refl eq_refl eq_refl).
  - reflexivity.
  - intros r Hin. apply list_elem_of_singleton in Hin as ->. reflexivity.
Defined.

(** ** Trimming *)

Lemma trimStart_split (s : jsstring) :
  exists lead, s = lead ++ trimStart s /\ forallb is_white_space lead = true.
Proof.
  induction s as [|c s IH]; simpl.
  - by exists [].
  - destruct (is_white_space c) eqn:Hc.
    + destruct IH as (lead & Hs & Hl). exists (c :: lead). simpl.
      rewrite Hc, Hl. split; [by f_equal|done].
    + by exists [].
Qed.

Lemma trimStart_head (s : jsstring) (c : N) :
  head (trimStart s) = Some c -> is_white_space c = false.
Proof.
  induction s as [|x s IH]; simpl; [done|].
  destruct (is_white_space x) eqn:Hx; [done|]. simpl. by intros [= <-].
Qed.

Lemma trimStart_fixed (s : jsstring) :
  (forall c, head s = Some c -> is_white_space c = false) -> trimStart s = s.
Proof.
  destruct s as [|c s]; [done|]. intros H. simpl. by rewrite (H c).
Qed.

Lemma trimStart_blank (s : jsstring) :
  trimStart s = [] <-> forallb is_white_space s = true.
Proof.
  induction s as [|c s IH]; simpl; [done|].
  destruct (is_white_space c); simpl; [done|]. split; discriminate.
Qed.

Lemma forallb_reverse {A} (f : A -> bool) (l : list A) :
  forallb f (reverse l) = forallb f l.
Proof.
  induction l as [|x l IH]; [done|].
  rewrite reverse_cons, forallb_app, IH. simpl. rewrite andb_true_r.
  apply andb_comm.
Qed.

Lemma trimEnd_split (s : jsstring) :
  exists trail, s = trimEnd s ++ trail /\ forallb is_white_space trail = true.
Proof.
  destruct (trimStart_split (reverse s)) as (lead & Hs & Hl).
  exists (reverse lead). split; [|by rewrite forallb_reverse].
  unfold trimEnd. rewrite <- reverse_app, <- Hs. by rewrite reverse_involutive.
Qed.

Lemma trimEnd_last (s : jsstring) (c : N) :
  last (trimEnd s) = Some c -> is_white_space c = false.
Proof. unfold trimEnd. rewrite last_reverse. apply trimStart_head. Qed.

Lemma trimEnd_fixed (s : jsstring) :
  (forall c, last s = Some c -> is_white_space c = false) -> trimEnd s = s.
Proof.
  intros H. unfold trimEnd. rewrite trimStart_fixed.
  - apply reverse_involutive.
  - intros c. rewrite head_reverse. apply H.
Qed.

Lemma trimEnd_head (s : jsstring) (c : N) :
  head (trimEnd s) = Some c -> head s = Some c.
Proof.
  destruct (trimEnd_split s) as (trail & Hs & _). intros H.
  rewrite Hs. destruct (trimEnd s); [done|]. done.
Qed.

(** The shape of a trimmed text. *)
Lemma trim_facts (s : jsstring) :
  (exists lead trail,
     s = lead ++ trim s ++ trail
     /\ forallb is_white_space lead = true
     /\ forallb is_white_space trail = true)
  /\ (forall c, head (trim s) = Some c -> is_white_space c = false)
  /\ (forall c, last (trim s) = Some c -> is_white_space c = false)
  /\ trim (trim s) = trim s
  /\ (trim s = [] <-> forallb is_white_space s = true).
Proof.
  assert (Hhead : forall c, head (trim s) = Some c -> is_white_space c = false).
  { intros c H. apply trimEnd_head in H. by apply (trimStart_head s). }
  assert (Hlast : forall c, last (trim s) = Some c -> is_white_space c = false).
  { intros c. apply trimEnd_last. }
  destruct (trimStart_split s) as (lead & Hs & Hl).
  destruct (trimEnd_split (trimStart s)) as (trail & Ht & Htl).
  split; [|split; [done|split; [done|split]]].
  - exists lead, trail. split; [|done]. unfold trim. by rewrite <- Ht.
  - unfold trim at 1. rewrite (trimStart_fixed (trim s) Hhead).
    apply (trimEnd_fixed (trim s) Hlast).
  - split.
    + intros H. unfold trim in H. rewrite H in Ht. simpl in Ht.
      rewrite Hs, Ht, forallb_app, Hl, Htl. done.
    + intros H. unfold trim. apply trimStart_blank in H. by rewrite H.
Qed.

(** What [trim] does.  The text is the trimmed text with white space
    before and after it and nothing else; the trimmed text neither starts
    nor ends with white space; trimming again changes nothing; and the
    result is empty exactly when the text is white space throughout. *)
Theorem trim_spec (s : jsstring) :
  (exists lead trail,
     s = lead ++ trim s ++ trail
     /\ forallb is_white_space lead = true
     /\ forallb is_white_space trail = true)
  /\ (forall c, head (trim s) = Some c -> is_white_space c = false)
  /\ (forall c, last (trim s) = Some c -> is_white_space c = false)
  /\ trim (trim s) = trim s
  /\ (trim s = [] <-> forallb is_white_space s = true).
Proof. exact (trim_facts s). Qed.

(** ** Conversations and messages, end to end *)

Lemma commit_touch_rest (uid : option uuid)
    (where_ : chat_conversations.Row -> bool) (u : chat_conversations.Update)
    (now : timestamptz) (d : Database) :
  let d' := commit d (update_chat_conversations uid where_ u now d) in
  db_profiles d' = db_profiles d
  /\ db_chat_messages d' = db_chat_messages d
  /\ db_appointments d' = db_appointments d.
Proof.
  simpl. destruct (update_chat_conversations uid where_ u now d) as [e|d'] eqn:H;
    simpl; [done|].
  apply update_chat_conversations_accepted in H as (-> & _). done.
Qed.

(** The three ways [sendMessage] can end. *)
Lemma sendMessage_cases (fresh : uuid) (now_insert : timestamptz)
    (date_now : Z) (now_update : timestamptz) (w : World ChatInterface) :
  let w' := sendMessage fresh now_insert date_now now_update w in
  w' = w
  \/ exists conv p,
       truthy (selectedConversation (ui w)) = Some conv
       /\ profile w = Some p
       /\ trim (newMessage (ui w)) <> []
       /\ ((exists e,
              post_chat_messages (uid w) fresh now_insert conv p
                (trim (newMessage (ui w))) (db w) = inl e
              /\ db w' = db w /\ ui w' = ui w)
           \/ (exists d1 t,
                 code_units t = trim (newMessage (ui w))
                 /\ insert_chat_messages (uid w)
                      (new_message fresh now_insert conv p t) (db w) = inr d1
                 /\ db w' = commit d1
                      (update_chat_conversations (uid w)
                         (fun c => bool_decide (chat_conversations.id c = conv))
                         (touch_last_message_at date_now) now_update d1)
                 /\ ui w' = setNewMessage [] (ui w)
                 /\ uid w' = uid w /\ profile w' = profile w)).
Proof.
  unfold sendMessage.
  destruct (truthy (selectedConversation (ui w))) as [conv|] eqn:Hsel;
    [|left; by repeat case_match].
  destruct (profile w) as [p|] eqn:Hp; [|left; by repeat case_match].
  assert (Hne : trim (newMessage (ui w)) = []
                \/ trim (newMessage (ui w)) <> []).
  { destruct (trim (newMessage (ui w))); [by left|by right]. }
  destruct Hne as [He|Hne]; [left; by rewrite He|].
  right. exists conv, p. split; [done|]. split; [done|]. split; [done|].
  generalize Hne. generalize (trim (newMessage (ui w))).
  intros content Hc. destruct content as [|c0 s0]; [done|].
  cbn [uid db send].
  destruct (post_chat_messages (uid w) fresh now_insert conv p (c0 :: s0) (db w))
    as [e|d1] eqn:Hpost.
  - left. by exists e.
  - right. apply post_chat_messages_inr in Hpost as (t & Ht & Hins).
    exists d1, t. cbn [uid db profile ui send set_db set_ui]. done.
Qed.

(** X14.  What [sendMessage] can put into the message table.  It adds at
    most one row and changes none.  A row it adds is text, in the selected
    conversation, sent by the loaded profile, with status 'sent', and its
    content is the trimmed draft: not empty, with no white space at either
    end. *)
Theorem sendMessage_adds_trimmed_text (fresh : uuid)
    (now_insert : timestamptz) (date_now : Z) (now_update : timestamptz)
    (w : World ChatInterface) :
  let w' := sendMessage fresh now_insert date_now now_update w in
  db_chat_messages (db w') = db_chat_messages (db w)
  \/ exists m t p,
       db_chat_messages (db w') = db_chat_messages (db w) ++ [m]
       /\ chat_messages.content m = Some t
       /\ code_units t = trim (newMessage (ui w)) /\ code_units t <> []
       /\ (forall c, head (code_units t) = Some c -> is_white_space c = false)
       /\ (forall c, last (code_units t) = Some c -> is_white_space c = false)
       /\ chat_messages.message_type m = Some "text"
       /\ chat_messages.status m = Some "sent"
       /\ profile w = Some p /\ chat_messages.sender_id m = profiles.id p
       /\ Some (chat_messages.conversation_id m)
          = truthy (selectedConversation (ui w)).
Proof.
  intros w'. subst w'.
  destruct (sendMessage_cases fresh now_insert date_now now_update w)
    as [Hw|(conv & p & Hsel & Hp & Ht
            & [(e & _ & Hdb & _)|(d1 & t & Hu & Hins & Hdb & _)])].
  - left. by rewrite Hw.
  - left. by rewrite Hdb.
  - right. apply insert_chat_messages_accepted in Hins as (_ & _ & _ & _ & ->).
    destruct (commit_touch_rest (uid w)
                (fun c => bool_decide (chat_conversations.id c = conv))
                (touch_last_message_at date_now) now_update
                (with_chat_messages
                   (db_chat_messages (db w) ++
                    [new_message fresh now_insert conv p t])
                   (db w))) as (_ & Hm & _).
    exists (new_message fresh now_insert conv p t), t, p.
    rewrite Hdb, Hm, Hu. simpl.
    destruct (trim_facts (newMessage (ui w))) as (_ & Hh & Hl & _).
    repeat split; try done.
Qed.

(** X15.  [createConversation].  The insert is accepted exactly when the
    session is the loaded profile, the new id is free and both profiles
    exist: whether the two already have a conversation plays no part, so
    every accepted call adds one more.  An accepted call stores the row,
    puts it at the head of the list with both parties and selects it; a
    refused call, or a call without a profile, changes neither the
    database nor the component and reports the failure. *)
Theorem createConversation_outcome (fresh : uuid) (now : timestamptz)
    (counselorId : uuid) (w : World ChatInterface) :
  let w' := createConversation fresh now counselorId w in
  (forall p, profile w = Some p ->
     let new := new_conversation fresh now (profiles.id p) counselorId in
     ((exists d1, insert_chat_conversations (uid w) new (db w) = inr d1)
      <-> uid w = Some (profiles.id p)
          /\ (fresh ∉ chat_conversations.id <$> db_chat_conversations (db w))
          /\ profile_exists (db w) (profiles.id p) = true
          /\ profile_exists (db w) counselorId = true)
     /\ (forall d1, insert_chat_conversations (uid w) new (db w) = inr d1 ->
           db w' = d1
           /\ db_chat_conversations d1 = db_chat_conversations (db w) ++ [new]
           /\ conversations (ui w')
              = with_parties_c (uid w) d1 new :: conversations (ui w)
           /\ selectedConversation (ui w') = Some fresh
           /\ messages (ui w') = messages (ui w)
           /\ toasts w' = toasts w ++ [success "New conversation started"])
     /\ (forall e, insert_chat_conversations (uid w) new (db w) = inl e ->
           db w' = db w /\ ui w' = ui w
           /\ toasts w'
              = toasts w ++ [destructive "Failed to start conversation"]))
  /\ (profile w = None ->
      db w' = db w /\ ui w' = ui w
      /\ toasts w' = toasts w ++ [destructive "Failed to start conversation"]).
Proof.
  intros w'. split.
  - intros p Hp new. split; [|split].
    + split.
      * intros [d1 H].
        apply insert_chat_conversations_accepted in H
          as (Hu & _ & Hfresh & Hfk & _).
        unfold chat_conversations_fkeys in Hfk.
        apply andb_true_iff in Hfk as [H1 H2]. done.
      * intros (Hu & Hfresh & H1 & H2). unfold insert_chat_conversations.
        unfold chat_conversations_insert_check, uid_is, conversation_exists,
          chat_conversations_fkeys.
        change (chat_conversations.student_id new) with (profiles.id p).
        change (chat_conversations.counselor_id new) with counselorId.
        change (chat_conversations.id new) with fresh.
        rewrite (bool_decide_eq_true_2 _ Hu).
        rewrite (bool_decide_eq_false_2 _ Hfresh), H1, H2.
        by eexists.
    + intros d1 H. unfold w', createConversation. rewrite Hp. fold new.
      rewrite H.
      apply insert_chat_conversations_accepted in H as (_ & _ & _ & _ & ->).
      done.
    + intros e H. unfold w', createConversation. rewrite Hp. fold new.
      by rewrite H.
  - intros Hp. unfold w', createConversation. by rewrite Hp.
Qed.

Lemma createConversation_outcome_witness :
  exists d1,
    insert_chat_conversations (Some "asha")
      (new_conversation "c2" 7%Z "asha" "kiran") sample.stored = inr d1.
Proof.
  destruct (createConversation_outcome "c2" 7%Z "kiran"
              (sample.world sample.stored sample.asha (sample.chat_ui [])))
    as [H _].
  pose proof (H sample.asha eq_refl) as H'. cbv zeta in H'.
  destruct H' as [[_ Hacc] _].
  apply Hacc. split; [reflexivity|]. split; [|split; reflexivity].
  apply (bool_decide_unpack _). vm_compute. exact I.
Defined.

Lemma schema_ok_consistent (d : Database) :
  schema_ok d = true -> consistent d = true.
Proof.
  intros H. apply schema_ok_true in H
    as (_ & _ & Hc & _ & _ & Hcc & _ & _ & Hfk).
  unfold consistent. by rewrite bool_decide_eq_true_2, Hcc, Hfk.
Qed.

Lemma exists_own_conversation_touched (who uid : option uuid) (conv : uuid)
    (t now : timestamptz) (d : Database) (k : uuid) :
  exists_own_conversation who
    (with_chat_conversations
       (touch_conversation uid conv t now <$> db_chat_conversations d) d) k
  = exists_own_conversation who d k.
Proof.
  unfold exists_own_conversation. simpl.
  induction (db_chat_conversations d) as [|c l IH]; [done|].
  rewrite fmap_cons. simpl. rewrite IH. f_equal.
  unfold touch_conversation. by case_match.
Qed.

Lemma sendMessage_accepted (fresh : uuid) (now_insert : timestamptz)
    (date_now : Z) (now_update : timestamptz) (w : World ChatInterface)
    (conv : uuid) (p : profiles.Row) (t : text) (d1 : Database) :
  trim (newMessage (ui w)) <> [] ->
  truthy (selectedConversation (ui w)) = Some conv ->
  profile w = Some p ->
  code_units t = trim (newMessage (ui w)) ->
  insert_chat_messages (uid w)
    (new_message fresh now_insert conv p t) (db w) = inr d1 ->
  let w' := sendMessage fresh now_insert date_now now_update w in
  db w' = commit d1
            (update_chat_conversations (uid w)
               (fun c => bool_decide (chat_conversations.id c = conv))
               (touch_last_message_at date_now) now_update d1)
  /\ ui w' = setNewMessage [] (ui w)
  /\ uid w' = uid w /\ profile w' = profile w.
Proof.
  intros Ht Hsel Hp Hu Hins. unfold sendMessage. rewrite Hsel, Hp, <- Hu.
  rewrite <- Hu in Ht.
  destruct (code_units t) as [|c0 s0] eqn:Hcu; [done|]. rewrite <- Hcu.
  cbn [uid db send]. rewrite post_chat_messages_text, Hins.
  cbn [uid db profile ui send set_db set_ui]. done.
Qed.

(** X16.  A conversation just created can be written to.  Once
    [createConversation] has been accepted, the new conversation is the
    selected one, and a draft that is not blank and trims to a text, sent
    with [sendMessage] under a message id that is free, is accepted by the
    insert policy and stored. *)
Theorem new_conversation_can_be_written_to (fresh_c fresh_m : uuid)
    (now now_insert : timestamptz) (date_now : Z) (now_update : timestamptz)
    (counselorId : uuid) (w : World ChatInterface) (p : profiles.Row)
    (d1 : Database) (draft : jsstring) (t : text) :
  profile w = Some p ->
  insert_chat_conversations (uid w)
    (new_conversation fresh_c now (profiles.id p) counselorId) (db w)
  = inr d1 ->
  fresh_c <> "" ->
  fresh_m ∉ chat_messages.id <$> db_chat_messages (db w) ->
  trim draft <> [] ->
  code_units t = trim draft ->
  let w1 := createConversation fresh_c now counselorId w in
  let w2 := set_ui (setNewMessage draft (ui w1)) w1 in
  let new := new_message fresh_m now_insert fresh_c p t in
  selectedConversation (ui w1) = Some fresh_c
  /\ (exists d2,
        post_chat_messages (uid w) fresh_m now_insert fresh_c p (trim draft) d1
        = inr d2)
  /\ new ∈ db_chat_messages
             (db (sendMessage fresh_m now_insert date_now now_update w2)).
Proof.
  intros Hp Hins Hne Hfresh Hdraft Ht w1 w2 new.
  pose proof Hins as Hacc.
  apply insert_chat_conversations_accepted in Hacc
    as (Hu & _ & _ & Hfk & Hd1).
  change (chat_conversations.student_id (new_conversation _ _ _ _))
    with (profiles.id p) in Hu.
  unfold chat_conversations_fkeys in Hfk.
  apply andb_true_iff in Hfk as [Hpe _].
  change (chat_conversations.student_id (new_conversation _ _ _ _))
    with (profiles.id p) in Hpe.
  assert (Hw1 : db w1 = d1 /\ selectedConversation (ui w1) = Some fresh_c
                /\ profile w1 = Some p /\ uid w1 = uid w).
  { unfold w1, createConversation. rewrite Hp, Hins. done. }
  destruct Hw1 as (Hdb1 & Hsel1 & Hp1 & Hu1).
  assert (Hsend : insert_chat_messages (uid w) new d1
                  = inr (with_chat_messages (db_chat_messages d1 ++ [new]) d1)).
  { unfold insert_chat_messages.
    assert (Hpol : chat_messages_insert_check (uid w) d1 new = true).
    { unfold chat_messages_insert_check. apply andb_true_iff. split.
      - by apply uid_is_true.
      - apply exists_own_conversation_true.
        exists (new_conversation fresh_c now (profiles.id p) counselorId).
        rewrite Hd1. simpl. split; [|split; [done|by left]].
        apply elem_of_app. right. apply list_elem_of_here. }
    rewrite Hpol. simpl.
    change (chat_messages_checks new) with true. simpl.
    rewrite bool_decide_eq_false_2 by (by rewrite Hd1).
    unfold chat_messages_fkeys.
    change (chat_messages.conversation_id new) with fresh_c.
    change (chat_messages.sender_id new) with (profiles.id p).
    assert (Hce : conversation_exists d1 fresh_c = true).
    { unfold conversation_exists. apply bool_decide_eq_true. rewrite Hd1.
      simpl. rewrite fmap_app. apply elem_of_app. right.
      apply list_elem_of_here. }
    assert (Hpe1 : profile_exists d1 (profiles.id p) = true)
      by (by rewrite Hd1).
    by rewrite Hce, Hpe1. }
  split; [done|]. split.
  { rewrite <- Ht, post_chat_messages_text. by eexists. }
  destruct (sendMessage_accepted fresh_m now_insert date_now now_update w2
              fresh_c p t (with_chat_messages (db_chat_messages d1 ++ [new]) d1))
    as (Hdb & _).
  - done.
  - change (selectedConversation (ui w2)) with (selectedConversation (ui w1)).
    rewrite Hsel1. unfold truthy. by rewrite bool_decide_eq_false_2.
  - done.
  - done.
  - change (uid w2) with (uid w1). change (db w2) with (db w1).
    rewrite Hu1, Hdb1. exact Hsend.
  - rewrite Hdb.
    destruct (commit_touch_rest (uid w2)
                (fun c => bool_decide (chat_conversations.id c = fresh_c))
                (touch_last_message_at date_now) now_update
                (with_chat_messages (db_chat_messages d1 ++ [new]) d1))
      as (_ & Hm & _).
    rewrite Hm. simpl. apply elem_of_app. right. apply list_elem_of_here.
Qed.

Lemma new_conversation_can_be_written_to_witness :
  new_message "m7" 8%Z "c2" sample.asha (Text [104]%N eq_refl)
  ∈ db_chat_messages
      (db (sendMessage "m7" 8%Z 9%Z 10%Z
             (set_ui
                (setNewMessage [104]%N
                   (ui (createConversation "c2" 7%Z "kiran"
                          (sample.world sample.stored sample.asha
                             (sample.chat_ui [])))))
                (createConversation "c2" 7%Z "kiran"
                   (sample.world sample.stored sample.asha
                      (sample.chat_ui [])))))).
Proof.
  apply (new_conversation_can_be_written_to "c2" "m7" 7%Z 8%Z 9%Z 10%Z "kiran"
           (sample.world sample.stored sample.asha (sample.chat_ui []))
           sample.asha
           (with_chat_conversations
              (db_chat_conversations sample.stored
               ++ [new_conversation "c2" 7%Z "asha" "kiran"])
              sample.stored)
           [104]%N (Text [104]%N eq_refl)).
  - reflexivity.
  - vm_compute. reflexivity.
  - done.
  - apply (bool_decide_unpack _). vm_compute. exact I.
  - vm_compute. discriminate.
  - reflexivity.
Defined.

(** X17.  A sent message comes back through the change feed.  On a
    database that satisfies the schema, when [sendMessage] is accepted and
    the channel is open on the selected conversation, the INSERT event of
    the new message makes the client fetch that very row and put it, with
    its sender, at the end of the list. *)
Theorem sent_message_comes_back (fresh : uuid) (now_insert : timestamptz)
    (date_now : Z) (now_update : timestamptz) (w : World ChatInterface)
    (conv : uuid) (p : profiles.Row) (t : text) (d1 : Database) :
  schema_ok (db w) = true ->
  trim (newMessage (ui w)) <> [] ->
  truthy (selectedConversation (ui w)) = Some conv ->
  profile w = Some p ->
  channel (ui w) = Some conv ->
  code_units t = trim (newMessage (ui w)) ->
  let new := new_message fresh now_insert conv p t in
  insert_chat_messages (uid w) new (db w) = inr d1 ->
  let w' := sendMessage fresh now_insert date_now now_update w in
  messages (ui (on_insert new w'))
  = messages (ui w) ++ [with_sender (uid w) (db w') new]
  /\ new ∈ db_chat_messages (db w').
Proof.
  intros Hok Ht Hsel Hp Hch Hcu new Hins w'.
  destruct (sendMessage_accepted fresh now_insert date_now now_update w
              conv p t d1 Ht Hsel Hp Hcu Hins) as (Hdb & Hui & Huid & _).
  fold w' in Hdb, Hui, Huid.
  pose proof (insert_chat_messages_keeps _ _ _ _ Hok Hins) as Hok1.
  rewrite (update_touch_accepted (uid w) conv date_now now_update d1
             (schema_ok_consistent d1 Hok1)) in Hdb.
  simpl in Hdb.
  pose proof Hins as Hacc.
  apply insert_chat_messages_accepted in Hacc as (Hpol & _ & _ & _ & Hd1).
  assert (Hin : new ∈ db_chat_messages (db w')).
  { rewrite Hdb, Hd1. simpl. apply elem_of_app. right.
    apply list_elem_of_here. }
  split; [|done].
  rewrite (on_insert_appends new w' conv); [|by rewrite Hui|done].
  rewrite Hui, Huid. simpl. f_equal. unfold fetched.
  rewrite (message_by_id_of (uid w) (db w') new); [| |done].
  - assert (Hvis : chat_messages_select_using (uid w) (db w') new = true).
    { unfold chat_messages_select_using. rewrite Hdb.
      rewrite exists_own_conversation_touched.
      unfold chat_messages_insert_check in Hpol.
      apply andb_true_iff in Hpol as [_ Hown].
      unfold exists_own_conversation in *. by rewrite Hd1. }
    by rewrite Hvis.
  - rewrite Hdb. simpl. apply schema_ok_true in Hok1. tauto.
Qed.

Lemma sent_message_comes_back_witness :
  messages
    (ui (on_insert
           (new_message "m9" 1000%Z "c1" sample.asha
              (Text [104; 105]%N eq_refl))
           (sendMessage "m9" 1000%Z 2000%Z 1001%Z
              (sample.world sample.stored sample.asha
                 (sample.chat_ui [104; 105]%N)))))
  = [with_sender (Some "asha")
       (db (sendMessage "m9" 1000%Z 2000%Z 1001%Z
              (sample.world sample.stored sample.asha
                 (sample.chat_ui [104; 105]%N))))
       (new_message "m9" 1000%Z "c1" sample.asha (Text [104; 105]%N eq_refl))].
Proof.
  apply (sent_message_comes_back "m9" 1000%Z 2000%Z 1001%Z
           (sample.world sample.stored sample.asha
              (sample.chat_ui [104; 105]%N))
           "c1" sample.asha (Text [104; 105]%N eq_refl)
           (with_chat_messages
              (db_chat_messages sample.stored
               ++ [new_message "m9" 1000%Z "c1" sample.asha
                     (Text [104; 105]%N eq_refl)])
              sample.stored)).
  - vm_compute. reflexivity.
  - vm_compute. discriminate.
  - reflexivity.
  - reflexivity.
  - reflexivity.
  - reflexivity.
  - vm_compute. reflexivity.
Defined.

(** *** The page while calls are in flight *)

Lemma run_snoc (steps : list Step) (s : Step) (k : Client) :
  run (steps ++ [s]) k = step s (run steps k).
Proof. unfold run. by rewrite foldl_app. Qed.

Lemma insert_elem {A} (l : list A) (i : nat) (x y : A) :
  y ∈ <[i:=x]> l -> y = x \/ y ∈ l.
Proof.
  revert i. induction l as [|z l IH]; intros i Hy; [by right|].
  destruct i as [|i]; simpl in Hy.
  - apply elem_of_cons in Hy as [->|Hy]; [by left|].
    right. apply elem_of_cons. by right.
  - apply elem_of_cons in Hy as [->|Hy].
    + right. apply list_elem_of_here.
    + destruct (IH i Hy) as [->|Hin]; [by left|].
      right. apply elem_of_cons. by right.
Qed.

(** Storing a message changes no other table and hides no message. *)
Lemma stored_message_frame (who uid : option uuid) (new : chat_messages.Row)
    (d : Database) :
  let d' := commit d (insert_chat_messages who new d) in
  db_chat_conversations d' = db_chat_conversations d
  /\ db_profiles d' = db_profiles d
  /\ db_appointments d' = db_appointments d
  /\ (forall m, m ∈ select_chat_messages uid d ->
                m ∈ select_chat_messages uid d').
Proof.
  simpl. destruct (insert_chat_messages who new d) as [e|d'] eqn:H; [done|].
  apply insert_chat_messages_inr in H as (_ & _ & ->). simpl.
  split; [done|]. split; [done|]. split; [done|].
  intros m. unfold select_chat_messages. rewrite !list_elem_of_filter. simpl.
  intros [Hv Hin]. split; [done|]. apply elem_of_app. by left.
Qed.

(** What the backend answers with is visible to the session. *)
Lemma answer_is_visible (uid : option uuid) (d : Database) (q : Asked)
    (m : Message) :
  m ∈ rows_of (answered (answer_of uid d q)) ->
  message m ∈ select_chat_messages uid d.
Proof.
  destruct q as [c|i]; simpl.
  - unfold messages_of. intros Hm.
    apply list_elem_of_fmap in Hm as (r & -> & Hr). simpl.
    rewrite merge_sort_Permutation in Hr.
    by apply list_elem_of_filter in Hr as [_ Hr].
  - destruct (message_by_id uid d i) as [e|data] eqn:Hd; simpl.
    + intros H. by apply elem_of_nil in H.
    + intros H. apply list_elem_of_singleton in H as ->.
      by apply message_by_id_key in Hd as (_ & Hv & _).
Qed.

(** One step of a page: the session and the conversations stay, a stored
    message apart the database stays, and every row on the page or on its
    way to it was there before or is visible to the session. *)
Lemma step_visible (s : Step) (k : Client) :
  let k' := step s k in
  uid (page k') = uid (page k)
  /\ db_chat_conversations (db (page k')) = db_chat_conversations (db (page k))
  /\ ((forall who new, s <> Stored who new) -> db (page k') = db (page k))
  /\ (forall m, m ∈ select_chat_messages (uid (page k)) (db (page k)) ->
                m ∈ select_chat_messages (uid (page k)) (db (page k')))
  /\ (forall m,
        m ∈ messages (ui (page k'))
        \/ (exists c, c ∈ in_flight k' /\ m ∈ rows_of c) ->
        m ∈ messages (ui (page k))
        \/ (exists c, c ∈ in_flight k /\ m ∈ rows_of c)
        \/ message m ∈ select_chat_messages (uid (page k)) (db (page k'))).
Proof.
  destruct s as [who new|new|i|i]; simpl.
  - destruct (stored_message_frame who (uid (page k)) new (db (page k)))
      as (Hc & _ & _ & Hv).
    split; [done|]. split; [done|]. split; [intros H; by destruct (H who new)|].
    split; [done|]. intros m [Hm|Hm]; [by left|by right; left].
  - split; [done|]. split; [done|]. split; [done|]. split; [done|].
    intros m [Hm|(c & Hc & Hm)]; [by left|].
    unfold callback, ask in Hc. simpl in Hc.
    apply elem_of_app in Hc as [Hc|Hc]; [right; left; by exists c|].
    apply list_elem_of_singleton in Hc as ->. by apply elem_of_nil in Hm.
  - unfold serve.
    destruct (in_flight k !! i) as [[q|a]|] eqn:Hi; simpl;
      (split; [done|]; split; [done|]; split; [done|]; split; [done|]);
      try (intros m [Hm|Hm]; [by left|by right; left]).
    intros m [Hm|(c & Hc & Hm)]; [by left|].
    apply insert_elem in Hc as [->|Hc]; [|right; left; by exists c].
    right. right. by apply answer_is_visible in Hm.
  - unfold receive.
    destruct (in_flight k !! i) as [[q|a]|] eqn:Hi;
      [| |]; try (simpl; split; [done|]; split; [done|]; split; [done|];
                  split; [done|];
                  intros m [Hm|Hm]; [by left|by right; left]).
    assert (Ha : answered a ∈ in_flight k) by (by eapply list_elem_of_lookup_2).
    destruct a as [rows|[e|data]]; simpl;
      (split; [done|]; split; [done|]; split; [done|]; split; [done|]);
      intros m [Hm|(c & Hc & Hm)];
      try (right; left; exists c; split; [|done];
           by apply list_elem_of_delete_inv in Hc).
    + right. left. by exists (answered (History rows)).
    + by left.
    + apply elem_of_app in Hm as [Hm|Hm]; [by left|].
      right. left. by exists (answered (RowOrError (inr data))).
Qed.

Lemma run_visible (steps : list Step) (k : Client) :
  let k' := run steps k in
  uid (page k') = uid (page k)
  /\ db_chat_conversations (db (page k')) = db_chat_conversations (db (page k))
  /\ (Forall (fun s => forall who new, s <> Stored who new) steps ->
      db (page k') = db (page k))
  /\ (forall m, m ∈ select_chat_messages (uid (page k)) (db (page k)) ->
                m ∈ select_chat_messages (uid (page k)) (db (page k')))
  /\ (forall m,
        m ∈ messages (ui (page k'))
        \/ (exists c, c ∈ in_flight k' /\ m ∈ rows_of c) ->
        m ∈ messages (ui (page k))
        \/ (exists c, c ∈ in_flight k /\ m ∈ rows_of c)
        \/ message m ∈ select_chat_messages (uid (page k)) (db (page k'))).
Proof.
  induction steps as [|s steps IH] using rev_ind.
  - simpl. split; [done|]. split; [done|]. split; [done|]. split; [done|].
    intros m [Hm|Hm]; [by left|by right; left].
  - rewrite run_snoc. simpl in IH. destruct IH as (Hu & Hc & Hd & Hv & Hm).
    destruct (step_visible s (run steps k)) as (Hu' & Hc' & Hd' & Hv' & Hm').
    simpl in Hu', Hc', Hd', Hv', Hm'. simpl.
    split; [congruence|]. split; [congruence|]. split; [|split].
    + intros Hall. apply Forall_app in Hall as [Hall Hs].
      apply Forall_inv in Hs. rewrite (Hd' Hs). by apply Hd.
    + intros m Hin. rewrite Hu in Hv'. by apply Hv', Hv.
    + intros m Hin. rewrite Hu in Hm', Hv'.
      destruct (Hm' m Hin) as [H|[H|H]]; [| |by right; right].
      * destruct (Hm m (or_introl H)) as [H1|[H1|H1]];
          [by left|by right; left|right; right; by apply Hv'].
      * destruct (Hm m (or_intror H)) as [H1|[H1|H1]];
          [by left|by right; left|right; right; by apply Hv'].
Qed.

(** X18.  The list shows only what the session may read.  After a
    conversation has been selected, whatever happens next and in whatever
    order (messages stored by any session, INSERT events for whatever row,
    calls answered, answers arriving), every entry of the message list was
    on the page or on its way to it before, or is a row the read policy
    shows to the session; no step but the storing of a message changes the
    database, and the session and the conversations stay as they were. *)
Theorem message_list_is_visible (k : Client) (steps : list Step) :
  let k' := run steps (subscribe k) in
  (forall m, m ∈ messages (ui (page k')) ->
     m ∈ messages (ui (page k))
     \/ (exists c, c ∈ in_flight k /\ m ∈ rows_of c)
     \/ message m ∈ select_chat_messages (uid (page k)) (db (page k')))
  /\ (Forall (fun s => forall who new, s <> Stored who new) steps ->
      db (page k') = db (page k))
  /\ uid (page k') = uid (page k)
  /\ db_chat_conversations (db (page k'))
     = db_chat_conversations (db (page k)).
Proof.
  intros k'.
  destruct (run_visible steps (subscribe k)) as (Hu & Hc & Hd & _ & Hm).
  simpl in Hu, Hc, Hd, Hm. fold k' in Hu, Hc, Hd, Hm.
  assert (Hs : uid (page (subscribe k)) = uid (page k)
               /\ db (page (subscribe k)) = db (page k)
               /\ messages (ui (page (subscribe k))) = messages (ui (page k))
               /\ forall c m, c ∈ in_flight (subscribe k) -> m ∈ rows_of c ->
                    exists c', c' ∈ in_flight k /\ m ∈ rows_of c').
  { unfold subscribe. destruct (truthy _) as [c0|]; simpl.
    - split; [done|]. split; [done|]. split; [done|]. intros c m Hc' Hm'.
      apply elem_of_app in Hc' as [Hc'|Hc']; [by exists c|].
      apply list_elem_of_singleton in Hc' as ->. by apply elem_of_nil in Hm'.
    - split; [done|]. split; [done|]. split; [done|]. intros c m Hc' Hm'.
      by exists c. }
  destruct Hs as (Hsu & Hsd & Hsm & Hsf).
  rewrite Hsu in Hu, Hm. rewrite Hsd in Hc, Hd. rewrite Hsm in Hm.
  split; [|split; [done|split; [done|done]]].
  intros m Hin. destruct (Hm m (or_introl Hin)) as [H|[(c & Hc1 & Hc2)|H]].
  - by left.
  - right. left. by apply (Hsf c m).
  - by right; right.
Qed.

(** ** The lists *)

#[global] Instance scheduled_start_asc_total : Total scheduled_start_asc.
Proof. intros a1 a2. unfold scheduled_start_asc. lia. Qed.

#[global] Instance last_message_at_desc_total : Total last_message_at_desc.
Proof.
  intros c1 c2. unfold last_message_at_desc, asc_nulls_last.
  destruct (chat_conversations.last_message_at c1),
           (chat_conversations.last_message_at c2); try tauto. lia.
Qed.

Lemma query_of_profile (p : profiles.Row) :
  exists col,
    eqs (fetchAppointments_query (Some p)) = [(col, Some (profiles.id p))]
    /\ eqs (fetchConversations_query (Some p)) = [(col, Some (profiles.id p))]
    /\ col = (if bool_decide (profiles.role p = Some student)
              then col_student_id else col_counselor_id).
Proof.
  unfold fetchAppointments_query, fetchConversations_query. simpl.
  destruct (bool_decide (profiles.role p = Some student)); by eexists.
Qed.

(** X20.  The two lists and their order.  With a profile loaded,
    [fetchAppointments] fills the list with the visible appointments that
    pass its filter, each once, earliest start first, and
    [fetchConversations] with the visible conversations that pass its
    filter, latest [last_message_at] first and those without one before
    all others.  Without a profile the filter value is undefined: the
    request fails, the list stays as it was and a failure is reported.
    Either way the loading flag is released. *)
Theorem lists_are_ordered (wa : World AppointmentDashboard)
    (wc : World ChatInterface) :
  let wa' := fetchAppointments wa in
  let wc' := fetchConversations wc in
  (forall p, profile wa = Some p ->
     Sorted scheduled_start_asc (appointment <$> appointments_ (ui wa'))
     /\ appointment <$> appointments_ (ui wa')
        ≡ₚ filter (fun r => passes appointments_column
                              (eqs (fetchAppointments_query (Some p))) r)
                  (select_appointments (uid wa) (db wa)))
  /\ (forall p, profile wc = Some p ->
     Sorted last_message_at_desc (conversation <$> conversations (ui wc'))
     /\ conversation <$> conversations (ui wc')
        ≡ₚ filter (fun r => passes chat_conversations_column
                              (eqs (fetchConversations_query (Some p))) r)
                  (select_chat_conversations (uid wc) (db wc)))
  /\ (profile wa = None ->
      appointments_ (ui wa') = appointments_ (ui wa)
      /\ toasts wa' = toasts wa ++ [destructive "Failed to load appointments"])
  /\ (profile wc = None ->
      conversations (ui wc') = conversations (ui wc)
      /\ toasts wc' = toasts wc ++ [destructive "Failed to load conversations"])
  /\ loading_a (ui wa') = false /\ loading (ui wc') = false.
Proof.
  intros wa' wc'. split; [|split; [|split; [|split; [|split]]]].
  - intros p Hp. destruct (query_of_profile p) as (col & Ha & _ & _).
    unfold wa', fetchAppointments, run_appointments_query. rewrite Hp, Ha.
    cbn [uid db ui send set_ui well_typed forallb snd negb andb].
    rewrite (bool_decide_eq_true_2 _ (mk_is_Some _ _ eq_refl)).
    cbn [negb andb appointments_ setAppointments setLoading_a ui set_ui].
    rewrite appointment_with_parties.
    split; [apply Sorted_merge_sort, _|apply merge_sort_Permutation].
  - intros p Hp. destruct (query_of_profile p) as (col & _ & Hc & _).
    unfold wc', fetchConversations, run_conversations_query. rewrite Hp, Hc.
    cbn [uid db ui send set_ui well_typed forallb snd negb andb].
    rewrite (bool_decide_eq_true_2 _ (mk_is_Some _ _ eq_refl)).
    cbn [negb andb conversations setConversations setLoading ui set_ui].
    rewrite conversation_with_parties.
    split; [apply Sorted_merge_sort, _|apply merge_sort_Permutation].
  - intros Hp. unfold wa', fetchAppointments. by rewrite Hp.
  - intros Hp. unfold wc', fetchConversations. by rewrite Hp.
  - done.
  - done.
Qed.

Lemma lists_are_ordered_witness :
  Sorted scheduled_start_asc
    (appointment
       <$> appointments_
             (ui (fetchAppointments
                    (sample.world sample.stored sample.asha
                       (sample.dashboard empty_form))))).
Proof.
  destruct (lists_are_ordered
              (sample.world sample.stored sample.asha
                 (sample.dashboard empty_form))
              (sample.world sample.stored sample.asha (sample.chat_ui [])))
    as [H _].
  apply (H sample.asha eq_refl).
Defined.




(** X22.  How [createAppointment] fails.  With no profile, no counselor
    chosen or an empty time field it sends nothing and touches neither the
    component nor the database: the user is told to fill in the fields.
    When the insert is refused, the database and the list stay as they
    were, the form keeps what was typed and the dialog stays as it was, so
    the booking can be tried again; a failure is reported and the button
    released. *)
Theorem createAppointment_failures (fresh : uuid) (now : timestamptz)
    (date_now : Z) (w : World AppointmentDashboard) :
  let f := appointmentForm (ui w) in
  let w' := createAppointment fresh now date_now w in
  (profile w = None \/ form_counselor_id f = ""
   \/ form_scheduled_start f = None \/ form_scheduled_end f = None ->
     db w' = db w /\ ui w' = ui w /\ requests w' = requests w
     /\ toasts w'
        = toasts w ++ [destructive "Please fill in all required fields"])
  /\ (forall p s e err,
        profile w = Some p -> form_counselor_id f <> "" ->
        form_scheduled_start f = Some s -> form_scheduled_end f = Some e ->
        insert_appointments (uid w)
          (new_appointment fresh now date_now p f s e) (db w) = inl err ->
        db w' = db w
        /\ appointmentForm (ui w') = f
        /\ appointments_ (ui w') = appointments_ (ui w)
        /\ showCreateDialog (ui w') = showCreateDialog (ui w)
        /\ createLoading (ui w') = false
        /\ toasts w'
           = toasts w ++ [destructive "Failed to create appointment"]).
Proof.
  intros f w'. split.
  - intros H. unfold w', createAppointment. fold f.
    destruct H as [H|[H|[H|H]]].
    + by rewrite H.
    + rewrite H. simpl. by repeat case_match.
    + rewrite H. by repeat case_match.
    + rewrite H. by repeat case_match.
  - intros p s e err Hp Hc Hs He Hins. unfold w', createAppointment. fold f.
    rewrite Hp, Hs, He. rewrite bool_decide_eq_false_2 by done.
    cbn [uid db send set_ui]. rewrite Hins. done.
Qed.

Lemma createAppointment_failures_witness :
  toasts (createAppointment "a9" 500%Z 600%Z
            (sample.world sample.empty sample.asha
               (sample.dashboard empty_form)))
  = [destructive "Please fill in all required fields"].
Proof.
  apply (createAppointment_failures "a9" 500%Z 600%Z
           (sample.world sample.empty sample.asha
              (sample.dashboard empty_form))).
  right. left. reflexivity.
Defined.

(** ** The handlers and the schema *)

Lemma fetchAppointments_db (w : World AppointmentDashboard) :
  db (fetchAppointments w) = db w.
Proof. unfold fetchAppointments. simpl. by case_match. Qed.

Lemma fetchConversations_db (w : World ChatInterface) :
  db (fetchConversations w) = db w.
Proof. unfold fetchConversations. simpl. by case_match. Qed.

Lemma commit_update_keeps (uid : option uuid)
    (where_ : chat_conversations.Row -> bool) (u : chat_conversations.Update)
    (now : timestamptz) (d : Database) :
  schema_ok d = true ->
  schema_ok (commit d (update_chat_conversations uid where_ u now d)) = true.
Proof.
  intros Hok.
  destruct (update_chat_conversations uid where_ u now d) as [e|d'] eqn:H;
    simpl; [done|].
  by apply (update_chat_conversations_keeps uid where_ u now d d').
Qed.

(** X23.  No handler breaks the schema.  Starting from a database that
    satisfies it, whatever [sendMessage], [createConversation],
    [createAppointment], the loads, an INSERT event and any run of a
    subscribed page do (messages stored by any session, events, calls
    answered, answers arriving), with whatever ids and clock readings, the
    database they leave satisfies it too. *)
Theorem handlers_keep_schema :
  (forall w : World ChatInterface, schema_ok (db w) = true ->
     (forall fresh now_insert date_now now_update,
        schema_ok (db (sendMessage fresh now_insert date_now now_update w))
        = true)
     /\ (forall fresh now counselorId,
           schema_ok (db (createConversation fresh now counselorId w)) = true)
     /\ (forall new, schema_ok (db (on_insert new w)) = true)
     /\ (forall calls steps,
           schema_ok
             (db (page (run steps
                          (subscribe {| page := w; in_flight := calls |}))))
           = true)
     /\ schema_ok (db (mount_chat w)) = true)
  /\ (forall w : World AppointmentDashboard, schema_ok (db w) = true ->
        (forall fresh now date_now,
           schema_ok (db (createAppointment fresh now date_now w)) = true)
        /\ schema_ok (db (mount_dashboard w)) = true).
Proof.
  split.
  - intros w Hok. split; [|split; [|split; [|split]]].
    + intros fresh now_insert date_now now_update.
      destruct (sendMessage_cases fresh now_insert date_now now_update w)
        as [Hw|(conv & p & _ & _ & _
                & [(e & _ & Hdb & _)|(d1 & t & _ & Hins & Hdb & _)])].
      * by rewrite Hw.
      * by rewrite Hdb.
      * rewrite Hdb. apply commit_update_keeps.
        by apply (insert_chat_messages_keeps _ _ _ _ Hok Hins).
    + intros fresh now counselorId. unfold createConversation.
      destruct (profile w) as [p|]; [|done].
      destruct (insert_chat_conversations _ _ _) as [e|d1] eqn:Hins; [done|].
      simpl. by apply (insert_chat_conversations_keeps _ _ _ _ Hok Hins).
    + intros new. by destruct (on_insert_frame new w) as (-> & _).
    + intros calls steps.
      induction steps as [|s steps IH] using rev_ind.
      * simpl. unfold subscribe. by destruct (truthy _).
      * rewrite run_snoc. destruct s as [who new|new|i|i]; simpl.
        -- destruct (insert_chat_messages who new _) as [e|d1] eqn:Hins;
             [done|].
           by apply (insert_chat_messages_keeps _ _ _ _ IH Hins).
        -- done.
        -- unfold serve. by repeat case_match.
        -- unfold receive, settle. by repeat case_match.
    + unfold mount_chat. destruct (profile w); [|done].
      unfold fetchCounselors. cbn [db set_ui].
      by rewrite fetchConversations_db.
  - intros w Hok. split.
    + intros fresh now date_now. unfold createAppointment.
      destruct (profile w) as [p|]; [|done].
      destruct (bool_decide _); [done|].
      destruct (form_scheduled_start _) as [s|]; [|done].
      destruct (form_scheduled_end _) as [e|]; [|done].
      cbn [uid db send set_ui].
      destruct (insert_appointments _ _ _) as [err|d1] eqn:Hins; [done|].
      cbn [db set_ui]. rewrite fetchAppointments_db. simpl.
      by apply (insert_appointments_keeps _ _ _ _ Hok Hins).
    + unfold mount_dashboard. destruct (profile w); [|done].
      destruct (role_is_student _); [|by rewrite fetchAppointments_db].
      unfold fetchCounselors_a. cbn [db set_ui].
      by rewrite fetchAppointments_db.
Qed.

